(** * APICheck: a shallow embedding of the JSON API test runner

    The repository holds two copies of the program:
    - [src/apicheck/apicheck.py], the packaged module (base URL, guarded
      percentage, sentinel test name), embedded in [Module APICheck];
    - [src/apicheck.py], the older stand-alone script, embedded in
      [Module Script].

    Python values are embedded as the JSON values [json.load] produces,
    exceptions as an inductive type, and the methods of the class as
    computations in a state-and-exception monad over the object's
    attributes, the outside world (clock and HTTP server) and the two
    output streams.  The command line of both copies, once its arguments
    are parsed, is embedded in [Module CommandLine]. *)

From Stdlib Require Import ZArith List String Ascii Bool Lia DecimalString.
From Stdlib Require Import Floats.SpecFloat.
Import ListNotations.

Local Open Scope string_scope.
Local Open Scope Z_scope.

(** ** Python values *)

(** A Python [float] is an IEEE 754 binary64 number. *)
Definition float := spec_float.

(** The values [json.load] and [r.json()] build: [None], [bool], [int],
    [float], [str], [list] and [dict].  A [dict] keeps its keys in
    insertion order and they are pairwise distinct; it is embedded as an
    association list read from the left.  Characters are the 8-bit
    characters of [string] and text is taken to be ASCII; the numbers of
    JSON are finite, and the tokens [NaN] and [Infinity] that Python
    reads besides are left out. *)
#[warnings="-register-all"]
Inductive json : Type :=
| JNull
| JBool (b : bool)
| JInt (z : Z)
| JFloat (f : float)
| JString (s : string)
| JArray (l : list json)
| JObject (kvs : list (string * json)).

Definition dict := list (string * json).

(** The exceptions the program raises or lets through.  [ValueError]
    stands for the class and its subclasses (the JSON decoding errors
    among them); [OtherError] for any class of the HTTP library that is
    neither a [KeyError] nor a [ValueError]. *)
Inductive exn : Type :=
| TestFailedException (msg : string)
| KeyError (key : json)
| ValueError
| TypeError
| AttributeError
| IndexError
| ZeroDivisionError
| OtherError (cls : string).

Inductive result (A : Type) : Type :=
| Ok (a : A)
| Raise (e : exn).
Arguments Ok {A} a.
Arguments Raise {A} e.

Definition is_TestFailedException (e : exn) : bool :=
  match e with TestFailedException _ => true | _ => false end.

(** Code that touches neither the object nor the outside runs in
    [result]: sequencing, [try ... except] and the [for] loop. *)
Definition and_then {A B : Type} (r : result A) (k : A -> result B)
  : result B :=
  match r with
  | Ok a => k a
  | Raise e => Raise e
  end.

Definition catch {A : Type} (r : result A)
           (handler : exn -> option (result A)) : result A :=
  match r with
  | Ok a => Ok a
  | Raise e =>
      match handler e with
      | Some h => h
      | None => Raise e
      end
  end.

Fixpoint each {A : Type} (xs : list A) (body : A -> result unit)
  : result unit :=
  match xs with
  | [] => Ok tt
  | x :: rest => and_then (body x) (fun _ => each rest body)
  end.

Notation "x <-- r ;; k" := (and_then r (fun x => k))
  (at level 61, r at next level, right associativity).

(** ** Floats *)

Definition b64_prec : Z := 53.
Definition b64_emax : Z := 1024.

(** [float(z)] for an integer. *)
Definition float_of_int (z : Z) : float :=
  binary_normalize b64_prec b64_emax z 0 false.

Definition float_sub : float -> float -> float := SFsub b64_prec b64_emax.
Definition float_mul : float -> float -> float := SFmul b64_prec b64_emax.

(** The float nearest to the quotient of two integers: Python rounds the
    exact quotient once.  (It raises [OverflowError] where the quotient
    is beyond the floats; the counts of a run are far from there.) *)
Definition float_of_ratio (a b : Z) : float :=
  let sf z := match z with
              | Z0 => S754_zero false
              | Zpos p => S754_finite false p 0
              | Zneg p => S754_finite true p 0
              end in
  SFdiv b64_prec b64_emax (sf a) (sf b).

(** [a / b] on integers. *)
Definition int_truediv (a b : Z) : result float :=
  if b =? 0 then Raise ZeroDivisionError else Ok (float_of_ratio a b).

(** Exact comparison of an integer with a float, as Python does it. *)
Definition int_float_eqb (z : Z) (f : float) : bool :=
  match f with
  | S754_zero _ => z =? 0
  | S754_finite s m e =>
      let sm := if s then Z.neg m else Z.pos m in
      if 0 <=? e then z =? sm * 2 ^ e
      else (sm mod 2 ^ (- e) =? 0) && (z =? sm / 2 ^ (- e))
  | _ => false
  end.

(** ** Python's [==] on JSON values

    [bool] is a subclass of [int], so [True == 1]; numbers compare by
    value across [int] and [float]; lists compare element by element;
    dicts compare as maps, whatever the order of their keys. *)

Inductive number : Type :=
| NInt (z : Z)
| NFloat (f : float).

Definition as_number (v : json) : option number :=
  match v with
  | JBool b => Some (NInt (if b then 1 else 0))
  | JInt z => Some (NInt z)
  | JFloat f => Some (NFloat f)
  | _ => None
  end.

Definition number_eqb (a b : number) : bool :=
  match a, b with
  | NInt x, NInt y => x =? y
  | NInt x, NFloat g => int_float_eqb x g
  | NFloat f, NInt y => int_float_eqb y f
  | NFloat f, NFloat g => SFeqb f g
  end.

Fixpoint lookup (k : string) (d : dict) : option json :=
  match d with
  | [] => None
  | (k', v) :: rest => if String.eqb k k' then Some v else lookup k rest
  end.

Definition keys (d : dict) : list string := map fst d.

Fixpoint py_eq (a b : json) {struct a} : bool :=
  match a, b with
  | JNull, JNull => true
  | JString s, JString t => String.eqb s t
  | JArray l1, JArray l2 =>
      (fix eq_list (xs ys : list json) {struct xs} : bool :=
         match xs, ys with
         | [], [] => true
         | x :: xs', y :: ys' => py_eq x y && eq_list xs' ys'
         | _, _ => false
         end) l1 l2
  | JObject d1, JObject d2 =>
      Nat.eqb (List.length d1) (List.length d2) &&
      (fix eq_items (d : dict) {struct d} : bool :=
         match d with
         | [] => true
         | (k, v) :: rest =>
             match lookup k d2 with
             | Some w => py_eq v w
             | None => false
             end && eq_items rest
         end) d1
  | _, _ =>
      match as_number a, as_number b with
      | Some x, Some y => number_eqb x y
      | _, _ => false
      end
  end.

Definition py_ne (a b : json) : bool := negb (py_eq a b).

(** ** Subscription, iteration, membership *)

Definition hashable (k : json) : bool :=
  match k with
  | JArray _ | JObject _ => false
  | _ => true
  end.

(** The index a [list] or [str] of length [n] is read at, for an [int]
    (or [bool]) subscript. *)
Definition as_index (k : json) : option Z :=
  match k with
  | JInt i => Some i
  | JBool b => Some (if b then 1 else 0)
  | _ => None
  end.

Definition seq_index {A : Type} (get : nat -> option A) (n : nat) (i : Z)
  : result A :=
  let j := if i <? 0 then i + Z.of_nat n else i in
  if (0 <=? j) && (j <? Z.of_nat n) then
    match get (Z.to_nat j) with
    | Some x => Ok x
    | None => Raise IndexError
    end
  else Raise IndexError.

(** [c[k]] *)
Definition py_getitem (c k : json) : result json :=
  match c with
  | JObject d =>
      if hashable k then
        match k with
        | JString s =>
            match lookup s d with
            | Some v => Ok v
            | None => Raise (KeyError k)
            end
        | _ => Raise (KeyError k)
        end
      else Raise TypeError
  | JArray l =>
      match as_index k with
      | Some i => seq_index (nth_error l) (List.length l) i
      | None => Raise TypeError
      end
  | JString s =>
      match as_index k with
      | Some i =>
          seq_index (fun n => option_map (fun c => JString (String c ""))
                                         (String.get n s))
                    (String.length s) i
      | None => Raise TypeError
      end
  | _ => Raise TypeError
  end.

Fixpoint chars (s : string) : list json :=
  match s with
  | EmptyString => []
  | String c rest => JString (String c "") :: chars rest
  end.

(** The values [for key in c] runs through. *)
Definition py_iter (c : json) : result (list json) :=
  match c with
  | JObject d => Ok (map JString (keys d))
  | JArray l => Ok l
  | JString s => Ok (chars s)
  | _ => Raise TypeError
  end.

Fixpoint is_substring (needle s : string) : bool :=
  String.prefix needle s ||
  match s with
  | EmptyString => false
  | String _ rest => is_substring needle rest
  end.

(** [needle in c] for a [str] needle. *)
Definition py_contains (needle : string) (c : json) : result bool :=
  match c with
  | JObject d => Ok (existsb (String.eqb needle) (keys d))
  | JArray l => Ok (existsb (py_eq (JString needle)) l)
  | JString s => Ok (is_substring needle s)
  | _ => Raise TypeError
  end.

(** ** Strings *)

Definition upper_ascii (c : ascii) : ascii :=
  let n := nat_of_ascii c in
  if (Nat.leb 97 n && Nat.leb n 122)%bool then ascii_of_nat (n - 32) else c.

(** [s.upper()] *)
Fixpoint upper (s : string) : string :=
  match s with
  | EmptyString => EmptyString
  | String c rest => String (upper_ascii c) (upper rest)
  end.

Definition tab : string := String (ascii_of_nat 9) "".
Definition nl : string := String (ascii_of_nat 10) "".

(** [str(type(v))] *)
Definition type_str (v : json) : string :=
  match v with
  | JNull => "<class 'NoneType'>"
  | JBool _ => "<class 'bool'>"
  | JInt _ => "<class 'int'>"
  | JFloat _ => "<class 'float'>"
  | JString _ => "<class 'str'>"
  | JArray _ => "<class 'list'>"
  | JObject _ => "<class 'dict'>"
  end.

(** The three classes the type checks use, [str], [int] and [float]. *)
Inductive pytype : Type := Tstr | Tint | Tfloat.

Definition pytype_str (t : pytype) : string :=
  match t with
  | Tstr => "<class 'str'>"
  | Tint => "<class 'int'>"
  | Tfloat => "<class 'float'>"
  end.

(** [isinstance(v, t)]: a [bool] is an instance of [int]. *)
Definition isinstance (v : json) (t : pytype) : bool :=
  match t, v with
  | Tstr, JString _ => true
  | Tint, JInt _ => true
  | Tint, JBool _ => true
  | Tfloat, JFloat _ => true
  | _, _ => false
  end.

(** ** What the program takes from Python and from the outside *)

(** The library functions whose text output the program only passes on. *)
Class Builtins : Type := {
  (** [repr(v)] *)
  repr : json -> string;
  (** ["%i" % z] *)
  format_int : Z -> string;
  (** ["%.<d>f" % x] *)
  format_float : nat -> float -> string;
  (** [round(x, n)] *)
  round_float : float -> Z -> float;
  (** the chunks [json.dump(v, stream, indent=4)] writes *)
  json_dump : json -> list string
}.

Inductive http_method : Type := GET | POST.

(** A call of [requests.get(url)], [requests.post(url)] or
    [requests.post(url, json=payload)]. *)
Record request : Type := mkRequest {
  req_method : http_method;
  req_url : json;
  req_json : option json
}.

(** The outside world: [clock] is [time.time()]; [send] performs the
    request and decodes the body with [r.json()], so that it yields the
    decoded value, raises [ValueError] when the body is not JSON, or
    raises whatever the HTTP library raised. *)
Class World (W : Type) : Type := {
  clock : W -> float * W;
  send : request -> W -> result json * W
}.

(** [str(v)]: a [str] is its own text, anything else prints as [repr]. *)
Definition str `{Builtins} (v : json) : string :=
  match v with
  | JString s => s
  | _ => repr v
  end.

(** [a + b] where [a] is a [str] *)
Definition str_add (a : string) (b : json) : result string :=
  match b with
  | JString s => Ok (a ++ s)
  | _ => Raise TypeError
  end.

(** [v.upper()]: only a [str] has the method. *)
Definition py_upper (v : json) : result string :=
  match v with
  | JString s => Ok (upper s)
  | _ => Raise AttributeError
  end.

(** ["%.<d>f" % v] *)
Definition percent_f `{Builtins} (d : nat) (v : json) : result string :=
  match as_number v with
  | Some (NInt z) => Ok (format_float d (float_of_int z))
  | Some (NFloat f) => Ok (format_float d f)
  | None => Raise TypeError
  end.

(** ** The object and the machine *)

(** The attributes of an [APICheck] instance.  [results] is absent until
    [run_all_tests] has run; the stand-alone script has no [base_url]. *)
Record APICheck : Type := mkAPICheck {
  base_url : string;
  tests : json;
  passed : Z;
  failed : Z;
  total_elapsed_time : json;
  results : option (list json)
}.

Definition set_passed (z : Z) (o : APICheck) : APICheck :=
  mkAPICheck (base_url o) (tests o) z (failed o) (total_elapsed_time o)
             (results o).
Definition set_failed (z : Z) (o : APICheck) : APICheck :=
  mkAPICheck (base_url o) (tests o) (passed o) z (total_elapsed_time o)
             (results o).
Definition set_total_elapsed_time (t : json) (o : APICheck) : APICheck :=
  mkAPICheck (base_url o) (tests o) (passed o) (failed o) t (results o).
Definition set_results (r : option (list json)) (o : APICheck) : APICheck :=
  mkAPICheck (base_url o) (tests o) (passed o) (failed o)
             (total_elapsed_time o) r.

(** The stream a report goes to: [sys.stdout] or the opened file. *)
Inductive stream : Type := Stdout | Outfile.

(** Each stream is the list of the strings written to it, oldest first. *)
Record machine (W : Type) : Type := mkMachine {
  self : APICheck;
  world : W;
  stdout : list string;
  outfile : list string
}.
Arguments mkMachine {W}.
Arguments self {W}.
Arguments world {W}.
Arguments stdout {W}.
Arguments outfile {W}.

Definition M (W A : Type) : Type := machine W -> result A * machine W.

Section Monad.
Context {W : Type}.

Definition ret {A : Type} (a : A) : M W A := fun s => (Ok a, s).

Definition raise {A : Type} (e : exn) : M W A := fun s => (Raise e, s).

Definition bind {A B : Type} (m : M W A) (k : A -> M W B) : M W B :=
  fun s =>
    match m s with
    | (Ok a, s') => k a s'
    | (Raise e, s') => (Raise e, s')
    end.

Definition lift {A : Type} (r : result A) : M W A := fun s => (r, s).

(** [try: body  except <classes>: handler]; [handler e] is [None] for
    an exception no clause matches. *)
Definition try_except {A : Type} (body : M W A)
           (handler : exn -> option (M W A)) : M W A :=
  fun s =>
    match body s with
    | (Ok a, s') => (Ok a, s')
    | (Raise e, s') =>
        match handler e with
        | Some h => h s'
        | None => (Raise e, s')
        end
    end.

Definition get_self : M W APICheck := fun s => (Ok (self s), s).

Definition modify_self (f : APICheck -> APICheck) : M W unit :=
  fun s => (Ok tt, mkMachine (f (self s)) (world s) (stdout s) (outfile s)).

(** [stream.write(text)] *)
Definition write (out : stream) (text : string) : M W unit :=
  fun s =>
    match out with
    | Stdout =>
        (Ok tt,
         mkMachine (self s) (world s) (stdout s ++ [text])%list (outfile s))
    | Outfile =>
        (Ok tt,
         mkMachine (self s) (world s) (stdout s) (outfile s ++ [text])%list)
    end.

(** [print(text)] *)
Definition print (text : string) : M W unit := write Stdout (text ++ nl).

Fixpoint for_each {A : Type} (xs : list A) (body : A -> M W unit)
  : M W unit :=
  match xs with
  | [] => ret tt
  | x :: rest => bind (body x) (fun _ => for_each rest body)
  end.

Context `{World W}.

(** [time.time()] *)
Definition time_time : M W float :=
  fun s =>
    let (t, w) := clock (world s) in
    (Ok t, mkMachine (self s) w (stdout s) (outfile s)).

(** The request followed by [r.json()]. *)
Definition requests_json (req : request) : M W json :=
  fun s =>
    let (r, w) := send req (world s) in
    (r, mkMachine (self s) w (stdout s) (outfile s)).
End Monad.

Notation "x <- m ;; k" := (bind m (fun x => k))
  (at level 61, m at next level, right associativity).
Notation "m ;;; k" := (bind m (fun _ => k))
  (at level 61, right associativity).

(** ** Statements the two files share *)

Section Shared.
Context `{Builtins} {W : Type}.

(** [self.results.append(r)] *)
Definition results_append (r : json) : M W unit :=
  o <- get_self ;;
  match results o with
  | Some rs => modify_self (set_results (Some (rs ++ [r])%list))
  | None => raise AttributeError
  end.

(** [self.results] *)
Definition get_results : M W (list json) :=
  o <- get_self ;;
  match results o with
  | Some rs => ret rs
  | None => raise AttributeError
  end.

(** The text report of one entry of [self.results]: the body of the
    loop that ends [__output_results]. *)
Definition write_result (outstream : stream) (res : json) : M W unit :=
  name <- lift (py_getitem res (JString "name")) ;;
  write outstream (str name ++ nl) ;;;
  status <- lift (py_getitem res (JString "status")) ;;
  write outstream (tab ++ "Status:" ++ str status ++ nl) ;;;
  elapsed <- lift (py_getitem res (JString "elapsed_time")) ;;
  text <- lift (percent_f 6 elapsed) ;;
  write outstream (tab ++ "Elapsed time: " ++ text ++ nl) ;;;
  status' <- lift (py_getitem res (JString "status")) ;;
  if py_eq status' (JString "FAILED") then
    error_msg <- lift (py_getitem res (JString "error_msg")) ;;
    write outstream (tab ++ "Error message: " ++ str error_msg ++ nl)
  else ret tt.

End Shared.

(** ** [src/apicheck/apicheck.py] *)

Module APICheck.
Section Methods.
Context `{Builtins} {W : Type} `{World W}.

(** [APICheck.__init__], for the tests [json.load] read from the file. *)
Definition init (base : string) (loaded : json) : APICheck :=
  mkAPICheck base loaded 0 0 (JInt 0) None.

Definition __get_expected_type_error_message
           (key val : json) (expected_type : pytype) : string :=
  "Invalid type at key '" ++ str key ++ "'. Expected '"
    ++ pytype_str expected_type ++ "' got '" ++ type_str val ++ "'.".

Definition __test_expected_type (key val : json) (exp_type : pytype)
  : result unit :=
  if negb (isinstance val exp_type) then
    Raise (TestFailedException
             (__get_expected_type_error_message key val exp_type))
  else Ok tt.

(** Lines 229-247: the request and the decoding of its answer. *)
Definition send_request (test : json) : M W json :=
  name <- lift (py_getitem test (JString "name")) ;;
  o <- get_self ;;
  u <- lift (py_getitem test (JString "url")) ;;
  url <- lift (str_add (base_url o) u) ;;
  method <- lift (py_getitem test (JString "method")) ;;
  m <- lift (py_upper method) ;;
  if String.eqb m "GET" then
    requests_json (mkRequest GET (JString url) None)
  else
    m' <- lift (py_upper method) ;;
    if String.eqb m' "POST" then
      has <- lift (py_contains "payload" test) ;;
      if has : bool then
        payload <- lift (py_getitem test (JString "payload")) ;;
        requests_json (mkRequest POST (JString url) (Some payload))
      else
        requests_json (mkRequest POST (JString url) None)
    else
      raise (TestFailedException
               "Malformed test. Allowed methods are GET and POST").

(** Lines 225-255. *)
Definition fetch_response (test : json) : M W json :=
  try_except (send_request test)
    (fun e =>
       match e with
       | KeyError k =>
           Some (raise (TestFailedException
                          ("Malformed test. Must provide '" ++ str k
                             ++ "' in tests file.")))
       | ValueError =>
           Some (raise (TestFailedException
                          "Could not decode JSON from response."))
       | _ => None
       end).

(** Lines 260-271: the checks for expected exact values. *)
Definition check_values (test resp : json) : result unit :=
  has <-- py_contains "expected_response_values" test ;;
  if has : bool then
    expected <-- py_getitem test (JString "expected_response_values") ;;
    ks <-- py_iter expected ;;
    each ks (fun key =>
      expected' <-- py_getitem test (JString "expected_response_values") ;;
      exp_val <-- py_getitem expected' key ;;
      actual <-- py_getitem resp key ;;
      if py_ne exp_val actual then
        actual' <-- py_getitem resp key ;;
        Raise (TestFailedException
                 ("Expected value '" ++ str exp_val ++ "' at key '"
                    ++ str key ++ "' but got '" ++ str actual' ++ "'."))
      else Ok tt)
  else Ok tt.

(** Lines 274-289: the checks for expected types. *)
Definition check_types (test resp : json) : result unit :=
  has <-- py_contains "expected_response_types" test ;;
  if has : bool then
    expected <-- py_getitem test (JString "expected_response_types") ;;
    ks <-- py_iter expected ;;
    each ks (fun key =>
      expected' <-- py_getitem test (JString "expected_response_types") ;;
      exp_type <-- py_getitem expected' key ;;
      val <-- py_getitem resp key ;;
      if py_eq exp_type (JString "string") then
        __test_expected_type key val Tstr
      else if py_eq exp_type (JString "int") then
        __test_expected_type key val Tint
      else if py_eq exp_type (JString "float") then
        __test_expected_type key val Tfloat
      else
        Raise (TestFailedException
                 "Malformed test. Expected types allowed: 'str', 'int', 'float'"))
  else Ok tt.

(** Lines 257-293. *)
Definition run_checks (test resp : json) : result unit :=
  catch (_ <-- check_values test resp ;; check_types test resp)
    (fun e =>
       match e with
       | KeyError k =>
           Some (Raise (TestFailedException
                          ("Expected key '" ++ str k ++ "' not found.")))
       | _ => None
       end).

Definition __run_test (test : json) : M W unit :=
  resp <- fetch_response test ;;
  lift (run_checks test resp).

(** The body of the loop of [run_all_tests], lines 153-192. *)
Definition run_one (test : json) : M W unit :=
  test_start_time <- time_time ;;
  try_except
    (__run_test test ;;;
     now <- time_time ;;
     let test_elapsed_time := float_sub now test_start_time in
     name <- lift (py_getitem test (JString "name")) ;;
     results_append
       (JObject [("name", name);
                 ("status", JString "PASSED");
                 ("elapsed_time", JFloat test_elapsed_time)]) ;;;
     o <- get_self ;;
     modify_self (set_passed (passed o + 1)))
    (fun e =>
       match e with
       | TestFailedException msg =>
           Some
             (now <- time_time ;;
              let test_elapsed_time := float_sub now test_start_time in
              test_name <-
                try_except (lift (py_getitem test (JString "name")))
                  (fun e' =>
                     match e' with
                     | KeyError _ =>
                         Some (ret (JString "ERROR: NAME NOT PROVIDED"))
                     | _ => None
                     end) ;;
              results_append
                (JObject [("name", test_name);
                          ("status", JString "FAILED");
                          ("elapsed_time", JFloat test_elapsed_time);
                          ("error_msg", JString msg)]) ;;;
              o <- get_self ;;
              modify_self (set_failed (failed o + 1)))
       | _ => None
       end).

Definition run_all_tests : M W unit :=
  modify_self (set_results (Some [])) ;;;
  total_start_time <- time_time ;;
  modify_self (set_passed 0) ;;;
  modify_self (set_failed 0) ;;;
  o <- get_self ;;
  ts <- lift (py_iter (tests o)) ;;
  for_each ts run_one ;;;
  now <- time_time ;;
  modify_self
    (set_total_elapsed_time (JFloat (float_sub now total_start_time))).

(** The guarded percentage, lines 330-332. *)
Definition success_percent (o : APICheck) : result float :=
  let total_tests := passed o + failed o in
  let total_tests := if total_tests >? 0 then total_tests else 1 in
  q <-- int_truediv (passed o) total_tests ;;
  Ok (float_mul q (float_of_int 100)).

Definition __output_results (format : string) (outstream : stream)
  : M W unit :=
  try_except
    (o <- get_self ;;
     success_percent <- lift (success_percent o) ;;
     if String.eqb (upper format) "JSON" then
       rs <- get_results ;;
       let res_json :=
         JObject
           [("summary",
             JObject [("passed", JInt (passed o));
                      ("failed", JInt (failed o));
                      ("success_percentage", JFloat success_percent);
                      ("total_elapsed_time", total_elapsed_time o)]);
            ("test_results", JArray rs)] in
       for_each (json_dump res_json) (write outstream)
     else if String.eqb (upper format) "TEXT" then
       write outstream ("***" ++ nl) ;;;
       write outstream ("TEST SUMMARY" ++ nl) ;;;
       write outstream ("------------" ++ nl) ;;;
       write outstream ("Tests passed: " ++ format_int (passed o) ++ nl) ;;;
       write outstream ("Tests failed: " ++ format_int (failed o) ++ nl) ;;;
       write outstream
         ("Success percentage : "
            ++ format_float 2 (round_float success_percent 2)
            ++ "%" ++ nl) ;;;
       text <- lift (percent_f 3 (total_elapsed_time o)) ;;
       write outstream ("Total elapsed time: " ++ text ++ " seconds" ++ nl) ;;;
       write outstream ("***" ++ nl) ;;;
       rs <- get_results ;;
       for_each rs (write_result outstream)
     else ret tt)
    (fun e =>
       match e with
       | KeyError k => Some (print (repr k))
       | _ => None
       end).

Definition print_results (format : string) : M W unit :=
  __output_results format Stdout.

(** [open(fname, 'w')] empties the file before the report is written. *)
Definition write_results_to_file (format : string) : M W unit :=
  (fun s => (Ok tt, mkMachine (self s) (world s) (stdout s) [])) ;;;
  __output_results format Outfile.
End Methods.
End APICheck.

(** ** [src/apicheck.py] *)

Module Script.
Section Methods.
Context `{Builtins} {W : Type} `{World W}.

(** [APICheck.__init__]: this copy has no base URL. *)
Definition init (loaded : json) : APICheck :=
  mkAPICheck "" loaded 0 0 (JInt 0) None.

(** The method the class defines, lines 365-375.  Inside the class its
    name is mangled to [_APICheck__get_type_error_message]. *)
Definition __get_type_error_message (key val expected_type : json)
  : string :=
  "Invalid type at key '" ++ str key ++ "'. Expected '"
    ++ str expected_type ++ "' got '" ++ type_str val ++ "'.".

(** [self.get_type_error_message], the method the type checks call: the
    instance has no attribute of that name. *)
Definition get_type_error_message : result (json -> json -> json -> string) :=
  Raise AttributeError.

(** Lines 229-247. *)
Definition send_request (test : json) : M W json :=
  name <- lift (py_getitem test (JString "name")) ;;
  url <- lift (py_getitem test (JString "url")) ;;
  method <- lift (py_getitem test (JString "method")) ;;
  m <- lift (py_upper method) ;;
  if String.eqb m "GET" then
    requests_json (mkRequest GET url None)
  else
    m' <- lift (py_upper method) ;;
    if String.eqb m' "POST" then
      has <- lift (py_contains "payload" test) ;;
      if has : bool then
        payload <- lift (py_getitem test (JString "payload")) ;;
        requests_json (mkRequest POST url (Some payload))
      else
        requests_json (mkRequest POST url None)
    else
      raise (TestFailedException
               "Malformed test. Allowed methods are GET and POST").

(** Lines 225-255. *)
Definition fetch_response (test : json) : M W json :=
  try_except (send_request test)
    (fun e =>
       match e with
       | KeyError k =>
           Some (raise (TestFailedException
                          ("Malformed test. Must provide '" ++ str k
                             ++ "' in tests file.")))
       | ValueError =>
           Some (raise (TestFailedException
                          "Could not decode JSON from response."))
       | _ => None
       end).

(** Lines 260-271, the same text as in the packaged module. *)
Definition check_values : json -> json -> result unit :=
  APICheck.check_values.

(** One branch of lines 280-302:
    [if not isinstance(resp[key], t): raise TestFailedException(...)]. *)
Definition check_instance (key resp exp_type : json) (t : pytype)
  : result unit :=
  val <-- py_getitem resp key ;;
  if negb (isinstance val t) then
    method <-- get_type_error_message ;;
    val' <-- py_getitem resp key ;;
    Raise (TestFailedException (method key val' exp_type))
  else Ok tt.

(** The literal of lines 305-306 goes on after a backslash: the tabs
    and spaces that begin line 306 are part of it. *)
Definition malformed_types_msg : string :=
  "Malformed test. " ++ tab ++ tab ++ tab ++ tab ++ tab ++ tab ++ tab
    ++ "  Expected types allowed: 'str', 'int', 'float'".

(** Lines 274-306. *)
Definition check_types (test resp : json) : result unit :=
  has <-- py_contains "expected_response_types" test ;;
  if has : bool then
    expected <-- py_getitem test (JString "expected_response_types") ;;
    ks <-- py_iter expected ;;
    each ks (fun key =>
      expected' <-- py_getitem test (JString "expected_response_types") ;;
      exp_type <-- py_getitem expected' key ;;
      if py_eq exp_type (JString "string") then
        check_instance key resp exp_type Tstr
      else if py_eq exp_type (JString "int") then
        check_instance key resp exp_type Tint
      else if py_eq exp_type (JString "float") then
        check_instance key resp exp_type Tfloat
      else
        Raise (TestFailedException malformed_types_msg))
  else Ok tt.

(** Lines 257-310. *)
Definition run_checks (test resp : json) : result unit :=
  catch (_ <-- check_values test resp ;; check_types test resp)
    (fun e =>
       match e with
       | KeyError k =>
           Some (Raise (TestFailedException
                          ("Expected key '" ++ str k ++ "' not found.")))
       | _ => None
       end).

Definition __run_test (test : json) : M W unit :=
  resp <- fetch_response test ;;
  lift (run_checks test resp).

(** The body of the loop of [run_all_tests], lines 157-191. *)
Definition run_one (test : json) : M W unit :=
  test_start_time <- time_time ;;
  try_except
    (__run_test test ;;;
     now <- time_time ;;
     let test_elapsed_time := float_sub now test_start_time in
     name <- lift (py_getitem test (JString "name")) ;;
     results_append
       (JObject [("name", name);
                 ("status", JString "PASSED");
                 ("elapsed_time", JFloat test_elapsed_time)]) ;;;
     o <- get_self ;;
     modify_self (set_passed (passed o + 1)))
    (fun e =>
       match e with
       | TestFailedException msg =>
           Some
             (now <- time_time ;;
              let test_elapsed_time := float_sub now test_start_time in
              name <- lift (py_getitem test (JString "name")) ;;
              results_append
                (JObject [("name", name);
                          ("status", JString "FAILED");
                          ("elapsed_time", JFloat test_elapsed_time);
                          ("error_msg", JString msg)]) ;;;
              o <- get_self ;;
              modify_self (set_failed (failed o + 1)))
       | _ => None
       end).

Definition run_all_tests : M W unit :=
  modify_self (set_results (Some [])) ;;;
  total_start_time <- time_time ;;
  modify_self (set_passed 0) ;;;
  modify_self (set_failed 0) ;;;
  o <- get_self ;;
  ts <- lift (py_iter (tests o)) ;;
  for_each ts run_one ;;;
  now <- time_time ;;
  modify_self
    (set_total_elapsed_time (JFloat (float_sub now total_start_time))).

(** The percentage of line 322, with no guard. *)
Definition success_percent (o : APICheck) : result float :=
  q <-- int_truediv (passed o) (passed o + failed o) ;;
  Ok (float_mul q (float_of_int 100)).

Definition __output_results (format : string) (outstream : stream)
  : M W unit :=
  try_except
    (o <- get_self ;;
     success_percent <- lift (success_percent o) ;;
     if String.eqb (upper format) "JSON" then
       rs <- get_results ;;
       let res_json :=
         JObject
           [("summary",
             JObject [("passed", JInt (passed o));
                      ("failed", JInt (failed o));
                      ("success_percentage", JFloat success_percent);
                      ("total_elapsed_time", total_elapsed_time o)]);
            ("test_results", JArray rs)] in
       for_each (json_dump res_json) (write outstream)
     else if String.eqb (upper format) "TEXT" then
       write outstream ("***" ++ nl) ;;;
       write outstream ("TEST SUMMARY" ++ nl) ;;;
       write outstream ("------------" ++ nl) ;;;
       write outstream ("Tests passed: " ++ format_int (passed o) ++ nl) ;;;
       write outstream ("Tests failed: " ++ format_int (failed o) ++ nl) ;;;
       write outstream
         ("Success percentage : "
            ++ format_float 2 (round_float success_percent 2)
            ++ "%" ++ nl) ;;;
       text <- lift (percent_f 3 (total_elapsed_time o)) ;;
       write outstream ("Total elapsed time: " ++ text ++ " seconds" ++ nl) ;;;
       write outstream ("***" ++ nl) ;;;
       rs <- get_results ;;
       for_each rs (write_result outstream)
     else ret tt)
    (fun e =>
       match e with
       | KeyError k => Some (print (repr k))
       | _ => None
       end).

Definition print_results (format : string) : M W unit :=
  __output_results format Stdout.

Definition write_results_to_file (format : string) : M W unit :=
  (fun s => (Ok tt, mkMachine (self s) (world s) (stdout s) [])) ;;;
  __output_results format Outfile.
End Methods.
End Script.

(** ** The command line *)

(** The file of the tests as the program reads it: [open(fname)]
    followed by [json.load].  It yields the decoded value, or raises
    [FileNotFoundError] where there is no such file, [ValueError] where
    the content is not JSON, or whatever else the system raised. *)
Class Files (W : Type) : Type := {
  json_load : string -> W -> result json * W
}.

Definition FileNotFoundError : exn := OtherError "FileNotFoundError".

(** [except FileNotFoundError] *)
Definition is_FileNotFoundError (e : exn) : bool :=
  match e with
  | OtherError cls => String.eqb cls "FileNotFoundError"
  | _ => false
  end.

(** How the command ends: it returns, it calls [exit(status)], or an
    exception that no clause catches goes up. *)
Inductive ending : Type :=
| Returned
| Exited (status : Z)
| Uncaught (e : exn).

Module CommandLine.
Section Main.
Context `{Builtins} {W : Type} `{World W} `{Files W}.

(** The two [except] clauses that end [main] and the script. *)
Definition on_error (test_file_name : string) (e : exn)
           (w : W) (out : list string) : ending * (W * list string) :=
  if is_FileNotFoundError e then
    (Exited 1,
     (w, (out ++ [("Cannot open file '" ++ test_file_name
                     ++ "'. File not found." ++ nl)%string])%list))
  else
    match e with
    | ValueError =>
        (Exited 1,
         (w, (out ++ [("Cannot decode JSON from file '"
                         ++ test_file_name ++ "'." ++ nl)%string])%list))
    | _ => (Uncaught e, (w, out))
    end.

(** [main] of [src/apicheck/apicheck.py], lines 375-401, once the
    arguments are parsed.  The state is the outside world and the
    standard output; no file is opened for writing. *)
Definition main (api_base_url test_file_name format : string)
           (w : W) (out : list string) : ending * (W * list string) :=
  match json_load test_file_name w with
  | (Ok loaded, w1) =>
      let checker :=
        mkMachine (APICheck.init api_base_url loaded) w1 out [] in
      match (APICheck.run_all_tests ;;;
             APICheck.print_results format) checker with
      | (Ok _, s) => (Returned, (world s, stdout s))
      | (Raise e, s) => on_error test_file_name e (world s) (stdout s)
      end
  | (Raise e, w1) => on_error test_file_name e w1 out
  end.

(** The command of [src/apicheck.py], lines 378-404. *)
Definition script_main (test_file_name format : string)
           (w : W) (out : list string) : ending * (W * list string) :=
  match json_load test_file_name w with
  | (Ok loaded, w1) =>
      let checker := mkMachine (Script.init loaded) w1 out [] in
      match (Script.run_all_tests ;;;
             Script.print_results format) checker with
      | (Ok _, s) => (Returned, (world s, stdout s))
      | (Raise e, s) => on_error test_file_name e (world s) (stdout s)
      end
  | (Raise e, w1) => on_error test_file_name e w1 out
  end.
End Main.
End CommandLine.
(** ** Vocabulary of the properties *)

(** A relation between the machine before and after that every run of a
    computation keeps. *)
Definition preserves {W A : Type} (R : machine W -> machine W -> Prop)
           (m : M W A) : Prop :=
  forall s r s', m s = (r, s') -> R s s'.

(** Only the outside world moves. *)
Definition world_only {W : Type} (s s' : machine W) : Prop :=
  self s' = self s /\ stdout s' = stdout s /\ outfile s' = outfile s.

(** Only the two streams move. *)
Definition streams_only {W : Type} (s s' : machine W) : Prop :=
  self s' = self s /\ world s' = world s.

(** The entries [run_all_tests] appends to [self.results]. *)
Definition passed_entry (name : json) (elapsed : float) : json :=
  JObject [("name", name);
           ("status", JString "PASSED");
           ("elapsed_time", JFloat elapsed)].

Definition failed_entry (name : json) (elapsed : float) (msg : string) : json :=
  JObject [("name", name);
           ("status", JString "FAILED");
           ("elapsed_time", JFloat elapsed);
           ("error_msg", JString msg)].

(** The name an entry carries: the test's, or the sentinel. *)
Definition name_or_sentinel (test : json) : json :=
  match py_getitem test (JString "name") with
  | Ok name => name
  | Raise _ => JString "ERROR: NAME NOT PROVIDED"
  end.

(** The object after a result was recorded. *)
Definition record_passed (entry : json) (rs : list json) (o : APICheck)
  : APICheck :=
  set_passed (passed o + 1) (set_results (Some (rs ++ [entry])%list) o).

Definition record_failed (entry : json) (rs : list json) (o : APICheck)
  : APICheck :=
  set_failed (failed o + 1) (set_results (Some (rs ++ [entry])%list) o).

(** [entry["status"] == st] *)
Definition status_is (st : string) (entry : json) : bool :=
  match py_getitem entry (JString "status") with
  | Ok v => py_eq v (JString st)
  | Raise _ => false
  end.

Definition count_status (st : string) (rs : list json) : nat :=
  List.length (filter (status_is st) rs).

(** [entry] is the result recorded for [test]. *)
Definition entry_of (test entry : json) : Prop :=
  exists elapsed,
    entry = passed_entry (name_or_sentinel test) elapsed \/
    exists msg, entry = failed_entry (name_or_sentinel test) elapsed msg.

(** ** Stand-ins for running the program

    A world and a set of builtins to evaluate the program on: the clock
    counts seconds, the server answers by the URL alone, and the builtins
    print integers, booleans and [None] as Python does and no more than
    the kind of anything else.  Every theorem below that is not an
    evaluation holds for all worlds and builtins. *)

Definition decimal (z : Z) : string := NilZero.string_of_int (Z.to_int z).

Definition stub_repr (v : json) : string :=
  match v with
  | JNull => "None"
  | JBool true => "True"
  | JBool false => "False"
  | JInt z => decimal z
  | JFloat _ => "<float>"
  | JString s => "'" ++ s ++ "'"
  | JArray _ => "<list>"
  | JObject _ => "<dict>"
  end.

#[export] Instance stub_builtins : Builtins := {|
  repr := stub_repr;
  format_int := decimal;
  format_float := fun _ _ => "<float>";
  round_float := fun x _ => x;
  json_dump := fun _ => ["<json>"]
|}.

(** 3.14 as a binary64 number. *)
Definition float_3_14 : float := S754_finite false 7070651414971679 (-51).

Definition stub_server (req : request) : result json :=
  match req_url req with
  | JString "http://host/item" =>
      Ok (JObject [("id", JInt 1); ("price", JFloat float_3_14);
                   ("stock", JBool true); ("title", JString "a")])
  | JString "http://host/items" => Ok (JArray [])
  | JString "http://host/page" => Raise ValueError
  | _ => Raise (OtherError "ConnectionError")
  end.

#[export] Instance stub_world : World Z := {|
  clock := fun t => (float_of_int t, t + 1);
  send := fun req t => (stub_server req, t)
|}.

(** The machine at the start: the object as [__init__] leaves it. *)
Definition boot (o : APICheck) : machine Z := mkMachine o 0 [] [].

(** The exceptions [__run_test] turns into a [TestFailedException] when
    the request raises them: its own, a [KeyError] and a [ValueError]. *)
Definition reported_by_request (e : exn) : bool :=
  match e with
  | TestFailedException _ | KeyError _ | ValueError => true
  | _ => false
  end.

(** The same for the checks: its own and a [KeyError]. *)
Definition reported_by_checks (e : exn) : bool :=
  match e with
  | TestFailedException _ | KeyError _ => true
  | _ => false
  end.

(** A test whose expected value is compared with a response that is a
    list, and one that passes beside one with a bad method. *)
Definition test_on_list : json :=
  JObject [("name", JString "count");
           ("url", JString "/items");
           ("method", JString "GET");
           ("expected_response_values", JObject [("id", JInt 1)])].

Definition test_item_id : json :=
  JObject [("name", JString "item");
           ("url", JString "/item");
           ("method", JString "get");
           ("expected_response_values", JObject [("id", JInt 1)])].

Definition test_put : json :=
  JObject [("name", JString "put");
           ("url", JString "/item");
           ("method", JString "PUT")].

(** Two strings are the same but for the case of their letters. *)
Definition same_ignoring_case (a b : string) : bool :=
  String.eqb (upper a) (upper b).

(** Steps 2 and 3 of the engine as the specification words them: the
    URL is the base URL followed by the case's [url]; the method is
    compared with GET and POST whatever its case; GET sends no body, POST
    sends the payload as JSON when the case has one; any other method is
    a malformed test. *)
Definition dispatch (base url method : string) (payload : option json)
  : request + string :=
  if same_ignoring_case method "GET" then
    inl (mkRequest GET (JString (base ++ url)) None)
  else if same_ignoring_case method "POST" then
    inl (mkRequest POST (JString (base ++ url)) payload)
  else inr "Malformed test. Allowed methods are GET and POST".

Definition test_post : json :=
  JObject [("name", JString "create");
           ("url", JString "/item");
           ("method", JString "Post");
           ("payload", JObject [("title", JString "a")])].


(** The machine after [texts] were written to [out]. *)
Definition append_to {W : Type} (out : stream) (texts : list string)
           (s : machine W) : machine W :=
  match out with
  | Stdout => mkMachine (self s) (world s) (stdout s ++ texts) (outfile s)
  | Outfile => mkMachine (self s) (world s) (stdout s) (outfile s ++ texts)
  end.

(** An entry as [run_all_tests] builds them. *)
Definition entry_shape (entry : json) : Prop :=
  exists name elapsed,
    entry = passed_entry name elapsed \/
    exists msg, entry = failed_entry name elapsed msg.

(** The percentage the specification asks for: passed over passed plus
    failed, times 100, and 0 when no test ran. *)
Definition percentage (p f : Z) : float :=
  if p + f =? 0 then S754_zero false
  else float_mul (float_of_ratio p (p + f)) (float_of_int 100).

(** Equality of JSON values as the specification words it: deep and
    structural, numbers compared by value, strings by content, objects
    whatever the order of their members.  A boolean is equal to a
    boolean only. *)
Fixpoint json_equal (a b : json) {struct a} : bool :=
  match a, b with
  | JNull, JNull => true
  | JBool x, JBool y => Bool.eqb x y
  | JInt x, JInt y => x =? y
  | JInt x, JFloat g => int_float_eqb x g
  | JFloat f, JInt y => int_float_eqb y f
  | JFloat f, JFloat g => SFeqb f g
  | JString s, JString t => String.eqb s t
  | JArray l1, JArray l2 =>
      (fix eq_list (xs ys : list json) {struct xs} : bool :=
         match xs, ys with
         | [], [] => true
         | x :: xs', y :: ys' => json_equal x y && eq_list xs' ys'
         | _, _ => false
         end) l1 l2
  | JObject d1, JObject d2 =>
      Nat.eqb (List.length d1) (List.length d2) &&
      (fix eq_items (d : dict) {struct d} : bool :=
         match d with
         | [] => true
         | (k, v) :: rest =>
             match lookup k d2 with
             | Some w => json_equal v w
             | None => false
             end && eq_items rest
         end) d1
  | _, _ => false
  end.

(** A JSON value as Python's [==] sees it: [True] is 1 and [False] is 0. *)
Fixpoint as_python (v : json) : json :=
  match v with
  | JBool b => JInt (if b then 1 else 0)
  | JArray l => JArray (map as_python l)
  | JObject d => JObject (map (fun kv => (fst kv, as_python (snd kv))) d)
  | _ => v
  end.

(** The message for a key the response lacks. *)
Definition key_not_found (k : string) : string :=
  "Expected key '" ++ k ++ "' not found.".

(** The first failure among the keys, in their order. *)
Fixpoint first_failure (failure : string -> option string)
         (ks : list string) : option string :=
  match ks with
  | [] => None
  | k :: rest =>
      match failure k with
      | Some msg => Some msg
      | None => first_failure failure rest
      end
  end.

(** Step 5 for one key: the key must be in the response, with a value
    equal to the expected one. *)
Definition value_failure `{Builtins} (expected resp : dict) (k : string)
  : option string :=
  match lookup k expected with
  | None => None
  | Some exp_val =>
      match lookup k resp with
      | None => Some (key_not_found k)
      | Some actual =>
          if json_equal (as_python exp_val) (as_python actual) then None
          else Some ("Expected value '" ++ str exp_val ++ "' at key '" ++ k
                       ++ "' but got '" ++ str actual ++ "'.")
      end
  end.

(** The class a type tag stands for. *)
Definition tag_type (tag : json) : option pytype :=
  match tag with
  | JString t =>
      if String.eqb t "string" then Some Tstr
      else if String.eqb t "int" then Some Tint
      else if String.eqb t "float" then Some Tfloat
      else None
  | _ => None
  end.

(** Step 6 for one key: the key must be in the response, the tag must be
    one of the three, and the value must be of the tag's class. *)
Definition type_failure `{Builtins} (expected resp : dict) (k : string)
  : option string :=
  match lookup k expected with
  | None => None
  | Some tag =>
      match lookup k resp with
      | None => Some (key_not_found k)
      | Some val =>
          match tag_type tag with
          | None =>
              Some "Malformed test. Expected types allowed: 'str', 'int', 'float'"
          | Some t =>
              if isinstance val t then None
              else Some (APICheck.__get_expected_type_error_message
                           (JString k) val t)
          end
      end
  end.

(** How the body [f] of a checking loop stands to the failure the
    specification gives for a key: it returns when there is none, and
    otherwise raises a [TestFailedException] with the message, or the
    [KeyError] that [__run_test] reports as the missing key. *)
Definition follows (f : json -> result unit)
           (failure : string -> option string) (k : string) : Prop :=
  match failure k with
  | None => f (JString k) = Ok tt
  | Some msg =>
      f (JString k) = Raise (TestFailedException msg) \/
      (f (JString k) = Raise (KeyError (JString k)) /\ msg = key_not_found k)
  end.

(** The answer of the stand-in server for [/item], and cases on it. *)
Definition item : dict :=
  [("id", JInt 1); ("price", JFloat float_3_14);
   ("stock", JBool true); ("title", JString "a")].

Definition expects_stock_1 : dict :=
  [("name", JString "stock"); ("url", JString "/item");
   ("method", JString "GET");
   ("expected_response_values", JObject [("stock", JInt 1)])].

Definition expects_id_2 : dict :=
  [("name", JString "id"); ("url", JString "/item");
   ("method", JString "GET");
   ("expected_response_values",
    JObject [("title", JString "a"); ("id", JInt 2); ("missing", JNull)])].

Definition expects_int_price : dict :=
  [("name", JString "price"); ("url", JString "/item");
   ("method", JString "GET");
   ("expected_response_types",
    JObject [("stock", JString "int"); ("price", JString "int")])].

(** Cases for the stand-alone script, which takes the URL as it is. *)
Definition script_expects_int_price : json :=
  JObject [("name", JString "price");
           ("url", JString "http://host/item");
           ("method", JString "GET");
           ("expected_response_types", JObject [("price", JString "int")])].

Definition script_expects_string_id : json :=
  JObject [("name", JString "id");
           ("url", JString "http://host/item");
           ("method", JString "GET");
           ("expected_response_types", JObject [("id", JString "string")])].

Definition script_no_name : json :=
  JObject [("url", JString "http://host/item"); ("method", JString "GET")].

Definition script_item_id : json :=
  JObject [("name", JString "item");
           ("url", JString "http://host/item");
           ("method", JString "get");
           ("expected_response_values", JObject [("id", JInt 1)])].

(** ** Vocabulary of the further properties *)

(** The map a case holds under [key], its expected values or its
    expected types: the object there, or no key at all when the case has
    no such entry. *)
Definition expects (key : string) (d m : dict) : Prop :=
  lookup key d = Some (JObject m) \/ (lookup key d = None /\ m = []).

(** Every expected value is in the response, equal by Python's [==]. *)
Definition values_match (ev r : dict) : Prop :=
  forall k exp_val,
    lookup k ev = Some exp_val ->
    exists actual, lookup k r = Some actual /\ py_eq exp_val actual = true.

(** Every key with an expected type is in the response, with a value of
    the class its tag names. *)
Definition types_match (et r : dict) : Prop :=
  forall k tag,
    lookup k et = Some tag ->
    exists val t,
      lookup k r = Some val /\ tag_type tag = Some t /\
      isinstance val t = true.

(** The first error among the keys, in their order. *)
Fixpoint first_error (error : string -> option exn) (ks : list string)
  : option exn :=
  match ks with
  | [] => None
  | k :: rest =>
      match error k with
      | Some e => Some e
      | None => first_error error rest
      end
  end.

(** What the stand-alone script does with one key of the expected
    types: the tag is looked at first, then the response; a value of
    another class than the tag's ends in the [AttributeError] of the
    method the class does not have. *)
Definition script_type_error (expected resp : dict) (k : string)
  : option exn :=
  match lookup k expected with
  | None => None
  | Some tag =>
      match tag_type tag with
      | None => Some (TestFailedException Script.malformed_types_msg)
      | Some t =>
          match lookup k resp with
          | None => Some (TestFailedException (key_not_found k))
          | Some val =>
              if isinstance val t then None else Some AttributeError
          end
      end
  end.

(** The eight lines that open the text report. *)
Definition summary_lines `{Builtins} (p f : Z) (percent total : float)
  : list string :=
  ["***" ++ nl;
   "TEST SUMMARY" ++ nl;
   "------------" ++ nl;
   "Tests passed: " ++ format_int p ++ nl;
   "Tests failed: " ++ format_int f ++ nl;
   "Success percentage : " ++ format_float 2 (round_float percent 2)
     ++ "%" ++ nl;
   "Total elapsed time: " ++ format_float 3 total ++ " seconds" ++ nl;
   "***" ++ nl].

(** The lines of the text report for one entry of the results: three
    for a case that passed, and the error message besides for one that
    failed. *)
Definition lines_of `{Builtins} (entry : json) (lines : list string) : Prop :=
  exists name elapsed,
    (entry = passed_entry name elapsed /\
     lines = [str name ++ nl;
              tab ++ "Status:PASSED" ++ nl;
              tab ++ "Elapsed time: " ++ format_float 6 elapsed ++ nl]) \/
    (exists msg,
       entry = failed_entry name elapsed msg /\
       lines = [str name ++ nl;
                tab ++ "Status:FAILED" ++ nl;
                tab ++ "Elapsed time: " ++ format_float 6 elapsed ++ nl;
                tab ++ "Error message: " ++ msg ++ nl]).

(** The document of the JSON report. *)
Definition report_document (o : APICheck) (percent : float)
           (rs : list json) : json :=
  JObject
    [("summary",
      JObject [("passed", JInt (passed o));
               ("failed", JInt (failed o));
               ("success_percentage", JFloat percent);
               ("total_elapsed_time", total_elapsed_time o)]);
     ("test_results", JArray rs)].

(** What a run leaves alone: the two streams, the base URL and the
    tests. *)
Definition run_frame {W : Type} (s s' : machine W) : Prop :=
  stdout s' = stdout s /\ outfile s' = outfile s /\
  base_url (self s') = base_url (self s) /\
  tests (self s') = tests (self s).

(** The request of a case as the specification words it: a case that is
    an object with a name, a [url] and a [method] that are strings, the
    method being GET or POST whatever its case, has the request that
    [dispatch] builds; any other case has none. *)
Definition request_of (base : string) (test : json) : option request :=
  match test with
  | JObject d =>
      match lookup "name" d, lookup "url" d, lookup "method" d with
      | Some _, Some (JString url), Some (JString method) =>
          match dispatch base url method (lookup "payload" d) with
          | inl req => Some req
          | inr _ => None
          end
      | _, _, _ => None
      end
  | _ => None
  end.

Definition sent (req : option request) : list request :=
  match req with
  | Some r => [r]
  | None => []
  end.

Definition requests_of (base : string) (ts : list json) : list request :=
  flat_map (fun test => sent (request_of base test)) ts.

(** A world that keeps the requests it was sent, oldest first, beside a
    world that answers them. *)
Definition logged {W : Type} `{World W} : World (W * list request) := {|
  clock := fun wl =>
    let (t, w) := clock (fst wl) in (t, (w, snd wl));
  send := fun req wl =>
    let (r, w) := send req (fst wl) in (r, (w, (snd wl ++ [req])%list))
|}.

(** The requests such a world was sent. *)
Definition log {W : Type} (s : machine (W * list request)) : list request :=
  snd (world s).

(** A stand-in for the files: one with two cases, an empty array, a file
    that is not JSON, and no other file. *)
Definition stub_load (fname : string) : result json :=
  if String.eqb fname "tests.json" then Ok (JArray [test_item_id; test_put])
  else if String.eqb fname "script.json" then Ok (JArray [script_item_id])
  else if String.eqb fname "empty.json" then Ok (JArray [])
  else if String.eqb fname "broken.json" then Raise ValueError
  else Raise FileNotFoundError.

#[export] Instance stub_files : Files Z := {|
  json_load := fun fname t => (stub_load fname, t)
|}.

(** The object after a run of two cases, one that passed and one that
    failed. *)
Definition after_two_cases : APICheck :=
  mkAPICheck "http://host" JNull 1 1 (JFloat (float_of_int 2))
    (Some [passed_entry (JString "item") (float_of_int 1);
           failed_entry (JString "put") (float_of_int 1)
             "Malformed test. Allowed methods are GET and POST"]).
(** * Properties *)

(** ** Dictionaries *)

Lemma contains_lookup (k : string) (d : dict) :
  existsb (String.eqb k) (keys d) = true <-> lookup k d <> None.
Proof.
  induction d as [| [k' v] d IH]; simpl.
  - split; [discriminate | intros Hn; now elim Hn].
  - destruct (String.eqb k k'); simpl.
    + split; [discriminate | reflexivity].
    + exact IH.
Qed.

Lemma contains_object (k : string) (d : dict) :
  py_contains k (JObject d) =
  Ok (match lookup k d with Some _ => true | None => false end).
Proof.
  simpl. f_equal.
  destruct (lookup k d) eqn:E.
  - apply contains_lookup. rewrite E. discriminate.
  - destruct (existsb (String.eqb k) (keys d)) eqn:X; [| reflexivity].
    apply contains_lookup in X. now elim X.
Qed.

Lemma getitem_object (k : string) (d : dict) :
  py_getitem (JObject d) (JString k) =
  match lookup k d with
  | Some v => Ok v
  | None => Raise (KeyError (JString k))
  end.
Proof. reflexivity. Qed.

(** ** Reasoning on computations *)

Section Computations.
Context {W : Type}.

Lemma bind_Ok {A B : Type} (m : M W A) (k : A -> M W B) s a s1 :
  m s = (Ok a, s1) -> bind m k s = k a s1.
Proof. unfold bind. now intros ->. Qed.

Lemma bind_Raise {A B : Type} (m : M W A) (k : A -> M W B) s e s1 :
  m s = (Raise e, s1) -> bind m k s = (Raise e, s1).
Proof. unfold bind. now intros ->. Qed.

Lemma bind_inv {A B : Type} (m : M W A) (k : A -> M W B) s r s' :
  bind m k s = (r, s') ->
  (exists a s1, m s = (Ok a, s1) /\ k a s1 = (r, s')) \/
  (exists e, m s = (Raise e, s') /\ r = Raise e).
Proof.
  unfold bind. destruct (m s) as [[a | e] s1]; intros X.
  - left. now exists a, s1.
  - right. injection X as <- <-. now exists e.
Qed.

Section Preserves.
Variable R : machine W -> machine W -> Prop.
Hypothesis R_refl : forall s, R s s.
Hypothesis R_trans : forall s1 s2 s3, R s1 s2 -> R s2 s3 -> R s1 s3.

Lemma preserves_ret {A : Type} (a : A) : preserves R (ret a).
Proof. intros s r s' X. injection X as <- <-. apply R_refl. Qed.

Lemma preserves_raise {A : Type} (e : exn) : preserves R (@raise W A e).
Proof. intros s r s' X. injection X as <- <-. apply R_refl. Qed.

Lemma preserves_lift {A : Type} (x : result A) : preserves R (lift x).
Proof. intros s r s' X. injection X as <- <-. apply R_refl. Qed.

Lemma preserves_get_self : preserves R get_self.
Proof. intros s r s' X. injection X as <- <-. apply R_refl. Qed.

Lemma preserves_bind {A B : Type} (m : M W A) (k : A -> M W B) :
  preserves R m -> (forall a, preserves R (k a)) -> preserves R (bind m k).
Proof.
  intros Hm Hk s r s' X.
  apply bind_inv in X as [(a & s1 & X1 & X2) | (e & X1 & _)].
  - eapply R_trans; [eapply Hm | eapply Hk]; eassumption.
  - eapply Hm; eassumption.
Qed.

Lemma preserves_try_except {A : Type} (body : M W A) handler :
  preserves R body ->
  (forall e h, handler e = Some h -> preserves R h) ->
  preserves R (try_except body handler).
Proof.
  intros Hb Hh s r s'. unfold try_except.
  destruct (body s) as [[a | e] s1] eqn:Eb.
  - intros X. injection X as <- <-. eapply Hb; eassumption.
  - destruct (handler e) as [h |] eqn:Eh.
    + intros X. eapply R_trans; [eapply Hb | eapply Hh]; eassumption.
    + intros X. injection X as <- <-. eapply Hb; eassumption.
Qed.

Lemma preserves_for_each {A : Type} (xs : list A) (body : A -> M W unit) :
  (forall x, preserves R (body x)) -> preserves R (for_each xs body).
Proof.
  intros Hb. induction xs as [| x xs IH]; simpl.
  - apply preserves_ret.
  - apply preserves_bind; [apply Hb | intros _; apply IH].
Qed.

End Preserves.

Lemma world_only_refl (s : machine W) : world_only s s.
Proof. now repeat split. Qed.

Lemma world_only_trans (s1 s2 s3 : machine W) :
  world_only s1 s2 -> world_only s2 s3 -> world_only s1 s3.
Proof. unfold world_only. intuition congruence. Qed.

Lemma streams_only_refl (s : machine W) : streams_only s s.
Proof. now split. Qed.

Lemma streams_only_trans (s1 s2 s3 : machine W) :
  streams_only s1 s2 -> streams_only s2 s3 -> streams_only s1 s3.
Proof. unfold streams_only. intuition congruence. Qed.

Context `{World W}.

Lemma time_time_world_only : preserves world_only time_time.
Proof.
  intros s r s'. unfold time_time. destruct (clock (world s)).
  intros X. injection X as <- <-. now repeat split.
Qed.

Lemma requests_json_world_only req : preserves world_only (requests_json req).
Proof.
  intros s r s'. unfold requests_json. destruct (send req (world s)).
  intros X. injection X as <- <-. now repeat split.
Qed.

Lemma write_streams_only out text : preserves streams_only (@write W out text).
Proof.
  intros s r s'. unfold write. destruct out; intros X;
    injection X as <- <-; now split.
Qed.

End Computations.

(** Splits a goal [preserves R m] along the structure of [m]. *)
Ltac frame_step R_refl R_trans :=
  lazymatch goal with
  | |- preserves _ (bind _ _) =>
      apply (preserves_bind _ R_trans); [| intros ?]
  | |- preserves _ (try_except _ _) =>
      apply (preserves_try_except _ R_trans);
      [| let e := fresh "e" in
         let h := fresh "h" in
         let Hh := fresh "Hh" in
         intros e h Hh; destruct e; try discriminate Hh;
         injection Hh as <-]
  | |- preserves _ (for_each _ _) =>
      apply (preserves_for_each _ R_refl R_trans); intros ?
  | |- preserves _ (ret _) => apply (preserves_ret _ R_refl)
  | |- preserves _ (raise _) => apply (preserves_raise _ R_refl)
  | |- preserves _ (lift _) => apply (preserves_lift _ R_refl)
  | |- preserves _ get_self => apply (preserves_get_self _ R_refl)
  | |- preserves _ (if ?b then _ else _) => destruct b
  | |- preserves _ (match ?x with _ => _ end) => destruct x
  end.

Ltac world_frame W :=
  repeat first
    [ apply time_time_world_only
    | apply requests_json_world_only
    | frame_step (@world_only_refl W) (@world_only_trans W) ].

(** ** The packaged module: one test *)

Section PackageTest.
Context `{Builtins} {W : Type} `{World W}.

Lemma send_request_world_only test :
  preserves world_only (APICheck.send_request (W := W) test).
Proof. unfold APICheck.send_request. world_frame W. Qed.

Lemma run_test_world_only test :
  preserves world_only (APICheck.__run_test (W := W) test).
Proof.
  unfold APICheck.__run_test, APICheck.fetch_response.
  world_frame W. apply send_request_world_only.
Qed.

(** A test that is not a [dict] stops at [test["name"]] with a
    [TypeError]. *)
Lemma run_test_not_object test (s : machine W) :
  (forall d, test <> JObject d) ->
  APICheck.__run_test test s = (Raise TypeError, s).
Proof.
  intros Hd.
  unfold APICheck.__run_test, APICheck.fetch_response,
    APICheck.send_request, bind, try_except, lift.
  destruct test; try reflexivity.
  now elim (Hd kvs).
Qed.

Lemma run_test_TestFailed_object test (s s1 : machine W) msg :
  APICheck.__run_test test s = (Raise (TestFailedException msg), s1) ->
  exists d, test = JObject d.
Proof.
  intros X. destruct test; try (rewrite run_test_not_object in X;
    [discriminate | intros; discriminate]).
  now exists kvs.
Qed.

Lemma run_test_Ok_name test (s s1 : machine W) :
  APICheck.__run_test test s = (Ok tt, s1) ->
  exists name, py_getitem test (JString "name") = Ok name.
Proof.
  unfold APICheck.__run_test, APICheck.fetch_response,
    APICheck.send_request.
  unfold bind at 1. unfold try_except. unfold bind at 1. unfold lift at 1.
  destruct (py_getitem test (JString "name")) as [name | e].
  - intros _. now exists name.
  - destruct e; discriminate.
Qed.

Lemma time_time_eq (s : machine W) t w :
  clock (world s) = (t, w) ->
  time_time s = (Ok t, mkMachine (self s) w (stdout s) (outfile s)).
Proof. unfold time_time. now intros ->. Qed.

(** The three ways the body of the loop ends. *)
Lemma run_one_PASSED test (s s1 : machine W) t0 w0 t1 w2 rs :
  clock (world s) = (t0, w0) ->
  APICheck.__run_test test (mkMachine (self s) w0 (stdout s) (outfile s))
    = (Ok tt, s1) ->
  clock (world s1) = (t1, w2) ->
  results (self s) = Some rs ->
  APICheck.run_one test s =
  (Ok tt,
   mkMachine
     (record_passed
        (passed_entry (name_or_sentinel test) (float_sub t1 t0)) rs (self s))
     w2 (stdout s) (outfile s)).
Proof.
  intros Hc Hr Hc1 Hrs.
  destruct (run_test_world_only _ _ _ _ Hr) as (E1 & E2 & E3).
  destruct (run_test_Ok_name _ _ _ Hr) as [name Hn].
  unfold APICheck.run_one, name_or_sentinel.
  rewrite (bind_Ok _ _ _ _ _ (time_time_eq _ _ _ Hc)).
  unfold try_except. rewrite (bind_Ok _ _ _ _ _ Hr).
  destruct s as [o w out f], s1 as [o1 w1 out1 f1].
  simpl in *. subst o1 out1 f1.
  unfold results_append, bind, time_time, lift, get_self,
    modify_self. simpl.
  rewrite Hc1, Hn. simpl. rewrite Hrs. reflexivity.
Qed.

Lemma run_one_FAILED test (s s1 : machine W) t0 w0 msg t1 w2 rs :
  clock (world s) = (t0, w0) ->
  APICheck.__run_test test (mkMachine (self s) w0 (stdout s) (outfile s))
    = (Raise (TestFailedException msg), s1) ->
  clock (world s1) = (t1, w2) ->
  results (self s) = Some rs ->
  APICheck.run_one test s =
  (Ok tt,
   mkMachine
     (record_failed
        (failed_entry (name_or_sentinel test) (float_sub t1 t0) msg)
        rs (self s))
     w2 (stdout s) (outfile s)).
Proof.
  intros Hc Hr Hc1 Hrs.
  destruct (run_test_world_only _ _ _ _ Hr) as (E1 & E2 & E3).
  destruct (run_test_TestFailed_object _ _ _ _ Hr) as [d ->].
  unfold APICheck.run_one, name_or_sentinel.
  rewrite (bind_Ok _ _ _ _ _ (time_time_eq _ _ _ Hc)).
  unfold try_except at 1. rewrite (bind_Raise _ _ _ _ _ Hr).
  destruct s as [o w out f], s1 as [o1 w1 out1 f1].
  simpl in *. subst o1 out1 f1.
  unfold results_append, bind, try_except, time_time, lift,
    get_self, modify_self, ret. simpl.
  rewrite Hc1. destruct (lookup "name" d); simpl; rewrite Hrs; reflexivity.
Qed.

Lemma run_one_Raise test (s s1 : machine W) t0 w0 e :
  clock (world s) = (t0, w0) ->
  APICheck.__run_test test (mkMachine (self s) w0 (stdout s) (outfile s))
    = (Raise e, s1) ->
  is_TestFailedException e = false ->
  APICheck.run_one test s = (Raise e, s1).
Proof.
  intros Hc Hr He.
  unfold APICheck.run_one.
  rewrite (bind_Ok _ _ _ _ _ (time_time_eq _ _ _ Hc)).
  unfold try_except. rewrite (bind_Raise _ _ _ _ _ Hr).
  destruct e; try reflexivity; discriminate.
Qed.
End PackageTest.

(** ** The packaged module: the whole run *)

Lemma entry_of_status test entry :
  entry_of test entry ->
  (status_is "PASSED" entry = true /\ status_is "FAILED" entry = false) \/
  (status_is "PASSED" entry = false /\ status_is "FAILED" entry = true).
Proof.
  intros (elapsed & [-> | (msg & ->)]); [left | right]; split; reflexivity.
Qed.

Lemma count_status_app st xs ys :
  count_status st (xs ++ ys) = (count_status st xs + count_status st ys)%nat.
Proof. unfold count_status. now rewrite filter_app, length_app. Qed.

Lemma count_entries ts rs :
  Forall2 entry_of ts rs ->
  (count_status "PASSED" rs + count_status "FAILED" rs)%nat = List.length ts.
Proof.
  induction 1 as [| test entry ts rs He _ IH]; [reflexivity |].
  change (entry :: rs) with ([entry] ++ rs)%list.
  rewrite !count_status_app. simpl List.length. rewrite <- IH.
  unfold count_status at 1 3. simpl.
  destruct (entry_of_status _ _ He) as [[-> ->] | [-> ->]]; simpl; lia.
Qed.

Section PackageRun.
Context `{Builtins} {W : Type} `{World W}.

(** What one turn of the loop does to the object. *)
Lemma run_one_cases test (s s' : machine W) r rs :
  results (self s) = Some rs ->
  APICheck.run_one test s = (r, s') ->
  stdout s' = stdout s /\ outfile s' = outfile s /\
  match r with
  | Ok _ =>
      exists elapsed,
        self s' =
          record_passed (passed_entry (name_or_sentinel test) elapsed)
                        rs (self s) \/
        exists msg,
          self s' =
            record_failed (failed_entry (name_or_sentinel test) elapsed msg)
                          rs (self s)
  | Raise e => is_TestFailedException e = false /\ self s' = self s
  end.
Proof.
  intros Hrs X.
  destruct (clock (world s)) as [t0 w0] eqn:Hc.
  destruct (APICheck.__run_test test
              (mkMachine (self s) w0 (stdout s) (outfile s)))
    as [[[] | e] s1] eqn:Hr.
  - destruct (clock (world s1)) as [t1 w2] eqn:Hc1.
    rewrite (run_one_PASSED _ _ _ _ _ _ _ _ Hc Hr Hc1 Hrs) in X.
    injection X as <- <-. simpl. repeat split. exists (float_sub t1 t0).
    now left.
  - destruct (is_TestFailedException e) eqn:He.
    + destruct e; try discriminate He.
      destruct (clock (world s1)) as [t1 w2] eqn:Hc1.
      rewrite (run_one_FAILED _ _ _ _ _ _ _ _ _ Hc Hr Hc1 Hrs) in X.
      injection X as <- <-. simpl. repeat split. exists (float_sub t1 t0).
      right. now exists msg.
    + rewrite (run_one_Raise _ _ _ _ _ _ Hc Hr He) in X.
      injection X as <- <-.
      destruct (run_test_world_only _ _ _ _ Hr) as (E1 & E2 & E3).
      simpl in *. now repeat split.
Qed.

(** The loop: one entry per test in the order of the tests, and the two
    counters count them. *)
Lemma loop_counts ts : forall (s s' : machine W) rs,
  results (self s) = Some rs ->
  for_each ts APICheck.run_one s = (Ok tt, s') ->
  exists es,
    results (self s') = Some (rs ++ es)%list /\
    Forall2 entry_of ts es /\
    passed (self s') = passed (self s) + Z.of_nat (count_status "PASSED" es) /\
    failed (self s') = failed (self s) + Z.of_nat (count_status "FAILED" es) /\
    base_url (self s') = base_url (self s) /\
    tests (self s') = tests (self s) /\
    total_elapsed_time (self s') = total_elapsed_time (self s) /\
    stdout s' = stdout s /\ outfile s' = outfile s.
Proof.
  induction ts as [| test ts IH]; intros s s' rs Hrs X; simpl in X.
  - injection X as <-. exists []. rewrite app_nil_r. simpl.
    repeat split; try lia; auto.
  - apply bind_inv in X as [([] & s1 & X1 & X2) | (e & _ & Y)];
      [| discriminate Y].
    destruct (run_one_cases _ _ _ _ _ Hrs X1) as (O1 & O2 & elapsed & Hs1).
    assert (Hentry : exists entry,
               entry_of test entry /\
               results (self s1) = Some (rs ++ [entry])%list /\
               passed (self s1) =
                 passed (self s) + Z.of_nat (count_status "PASSED" [entry]) /\
               failed (self s1) =
                 failed (self s) + Z.of_nat (count_status "FAILED" [entry]) /\
               base_url (self s1) = base_url (self s) /\
               tests (self s1) = tests (self s) /\
               total_elapsed_time (self s1) = total_elapsed_time (self s)).
    { destruct Hs1 as [-> | (msg & ->)]; eexists; (split; [exists elapsed |]).
      - left; reflexivity.
      - simpl. repeat split; try reflexivity; lia.
      - right; exists msg; reflexivity.
      - simpl. repeat split; try reflexivity; lia. }
    destruct Hentry as (entry & He & R1 & P1 & F1 & B1 & T1 & E1).
    destruct (IH _ _ _ R1 X2) as (es & R2 & He2 & P2 & F2 & B2 & T2 & E2 & O3 & O4).
    exists (entry :: es). rewrite <- app_assoc in R2.
    change (entry :: es) with ([entry] ++ es)%list.
    rewrite !count_status_app.
    repeat split; try congruence.
    + now constructor.
    + rewrite P2, P1. lia.
    + rewrite F2, F1. lia.
Qed.

(** No [TestFailedException] leaves the loop. *)
Lemma loop_raises ts : forall (s s' : machine W) rs e,
  results (self s) = Some rs ->
  for_each ts APICheck.run_one s = (Raise e, s') ->
  is_TestFailedException e = false.
Proof.
  induction ts as [| test ts IH]; intros s s' rs e Hrs X; simpl in X.
  - discriminate X.
  - apply bind_inv in X as [([] & s1 & X1 & X2) | (e' & X1 & Y)].
    + destruct (run_one_cases _ _ _ _ _ Hrs X1) as (_ & _ & elapsed & Hs1).
      assert (exists rs1, results (self s1) = Some rs1) as [rs1 R1].
      { destruct Hs1 as [-> | (msg & ->)]; eexists; reflexivity. }
      eapply IH; eassumption.
    + injection Y as <-.
      now destruct (run_one_cases _ _ _ _ _ Hrs X1) as (_ & _ & He & _).
Qed.
End PackageRun.

Section PackageSuite.
Context `{Builtins} {W : Type} `{World W}.

(** [run_all_tests] up to the loop: the counters and the results start
    afresh, the clock is read once. *)
Lemma run_all_tests_start (s : machine W) ts t0 w0 :
  tests (self s) = JArray ts ->
  clock (world s) = (t0, w0) ->
  APICheck.run_all_tests s =
  (for_each ts APICheck.run_one ;;;
   now <- time_time ;;
   modify_self (set_total_elapsed_time (JFloat (float_sub now t0))))
    (mkMachine
       (mkAPICheck (base_url (self s)) (tests (self s)) 0 0
                   (total_elapsed_time (self s)) (Some []))
       w0 (stdout s) (outfile s)).
Proof.
  intros Ht Hc.
  unfold APICheck.run_all_tests.
  unfold bind at 1, modify_self at 1.
  unfold bind at 1, time_time at 1. simpl. rewrite Hc.
  unfold bind at 1, modify_self at 1.
  unfold bind at 1, modify_self at 1.
  unfold bind at 1, get_self at 1.
  unfold bind at 1, lift at 1.
  unfold set_failed, set_passed, set_results. simpl. rewrite !Ht.
  reflexivity.
Qed.

(** The counters and the results a run starts from do not matter. *)
Lemma run_all_tests_reset (s : machine W) p f r :
  APICheck.run_all_tests
    (mkMachine
       (mkAPICheck (base_url (self s)) (tests (self s)) p f
                   (total_elapsed_time (self s)) r)
       (world s) (stdout s) (outfile s)) =
  APICheck.run_all_tests s.
Proof.
  cbv beta iota delta
    [APICheck.run_all_tests bind modify_self time_time get_self lift
     self world stdout outfile set_results set_passed set_failed
     base_url tests passed failed total_elapsed_time results].
  destruct s as [[b t p0 f0 tot r0] w out fl].
  destruct (clock w) as [t0 w0]. reflexivity.
Qed.

(** A completed run: the entries, in the order of the tests, and the
    counters. *)
Lemma run_all_tests_results (s s' : machine W) (ts : list json) :
  tests (self s) = JArray ts ->
  APICheck.run_all_tests s = (Ok tt, s') ->
  exists rs,
    results (self s') = Some rs /\
    Forall2 entry_of ts rs /\
    passed (self s') = Z.of_nat (count_status "PASSED" rs) /\
    failed (self s') = Z.of_nat (count_status "FAILED" rs).
Proof.
  intros Ht X.
  destruct (clock (world s)) as [t0 w0] eqn:Hc.
  rewrite (run_all_tests_start _ _ _ _ Ht Hc) in X.
  apply bind_inv in X as [([] & s1 & X1 & X2) | (e & _ & Y)];
    [| discriminate Y].
  apply loop_counts with (rs := []) in X1; [| reflexivity].
  destruct X1 as (es & R & He & P & F & _).
  simpl in R, P, F.
  unfold bind, time_time, modify_self in X2.
  destruct (clock (world s1)) as [t1 w2]. injection X2 as <-.
  exists es. simpl. now rewrite R, P, F.
Qed.

(** C3. When [run_all_tests] completes on a list of N test cases, the
    results hold one entry per case in the order of the cases, [passed]
    and [failed] count the PASSED and the FAILED entries and add up to N,
    and the run gives the same whatever the counters and the results held
    before it started. *)
Theorem run_all_tests_counts (s s' : machine W) (ts : list json) :
  tests (self s) = JArray ts ->
  APICheck.run_all_tests s = (Ok tt, s') ->
  (exists rs,
     results (self s') = Some rs /\
     Forall2 entry_of ts rs /\
     List.length rs = List.length ts /\
     passed (self s') + failed (self s') = Z.of_nat (List.length ts) /\
     passed (self s') = Z.of_nat (count_status "PASSED" rs) /\
     failed (self s') = Z.of_nat (count_status "FAILED" rs)) /\
  (forall p f r,
     APICheck.run_all_tests
       (mkMachine
          (mkAPICheck (base_url (self s)) (tests (self s)) p f
                      (total_elapsed_time (self s)) r)
          (world s) (stdout s) (outfile s)) = (Ok tt, s')).
Proof.
  intros Ht X. split.
  - destruct (run_all_tests_results _ _ _ Ht X) as (rs & R & He & P & F).
    exists rs. pose proof (count_entries _ _ He) as Hn.
    repeat split; auto.
    + symmetry. eapply Forall2_length; eassumption.
    + lia.
  - intros p f r. now rewrite run_all_tests_reset.
Qed.

(** A [TestFailedException] never leaves [run_all_tests]. *)
Lemma run_all_tests_raises (s s' : machine W) e :
  APICheck.run_all_tests s = (Raise e, s') ->
  is_TestFailedException e = false.
Proof.
  unfold APICheck.run_all_tests.
  unfold bind at 1, modify_self at 1.
  unfold bind at 1, time_time at 1. simpl.
  destruct (clock (world s)) as [t0 w0].
  unfold bind at 1, modify_self at 1.
  unfold bind at 1, modify_self at 1.
  unfold bind at 1, get_self at 1.
  unfold bind at 1, lift at 1. simpl.
  destruct (py_iter (tests (self s))) as [ts | e0] eqn:Hi.
  - intros X.
    apply bind_inv in X as [([] & s1 & X1 & X2) | (e' & X1 & Y)].
    + unfold bind, time_time, modify_self in X2.
      destruct (clock (world s1)). discriminate X2.
    + injection Y as <-.
      eapply loop_raises with (rs := []); [| eassumption]. reflexivity.
  - intros X. injection X as <- _.
    destruct (tests (self s)); simpl in Hi; try discriminate Hi;
      now injection Hi as <-.
Qed.
End PackageSuite.

Section PackageErrors.
Context `{Builtins} {W : Type} `{World W}.

Lemma run_test_request_raises test (s s1 : machine W) e :
  APICheck.send_request test s = (Raise e, s1) ->
  reported_by_request e = true ->
  exists msg,
    APICheck.__run_test test s = (Raise (TestFailedException msg), s1).
Proof.
  intros X He.
  unfold APICheck.__run_test, APICheck.fetch_response, bind, try_except.
  rewrite X. destruct e; try discriminate He; eexists; reflexivity.
Qed.

Lemma run_test_checks_raise test (s s1 : machine W) resp e :
  APICheck.send_request test s = (Ok resp, s1) ->
  (_ <-- APICheck.check_values test resp ;;
   APICheck.check_types test resp) = Raise e ->
  reported_by_checks e = true ->
  exists msg,
    APICheck.__run_test test s = (Raise (TestFailedException msg), s1).
Proof.
  intros X Hc He.
  unfold APICheck.__run_test, APICheck.fetch_response, bind, try_except,
    lift, APICheck.run_checks, catch.
  rewrite X, Hc. destruct e; try discriminate He; eexists; reflexivity.
Qed.

Lemma loop_FAILED test rest (s s1 : machine W) t0 w0 msg t1 w2 rs :
  clock (world s) = (t0, w0) ->
  APICheck.__run_test test (mkMachine (self s) w0 (stdout s) (outfile s))
    = (Raise (TestFailedException msg), s1) ->
  clock (world s1) = (t1, w2) ->
  results (self s) = Some rs ->
  for_each (test :: rest) APICheck.run_one s =
  for_each rest APICheck.run_one
    (mkMachine
       (record_failed
          (failed_entry (name_or_sentinel test) (float_sub t1 t0) msg)
          rs (self s))
       w2 (stdout s) (outfile s)).
Proof.
  intros Hc Hr Hc1 Hrs. simpl.
  now rewrite (bind_Ok _ _ _ _ _
                 (run_one_FAILED _ _ _ _ _ _ _ _ _ Hc Hr Hc1 Hrs)).
Qed.

Lemma loop_Raise test rest (s s1 : machine W) t0 w0 e :
  clock (world s) = (t0, w0) ->
  APICheck.__run_test test (mkMachine (self s) w0 (stdout s) (outfile s))
    = (Raise e, s1) ->
  is_TestFailedException e = false ->
  for_each (test :: rest) APICheck.run_one s = (Raise e, s1).
Proof.
  intros Hc Hr He. simpl.
  now rewrite (bind_Raise _ _ _ _ _ (run_one_Raise _ _ _ _ _ _ Hc Hr He)).
Qed.

(** C1, as the code has it.  A [KeyError] or [ValueError] of the request
    and a [KeyError] of the checks leave [__run_test] as a
    [TestFailedException], like the ones it raises itself; a test that
    ends in a [TestFailedException] is recorded as FAILED with its
    message and the loop goes on with the tests that remain; no
    [TestFailedException] leaves [run_all_tests]; an exception of any
    other class ends the loop and leaves it. *)
Theorem run_all_tests_catches_test_failures (s : machine W) :
  (forall test s1 e,
     APICheck.send_request test s = (Raise e, s1) ->
     reported_by_request e = true ->
     exists msg,
       APICheck.__run_test test s = (Raise (TestFailedException msg), s1)) /\
  (forall test s1 resp e,
     APICheck.send_request test s = (Ok resp, s1) ->
     (_ <-- APICheck.check_values test resp ;;
      APICheck.check_types test resp) = Raise e ->
     reported_by_checks e = true ->
     exists msg,
       APICheck.__run_test test s = (Raise (TestFailedException msg), s1)) /\
  (forall test rest t0 w0 msg s1 t1 w2 rs,
     clock (world s) = (t0, w0) ->
     APICheck.__run_test test (mkMachine (self s) w0 (stdout s) (outfile s))
       = (Raise (TestFailedException msg), s1) ->
     clock (world s1) = (t1, w2) ->
     results (self s) = Some rs ->
     for_each (test :: rest) APICheck.run_one s =
     for_each rest APICheck.run_one
       (mkMachine
          (record_failed
             (failed_entry (name_or_sentinel test) (float_sub t1 t0) msg)
             rs (self s))
          w2 (stdout s) (outfile s))) /\
  (forall e s',
     APICheck.run_all_tests s = (Raise e, s') ->
     is_TestFailedException e = false) /\
  (forall test rest t0 w0 e s1,
     clock (world s) = (t0, w0) ->
     APICheck.__run_test test (mkMachine (self s) w0 (stdout s) (outfile s))
       = (Raise e, s1) ->
     is_TestFailedException e = false ->
     for_each (test :: rest) APICheck.run_one s = (Raise e, s1)).
Proof.
  repeat split; intros.
  - eapply run_test_request_raises; eassumption.
  - eapply run_test_checks_raise; eassumption.
  - eapply loop_FAILED; eassumption.
  - eapply run_all_tests_raises; eassumption.
  - eapply loop_Raise; eassumption.
Qed.
End PackageErrors.

(** C1 as stated fails: the server answers with a JSON array, the value
    check subscripts it with a key, and the [TypeError] leaves
    [run_all_tests] before the second test is run. *)
Lemma run_all_tests_TypeError_escapes :
  fst (APICheck.run_all_tests
         (boot (APICheck.init "http://host"
                              (JArray [test_on_list; test_item_id])))) =
  Raise TypeError /\
  results (self (snd (APICheck.run_all_tests
                        (boot (APICheck.init "http://host"
                                 (JArray [test_on_list; test_item_id]))))))
  = Some [].
Proof. split; vm_compute; reflexivity. Qed.

Lemma run_all_tests_catches_test_failures_witness :
  for_each [test_put; test_item_id] APICheck.run_one
    (boot (mkAPICheck "http://host" JNull 0 0 (JInt 0) (Some []))) =
  for_each [test_item_id] APICheck.run_one
    (mkMachine
       (record_failed
          (failed_entry (JString "put")
             (float_sub (float_of_int 1) (float_of_int 0))
             "Malformed test. Allowed methods are GET and POST")
          [] (mkAPICheck "http://host" JNull 0 0 (JInt 0) (Some [])))
       2 [] []).
Proof.
  apply (proj1 (proj2 (proj2
    (run_all_tests_catches_test_failures
       (boot (mkAPICheck "http://host" JNull 0 0 (JInt 0) (Some []))))))
    test_put [test_item_id] (float_of_int 0) 1
    "Malformed test. Allowed methods are GET and POST"
    (mkMachine (mkAPICheck "http://host" JNull 0 0 (JInt 0) (Some []))
               1 [] [])
    (float_of_int 1) 2 []); reflexivity.
Defined.

Lemma run_all_tests_counts_witness :
  exists rs,
    results (self (snd (APICheck.run_all_tests
                          (boot (APICheck.init "http://host"
                                   (JArray [test_item_id; test_put]))))))
    = Some rs /\
    Forall2 entry_of [test_item_id; test_put] rs /\
    List.length rs = 2%nat.
Proof.
  assert (Hrun :
    APICheck.run_all_tests
      (boot (APICheck.init "http://host" (JArray [test_item_id; test_put])))
    = (Ok tt,
       snd (APICheck.run_all_tests
              (boot (APICheck.init "http://host"
                       (JArray [test_item_id; test_put]))))))
    by (vm_compute; reflexivity).
  destruct (proj1 (run_all_tests_counts
                     (boot (APICheck.init "http://host"
                              (JArray [test_item_id; test_put])))
                     _ [test_item_id; test_put] eq_refl Hrun))
    as (rs & R & E & L & _).
  exists rs. repeat split; assumption.
Defined.

(** ** The packaged module: the request *)

Section PackageRequest.
Context `{Builtins} {W : Type} `{World W}.

Lemma send_request_dispatch (d : dict) (name : json) (url method : string)
      (s : machine W) :
  lookup "name" d = Some name ->
  lookup "url" d = Some (JString url) ->
  lookup "method" d = Some (JString method) ->
  APICheck.send_request (JObject d) s =
  match dispatch (base_url (self s)) url method (lookup "payload" d) with
  | inl req => requests_json req s
  | inr msg => (Raise (TestFailedException msg), s)
  end.
Proof.
  intros Hn Hu Hm.
  unfold APICheck.send_request, dispatch, same_ignoring_case.
  change (upper "GET") with "GET". change (upper "POST") with "POST".
  unfold bind, lift, get_self, raise.
  rewrite !getitem_object, contains_object, Hn, Hu, Hm. simpl.
  destruct (String.eqb (upper method) "GET"); [reflexivity |].
  destruct (String.eqb (upper method) "POST"); [| reflexivity].
  destruct (lookup "payload" d); reflexivity.
Qed.



(** C8. A case with neither an [expected_response_values] nor an
    [expected_response_types] entry, whose request is answered with a
    body that decodes as JSON, is recorded PASSED. *)
Theorem no_expectations_passes (test : json) (s s1 : machine W)
        t0 w0 resp t1 w2 rs :
  py_contains "expected_response_values" test = Ok false ->
  py_contains "expected_response_types" test = Ok false ->
  clock (world s) = (t0, w0) ->
  APICheck.send_request test (mkMachine (self s) w0 (stdout s) (outfile s))
    = (Ok resp, s1) ->
  clock (world s1) = (t1, w2) ->
  results (self s) = Some rs ->
  APICheck.run_one test s =
  (Ok tt,
   mkMachine
     (record_passed
        (passed_entry (name_or_sentinel test) (float_sub t1 t0)) rs (self s))
     w2 (stdout s) (outfile s)).
Proof.
  intros Hv Ht Hc Hs Hc1 Hrs.
  apply run_one_PASSED with (w0 := w0) (s1 := s1); auto.
  unfold APICheck.__run_test, APICheck.fetch_response, bind, try_except,
    lift.
  rewrite Hs.
  unfold APICheck.run_checks, APICheck.check_values, APICheck.check_types.
  now rewrite Hv, Ht.
Qed.
End PackageRequest.



Lemma no_expectations_passes_witness :
  APICheck.run_one test_post
    (boot (mkAPICheck "http://host" JNull 0 0 (JInt 0) (Some []))) =
  (Ok tt,
   mkMachine
     (record_passed
        (passed_entry (JString "create")
           (float_sub (float_of_int 1) (float_of_int 0)))
        [] (mkAPICheck "http://host" JNull 0 0 (JInt 0) (Some [])))
     2 [] []).
Proof.
  apply (no_expectations_passes test_post
           (boot (mkAPICheck "http://host" JNull 0 0 (JInt 0) (Some [])))
           (mkMachine (mkAPICheck "http://host" JNull 0 0 (JInt 0) (Some []))
                      1 [] [])
           (float_of_int 0) 1
           (JObject [("id", JInt 1); ("price", JFloat float_3_14);
                     ("stock", JBool true); ("title", JString "a")])
           (float_of_int 1) 2 []); reflexivity.
Defined.

(** ** The packaged module: the report *)

Section PackageReport.
Context `{Builtins} {W : Type} `{World W}.

Lemma append_to_nil out (s : machine W) : append_to out [] s = s.
Proof. destruct s, out; unfold append_to; simpl; now rewrite app_nil_r. Qed.

Lemma append_to_app out xs ys (s : machine W) :
  append_to out ys (append_to out xs s) = append_to out (xs ++ ys) s.
Proof. destruct out; unfold append_to; simpl; now rewrite app_assoc. Qed.

Lemma write_append out text (s : machine W) :
  write out text s = (Ok tt, append_to out [text] s).
Proof. now destruct out. Qed.

Lemma write_all out texts : forall s : machine W,
  for_each texts (write out) s = (Ok tt, append_to out texts s).
Proof.
  induction texts as [| text texts IH]; intros s; simpl.
  - unfold ret. now rewrite append_to_nil.
  - rewrite (bind_Ok _ _ _ _ _ (write_append out text s)), IH.
    now rewrite append_to_app.
Qed.

(** The guard keeps the division defined. *)
Lemma success_percent_guarded (o : APICheck) :
  0 <= passed o -> 0 <= failed o ->
  APICheck.success_percent o = Ok (percentage (passed o) (failed o)).
Proof.
  intros Hp Hf. unfold APICheck.success_percent, percentage, int_truediv.
  destruct (passed o + failed o >? 0) eqn:G.
  - apply Z.gtb_lt in G.
    destruct (passed o + failed o =? 0) eqn:E;
      [apply Z.eqb_eq in E; lia | reflexivity].
  - assert (E : passed o + failed o = 0).
    { destruct (Z.gtb_spec (passed o + failed o) 0); [discriminate | lia]. }
    assert (P : passed o = 0) by lia.
    rewrite E, P. reflexivity.
Qed.

Lemma success_percent_Ok (o : APICheck) :
  exists p, APICheck.success_percent o = Ok p.
Proof.
  unfold APICheck.success_percent, int_truediv.
  destruct (passed o + failed o >? 0) eqn:G.
  - apply Z.gtb_lt in G.
    destruct (passed o + failed o =? 0) eqn:E;
      [apply Z.eqb_eq in E; lia |].
    eexists; reflexivity.
  - eexists; reflexivity.
Qed.

Lemma write_result_streams_only out res :
  preserves streams_only (write_result (W := W) out res).
Proof.
  unfold write_result.
  repeat first
    [ apply write_streams_only
    | frame_step (@streams_only_refl W) (@streams_only_trans W) ].
Qed.

Lemma output_results_streams_only format out :
  preserves streams_only (APICheck.__output_results (W := W) format out).
Proof.
  unfold APICheck.__output_results, get_results, print.
  repeat first
    [ apply write_streams_only
    | apply write_result_streams_only
    | frame_step (@streams_only_refl W) (@streams_only_trans W) ].
Qed.

Lemma write_result_entry out entry (s : machine W) :
  entry_shape entry ->
  exists texts,
    write_result out entry s = (Ok tt, append_to out texts s).
Proof.
  intros (name & elapsed & [-> | (msg & ->)]);
    unfold write_result, passed_entry, failed_entry;
    unfold bind, lift; simpl; rewrite !write_append, !append_to_app;
    eexists; reflexivity.
Qed.

Lemma write_results_entries out rs : forall s : machine W,
  Forall entry_shape rs ->
  exists texts,
    for_each rs (write_result out) s = (Ok tt, append_to out texts s).
Proof.
  induction rs as [| entry rs IH]; intros s Hrs; simpl.
  - exists []. unfold ret. now rewrite append_to_nil.
  - inversion Hrs as [| ? ? He Hrest]; subst.
    destruct (write_result_entry out entry s He) as [xs Hx].
    rewrite (bind_Ok _ _ _ _ _ Hx).
    destruct (IH (append_to out xs s) Hrest) as [ys Hy].
    rewrite Hy, append_to_app. eexists; reflexivity.
Qed.

(** C10 on the packaged module: a format that is neither json nor text,
    whatever its case, writes nothing and raises nothing. *)
Lemma output_results_unknown_format format out (s : machine W) :
  same_ignoring_case format "json" = false ->
  same_ignoring_case format "text" = false ->
  APICheck.__output_results format out s = (Ok tt, s).
Proof.
  unfold same_ignoring_case.
  change (upper "json") with "JSON". change (upper "text") with "TEXT".
  intros Hj Ht.
  unfold APICheck.__output_results, try_except, bind, get_self, lift.
  destruct (success_percent_Ok (self s)) as [p ->].
  now rewrite Hj, Ht.
Qed.

(** The report of a machine whose results are entries of a run and whose
    total time is a float: every format returns normally and writes to
    the stream it was given only. *)
Lemma output_results_after_run format out (s : machine W) rs t :
  results (self s) = Some rs ->
  Forall entry_shape rs ->
  total_elapsed_time (self s) = JFloat t ->
  exists texts,
    APICheck.__output_results format out s = (Ok tt, append_to out texts s).
Proof.
  intros Hrs Hes Ht.
  unfold APICheck.__output_results, try_except.
  unfold bind at 1, get_self at 1.
  unfold bind at 1, lift at 1.
  destruct (success_percent_Ok (self s)) as [p ->].
  destruct (String.eqb (upper format) "JSON").
  - unfold get_results, bind at 1, bind at 1, get_self.
    rewrite Hrs. unfold ret. rewrite write_all. eexists; reflexivity.
  - destruct (String.eqb (upper format) "TEXT").
    + rewrite Ht. unfold percent_f, as_number.
      unfold get_results.
      unfold bind, lift, get_self, ret. rewrite !write_append. simpl.
      rewrite !append_to_app.
      match goal with
      | |- context [append_to out ?xs s] =>
          assert (R : results (self (append_to out xs s)) = Some rs)
            by (destruct out; exact Hrs);
          rewrite R;
          destruct (write_results_entries out rs (append_to out xs s) Hes)
            as [ys Hy]
      end.
      fold (@bind W) in Hy. rewrite Hy, append_to_app.
      eexists; reflexivity.
    + exists []. unfold ret. now rewrite append_to_nil.
Qed.
End PackageReport.

Section PackageReportAfterRun.
Context `{Builtins} {W : Type} `{World W}.

Lemma entry_of_shape test entry : entry_of test entry -> entry_shape entry.
Proof.
  intros (elapsed & [-> | (msg & ->)]); eexists; exists elapsed;
    [left | right; exists msg]; reflexivity.
Qed.

Lemma run_all_tests_total (s s' : machine W) :
  APICheck.run_all_tests s = (Ok tt, s') ->
  exists t, total_elapsed_time (self s') = JFloat t.
Proof.
  unfold APICheck.run_all_tests. intros X.
  repeat (apply bind_inv in X as [(? & ? & _ & X) | (? & _ & Y)];
          [| discriminate Y]).
  unfold modify_self in X. injection X as <-. simpl. eexists; reflexivity.
Qed.

(** C9. Rendering changes neither the object (so [passed], [failed],
    [total_elapsed_time] and [results] are what they were) nor the
    outside world, whatever the format and the state; and after a
    completed run it returns normally and all it does is append text to
    the stream it was given. *)
Theorem output_results_frame (format : string) (out : stream) :
  (forall (s s' : machine W) r,
     APICheck.__output_results format out s = (r, s') ->
     self s' = self s /\ world s' = world s) /\
  (forall (s0 s : machine W) ts,
     tests (self s0) = JArray ts ->
     APICheck.run_all_tests s0 = (Ok tt, s) ->
     exists texts,
       APICheck.__output_results format out s =
       (Ok tt, append_to out texts s)).
Proof.
  split.
  - intros s s' r X. exact (output_results_streams_only format out _ _ _ X).
  - intros s0 s ts Ht X.
    destruct (run_all_tests_results _ _ _ Ht X) as (rs & R & E & _).
    destruct (run_all_tests_total _ _ X) as [t T].
    apply output_results_after_run with (rs := rs) (t := t); auto.
    clear - E. induction E; constructor; eauto using entry_of_shape.
Qed.
End PackageReportAfterRun.

(** ** Python's equality and JSON's *)

(** Induction on JSON values, through lists and dictionaries. *)
Lemma json_nested_ind (P : json -> Prop) :
  P JNull ->
  (forall b, P (JBool b)) ->
  (forall z, P (JInt z)) ->
  (forall f, P (JFloat f)) ->
  (forall s, P (JString s)) ->
  (forall l, Forall P l -> P (JArray l)) ->
  (forall d, Forall (fun kv => P (snd kv)) d -> P (JObject d)) ->
  forall v, P v.
Proof.
  intros Hnull Hbool Hint Hfloat Hstr Harr Hobj.
  fix IH 1. intros [| b | z | f | s | l | d].
  - exact Hnull.
  - apply Hbool.
  - apply Hint.
  - apply Hfloat.
  - apply Hstr.
  - apply Harr. induction l as [| x l IHl]; constructor; [apply IH | exact IHl].
  - apply Hobj. induction d as [| [k x] d IHd]; constructor;
      [apply IH | exact IHd].
Qed.

Lemma lookup_as_python k (d : dict) :
  lookup k (map (fun kv => (fst kv, as_python (snd kv))) d) =
  option_map as_python (lookup k d).
Proof.
  induction d as [| [k' v] d IH]; simpl; [reflexivity |].
  destruct (String.eqb k k'); [reflexivity | exact IH].
Qed.

(** Python's [==] is JSON equality once booleans are read as 0 and 1. *)
Lemma py_eq_json_equal : forall a b,
  py_eq a b = json_equal (as_python a) (as_python b).
Proof.
  induction a as [| x | x | f | s | l IHl | d IHd] using json_nested_ind;
    intros b.
  - destruct b; reflexivity.
  - destruct b; try reflexivity.
  - destruct b; reflexivity.
  - destruct b; reflexivity.
  - destruct b; reflexivity.
  - destruct b as [| | | | | l2 |]; try reflexivity. simpl.
    revert l2. induction IHl as [| x l Hx _ IH]; intros [| y l2]; simpl;
      try reflexivity.
    now rewrite Hx, IH.
  - destruct b as [| | | | | | d2]; try reflexivity. simpl.
    rewrite !length_map. f_equal.
    induction IHd as [| [k x] d Hx _ IH]; simpl; [reflexivity |].
    rewrite lookup_as_python, IH.
    destruct (lookup k d2) as [w |]; simpl; [| reflexivity].
    simpl in Hx. now rewrite (Hx w).
Qed.

(** ** The packaged module: the checks *)

Lemma lookup_keys k (d : dict) : In k (keys d) -> lookup k d <> None.
Proof.
  induction d as [| [k' v] d IH]; simpl; [tauto |].
  intros [-> | Hin].
  - now rewrite String.eqb_refl.
  - destruct (String.eqb k k'); [discriminate | auto].
Qed.

Lemma py_eq_string tag s :
  py_eq tag (JString s) =
  match tag with JString t => String.eqb t s | _ => false end.
Proof. destruct tag; reflexivity. Qed.

Lemma and_then_Ok {A B : Type} (r : result A) (k : A -> result B) a :
  r = Ok a -> and_then r k = k a.
Proof. now intros ->. Qed.

(** A loop whose body follows the failures ends as the first failure
    says. *)
Lemma each_first_failure f failure ks :
  Forall (follows f failure) ks ->
  match first_failure failure ks with
  | None => each (map JString ks) f = Ok tt
  | Some msg =>
      each (map JString ks) f = Raise (TestFailedException msg) \/
      exists k, each (map JString ks) f = Raise (KeyError (JString k)) /\
                msg = key_not_found k
  end.
Proof.
  induction 1 as [| k ks Hk _ IH]; simpl; [reflexivity |].
  unfold follows in Hk. destruct (failure k) as [msg |].
  - destruct Hk as [-> | [-> ->]]; [now left | right; now exists k].
  - rewrite Hk. exact IH.
Qed.

Section PackageChecks.
Context `{Builtins}.

Lemma value_body_follows (d ev r : dict) :
  lookup "expected_response_values" d = Some (JObject ev) ->
  Forall
    (follows
       (fun key =>
          expected' <--
            py_getitem (JObject d) (JString "expected_response_values") ;;
          exp_val <-- py_getitem expected' key ;;
          actual <-- py_getitem (JObject r) key ;;
          if py_ne exp_val actual then
            actual' <-- py_getitem (JObject r) key ;;
            Raise (TestFailedException
                     ("Expected value '" ++ str exp_val ++ "' at key '"
                        ++ str key ++ "' but got '" ++ str actual' ++ "'."))
          else Ok tt)
       (value_failure ev r))
    (keys ev).
Proof.
  intros Hev. apply Forall_forall. intros k Hin.
  apply lookup_keys in Hin.
  unfold follows, value_failure.
  rewrite !getitem_object, Hev. simpl.
  destruct (lookup k ev) as [e |]; [| now elim Hin]. simpl.
  destruct (lookup k r) as [a |]; simpl; [| right; now split].
  unfold py_ne. rewrite <- py_eq_json_equal.
  destruct (py_eq e a); simpl; [reflexivity | now left].
Qed.

Lemma check_values_object (d ev r : dict) :
  lookup "expected_response_values" d = Some (JObject ev) ->
  match first_failure (value_failure ev r) (keys ev) with
  | None => APICheck.check_values (JObject d) (JObject r) = Ok tt
  | Some msg =>
      APICheck.check_values (JObject d) (JObject r)
        = Raise (TestFailedException msg) \/
      exists k,
        APICheck.check_values (JObject d) (JObject r)
          = Raise (KeyError (JString k)) /\
        msg = key_not_found k
  end.
Proof.
  intros Hev. unfold APICheck.check_values.
  assert (Hc : py_contains "expected_response_values" (JObject d) = Ok true)
    by now rewrite contains_object, Hev.
  assert (Hg : py_getitem (JObject d) (JString "expected_response_values")
               = Ok (JObject ev))
    by now rewrite getitem_object, Hev.
  rewrite (and_then_Ok _ _ _ Hc). cbv beta iota.
  rewrite (and_then_Ok _ _ _ Hg).
  change (py_iter (JObject ev)) with (Ok (map JString (keys ev))).
  unfold and_then at 1.
  apply each_first_failure, value_body_follows, Hev.
Qed.

Lemma type_body_follows (d et r : dict) :
  lookup "expected_response_types" d = Some (JObject et) ->
  Forall
    (follows
       (fun key =>
          expected' <--
            py_getitem (JObject d) (JString "expected_response_types") ;;
          exp_type <-- py_getitem expected' key ;;
          val <-- py_getitem (JObject r) key ;;
          if py_eq exp_type (JString "string") then
            APICheck.__test_expected_type key val Tstr
          else if py_eq exp_type (JString "int") then
            APICheck.__test_expected_type key val Tint
          else if py_eq exp_type (JString "float") then
            APICheck.__test_expected_type key val Tfloat
          else
            Raise (TestFailedException
                     "Malformed test. Expected types allowed: 'str', 'int', 'float'"))
       (type_failure et r))
    (keys et).
Proof.
  intros Het. apply Forall_forall. intros k Hin.
  apply lookup_keys in Hin.
  unfold follows, type_failure.
  rewrite !getitem_object, Het. simpl.
  destruct (lookup k et) as [tag |]; [| now elim Hin]. simpl.
  destruct (lookup k r) as [v |]; simpl; [| right; now split].
  rewrite !py_eq_string. unfold tag_type, APICheck.__test_expected_type.
  destruct tag as [| | | | t | |]; try (now left).
  destruct (String.eqb t "string");
    [destruct (isinstance v Tstr); simpl; [reflexivity | now left] |].
  destruct (String.eqb t "int");
    [destruct (isinstance v Tint); simpl; [reflexivity | now left] |].
  destruct (String.eqb t "float");
    [destruct (isinstance v Tfloat); simpl; [reflexivity | now left] |].
  now left.
Qed.

Lemma check_types_object (d et r : dict) :
  lookup "expected_response_types" d = Some (JObject et) ->
  match first_failure (type_failure et r) (keys et) with
  | None => APICheck.check_types (JObject d) (JObject r) = Ok tt
  | Some msg =>
      APICheck.check_types (JObject d) (JObject r)
        = Raise (TestFailedException msg) \/
      exists k,
        APICheck.check_types (JObject d) (JObject r)
          = Raise (KeyError (JString k)) /\
        msg = key_not_found k
  end.
Proof.
  intros Het. unfold APICheck.check_types.
  assert (Hc : py_contains "expected_response_types" (JObject d) = Ok true)
    by now rewrite contains_object, Het.
  assert (Hg : py_getitem (JObject d) (JString "expected_response_types")
               = Ok (JObject et))
    by now rewrite getitem_object, Het.
  rewrite (and_then_Ok _ _ _ Hc). cbv beta iota.
  rewrite (and_then_Ok _ _ _ Hg).
  change (py_iter (JObject et)) with (Ok (map JString (keys et))).
  unfold and_then at 1.
  apply each_first_failure, type_body_follows, Het.
Qed.

(** C6, as the code has it.  For a response that is a JSON object and an
    [expected_response_values] map, the first key in the order of the
    map that the response lacks, or whose value there is not equal to the
    expected one, fails the case, with the key-not-found message or with
    the message naming the expected value, the key and the actual value;
    the keys after it play no part.  With no such key the value checks
    pass.  The equality is JSON's once [true] and [false] are read as the
    numbers 1 and 0. *)
Theorem value_checks_first_failure (d ev r : dict) :
  lookup "expected_response_values" d = Some (JObject ev) ->
  match first_failure (value_failure ev r) (keys ev) with
  | Some msg =>
      APICheck.run_checks (JObject d) (JObject r)
        = Raise (TestFailedException msg)
  | None => APICheck.check_values (JObject d) (JObject r) = Ok tt
  end.
Proof.
  intros Hev. pose proof (check_values_object d ev r Hev) as Hc.
  destruct (first_failure (value_failure ev r) (keys ev)) as [msg |];
    [| exact Hc].
  unfold APICheck.run_checks.
  destruct Hc as [-> | (k & -> & ->)]; reflexivity.
Qed.

(** The checks of a case whose value checks pass end as the first
    failure among the type tags says. *)
Lemma run_checks_types (d et r : dict) :
  lookup "expected_response_types" d = Some (JObject et) ->
  APICheck.check_values (JObject d) (JObject r) = Ok tt ->
  APICheck.run_checks (JObject d) (JObject r) =
  match first_failure (type_failure et r) (keys et) with
  | Some msg => Raise (TestFailedException msg)
  | None => Ok tt
  end.
Proof.
  intros Het Hv. pose proof (check_types_object d et r Het) as Hc.
  unfold APICheck.run_checks. rewrite Hv. simpl.
  destruct (first_failure (type_failure et r) (keys et)) as [msg |].
  - destruct Hc as [-> | (k & -> & ->)]; reflexivity.
  - now rewrite Hc.
Qed.

(** C5 on the packaged module.  For a response that is a JSON object
    that passed the value checks and an [expected_response_types] map,
    the case passes when every key is in the response with a value of
    its tag's class, and otherwise fails at the first key in the order of
    the map that the response lacks (key not found), whose tag is none
    of string, int and float (malformed test), or whose value is not of
    the tag's class (type mismatch). *)
Lemma type_checks_first_failure (d et r : dict) :
  lookup "expected_response_types" d = Some (JObject et) ->
  APICheck.check_values (JObject d) (JObject r) = Ok tt ->
  APICheck.run_checks (JObject d) (JObject r) =
  match first_failure (type_failure et r) (keys et) with
  | Some msg => Raise (TestFailedException msg)
  | None => Ok tt
  end.
Proof. exact (run_checks_types d et r). Qed.
End PackageChecks.

(** C6 as stated fails: the case expects the number 1 where the response
    holds [true]; the two differ as JSON values, and the checks pass. *)
Lemma value_check_accepts_true_for_1 :
  lookup "expected_response_values" expects_stock_1
    = Some (JObject [("stock", JInt 1)]) /\
  lookup "stock" item = Some (JBool true) /\
  json_equal (JInt 1) (JBool true) = false /\
  APICheck.run_checks (JObject expects_stock_1) (JObject item) = Ok tt.
Proof. repeat split. Qed.

Lemma value_checks_first_failure_witness :
  APICheck.run_checks (JObject expects_id_2) (JObject item) =
  Raise (TestFailedException "Expected value '2' at key 'id' but got '1'.").
Proof.
  exact (value_checks_first_failure expects_id_2
           [("title", JString "a"); ("id", JInt 2); ("missing", JNull)]
           item eq_refl).
Defined.

Section PackageTypeChecks.
Context `{Builtins}.

Lemma first_failure_app failure pre ks :
  first_failure failure (pre ++ ks) =
  match first_failure failure pre with
  | Some msg => Some msg
  | None => first_failure failure ks
  end.
Proof.
  induction pre as [| k pre IH]; simpl; [reflexivity |].
  destruct (failure k); [reflexivity | exact IH].
Qed.

(** C4 on the packaged module.  Under the tag int a boolean passes and a
    float fails with the message naming the key, [int] and [float]; in a
    case whose earlier keys pass, the float fails the case with that
    message and the boolean leaves the verdict to the keys after it. *)
Lemma int_tag_bool_and_float (d et r : dict) (pre post : list string)
      (k : string) :
  lookup "expected_response_types" d = Some (JObject et) ->
  APICheck.check_values (JObject d) (JObject r) = Ok tt ->
  keys et = (pre ++ k :: post)%list ->
  first_failure (type_failure et r) pre = None ->
  lookup k et = Some (JString "int") ->
  (forall b, APICheck.__test_expected_type (JString k) (JBool b) Tint = Ok tt) /\
  (forall b,
     lookup k r = Some (JBool b) ->
     APICheck.run_checks (JObject d) (JObject r) =
     match first_failure (type_failure et r) post with
     | Some msg => Raise (TestFailedException msg)
     | None => Ok tt
     end) /\
  (forall f,
     lookup k r = Some (JFloat f) ->
     APICheck.run_checks (JObject d) (JObject r) =
     Raise (TestFailedException
              ("Invalid type at key '" ++ k
                 ++ "'. Expected '<class 'int'>' got '<class 'float'>'."))).
Proof.
  intros Het Hv Hk Hpre Htag.
  pose proof (run_checks_types d et r Het Hv) as Hrun.
  rewrite Hk, first_failure_app, Hpre in Hrun. simpl in Hrun.
  unfold type_failure in Hrun at 1. rewrite Htag in Hrun.
  repeat split.
  - intros b Hb. now rewrite Hb in Hrun.
  - intros f Hf. now rewrite Hf in Hrun.
Qed.
End PackageTypeChecks.

Lemma type_checks_first_failure_witness :
  APICheck.run_checks (JObject expects_int_price) (JObject item) =
  Raise (TestFailedException
           "Invalid type at key 'price'. Expected '<class 'int'>' got '<class 'float'>'.").
Proof.
  exact (type_checks_first_failure expects_int_price
           [("stock", JString "int"); ("price", JString "int")]
           item eq_refl eq_refl).
Defined.

Lemma int_tag_bool_and_float_witness :
  APICheck.run_checks (JObject expects_int_price) (JObject item) =
  Raise (TestFailedException
           "Invalid type at key 'price'. Expected '<class 'int'>' got '<class 'float'>'.").
Proof.
  exact (proj2 (proj2
           (int_tag_bool_and_float expects_int_price
              [("stock", JString "int"); ("price", JString "int")]
              item ["stock"] [] "price" eq_refl eq_refl eq_refl eq_refl
              eq_refl))
           float_3_14 eq_refl).
Defined.

(** ** The stand-alone script: where it departs from the packaged module *)

Section ScriptDefects.
Context `{Builtins} {W : Type} `{World W}.

(** With no test run the percentage divides by zero. *)
Lemma script_success_percent_zero (o : APICheck) :
  passed o + failed o = 0 ->
  Script.success_percent o = Raise ZeroDivisionError.
Proof.
  intros E. unfold Script.success_percent, int_truediv. now rewrite E.
Qed.

Lemma script_success_percent_nonzero (o : APICheck) :
  passed o + failed o <> 0 ->
  Script.success_percent o =
  Ok (float_mul (float_of_ratio (passed o) (passed o + failed o))
                (float_of_int 100)).
Proof.
  intros E. unfold Script.success_percent, int_truediv.
  destruct (Z.eqb_spec (passed o + failed o) 0); [contradiction | reflexivity].
Qed.

(** The division comes before the format is looked at, and its error is
    no [KeyError]: it leaves the method, whatever the format. *)
Lemma script_output_results_zero format out (s : machine W) :
  passed (self s) + failed (self s) = 0 ->
  Script.__output_results format out s = (Raise ZeroDivisionError, s).
Proof.
  intros E.
  unfold Script.__output_results, try_except, bind, get_self, lift.
  now rewrite (script_success_percent_zero _ E).
Qed.

(** A value that is not of the tag's class: building the message calls a
    method the object does not have. *)
Lemma script_check_instance_mismatch key resp exp_type val t :
  py_getitem resp key = Ok val ->
  isinstance val t = false ->
  Script.check_instance key resp exp_type t = Raise AttributeError.
Proof.
  intros Hv Hi. unfold Script.check_instance.
  rewrite Hv. simpl. now rewrite Hi.
Qed.

Lemma script_check_instance_match key resp exp_type val t :
  py_getitem resp key = Ok val ->
  isinstance val t = true ->
  Script.check_instance key resp exp_type t = Ok tt.
Proof.
  intros Hv Hi. unfold Script.check_instance.
  rewrite Hv. simpl. now rewrite Hi.
Qed.
End ScriptDefects.

(** C2 on the script: after a run of no test, the report in either
    format ends in [ZeroDivisionError] with nothing written. *)
Theorem script_report_of_empty_run :
  (Script.run_all_tests ;;; Script.print_results "json")
    (boot (Script.init (JArray []))) =
  (Raise ZeroDivisionError,
   mkMachine
     (mkAPICheck "" (JArray []) 0 0
        (JFloat (float_sub (float_of_int 1) (float_of_int 0))) (Some []))
     2 [] []) /\
  (Script.run_all_tests ;;; Script.print_results "text")
    (boot (Script.init (JArray []))) =
  (Raise ZeroDivisionError,
   mkMachine
     (mkAPICheck "" (JArray []) 0 0
        (JFloat (float_sub (float_of_int 1) (float_of_int 0))) (Some []))
     2 [] []).
Proof. split; vm_compute; reflexivity. Qed.

(** C10 on the script: after a run of no test, a format that is neither
    json nor text does not return: it ends in [ZeroDivisionError]. *)
Theorem script_unknown_format_of_empty_run :
  same_ignoring_case "xml" "json" = false /\
  same_ignoring_case "xml" "text" = false /\
  fst ((Script.run_all_tests ;;; Script.print_results "xml")
         (boot (Script.init (JArray [])))) = Raise ZeroDivisionError.
Proof. repeat split; vm_compute; reflexivity. Qed.

(** C4 on the script: 3.14 under the tag int.  The case is not recorded
    as FAILED: an [AttributeError] leaves [run_all_tests], which records
    nothing. *)
Theorem script_float_under_int_tag :
  Script.run_all_tests
    (boot (Script.init (JArray [script_expects_int_price]))) =
  (Raise AttributeError,
   mkMachine
     (mkAPICheck "" (JArray [script_expects_int_price]) 0 0 (JInt 0)
                 (Some []))
     2 [] []).
Proof. vm_compute. reflexivity. Qed.

(** C5 on the script: a number under the tag string.  The same
    [AttributeError] leaves [run_all_tests] in place of a FAILED entry,
    and the case after it is not run. *)
Theorem script_int_under_string_tag :
  Script.run_all_tests
    (boot (Script.init (JArray [script_expects_string_id; script_item_id]))) =
  (Raise AttributeError,
   mkMachine
     (mkAPICheck "" (JArray [script_expects_string_id; script_item_id])
                 0 0 (JInt 0) (Some []))
     2 [] []).
Proof. vm_compute. reflexivity. Qed.

(** ** The stand-alone script: the run *)

Section ScriptTest.
Context `{Builtins} {W : Type} `{World W}.

Lemma script_send_request_world_only test :
  preserves world_only (Script.send_request (W := W) test).
Proof. unfold Script.send_request. world_frame W. Qed.

Lemma script_run_test_world_only test :
  preserves world_only (Script.__run_test (W := W) test).
Proof.
  unfold Script.__run_test, Script.fetch_response.
  world_frame W. apply script_send_request_world_only.
Qed.

Lemma script_run_test_not_object test (s : machine W) :
  (forall d, test <> JObject d) ->
  Script.__run_test test s = (Raise TypeError, s).
Proof.
  intros Hd.
  unfold Script.__run_test, Script.fetch_response,
    Script.send_request, bind, try_except, lift.
  destruct test; try reflexivity.
  now elim (Hd kvs).
Qed.

Lemma script_run_test_TestFailed_object test (s s1 : machine W) msg :
  Script.__run_test test s = (Raise (TestFailedException msg), s1) ->
  exists d, test = JObject d.
Proof.
  intros X. destruct test; try (rewrite script_run_test_not_object in X;
    [discriminate | intros; discriminate]).
  now exists kvs.
Qed.

Lemma script_run_test_Ok_name test (s s1 : machine W) :
  Script.__run_test test s = (Ok tt, s1) ->
  exists name, py_getitem test (JString "name") = Ok name.
Proof.
  unfold Script.__run_test, Script.fetch_response,
    Script.send_request.
  unfold bind at 1. unfold try_except. unfold bind at 1. unfold lift at 1.
  destruct (py_getitem test (JString "name")) as [name | e].
  - intros _. now exists name.
  - destruct e; discriminate.
Qed.

Lemma script_run_one_PASSED test (s s1 : machine W) t0 w0 t1 w2 rs :
  clock (world s) = (t0, w0) ->
  Script.__run_test test (mkMachine (self s) w0 (stdout s) (outfile s))
    = (Ok tt, s1) ->
  clock (world s1) = (t1, w2) ->
  results (self s) = Some rs ->
  Script.run_one test s =
  (Ok tt,
   mkMachine
     (record_passed
        (passed_entry (name_or_sentinel test) (float_sub t1 t0)) rs (self s))
     w2 (stdout s) (outfile s)).
Proof.
  intros Hc Hr Hc1 Hrs.
  destruct (script_run_test_world_only _ _ _ _ Hr) as (E1 & E2 & E3).
  destruct (script_run_test_Ok_name _ _ _ Hr) as [name Hn].
  unfold Script.run_one, name_or_sentinel.
  rewrite (bind_Ok _ _ _ _ _ (time_time_eq _ _ _ Hc)).
  unfold try_except. rewrite (bind_Ok _ _ _ _ _ Hr).
  destruct s as [o w out f], s1 as [o1 w1 out1 f1].
  simpl in *. subst o1 out1 f1.
  unfold results_append, bind, time_time, lift, get_self,
    modify_self. simpl.
  rewrite Hc1, Hn. simpl. rewrite Hrs. reflexivity.
Qed.

Lemma script_run_one_FAILED test (s s1 : machine W) t0 w0 msg t1 w2 rs name :
  clock (world s) = (t0, w0) ->
  Script.__run_test test (mkMachine (self s) w0 (stdout s) (outfile s))
    = (Raise (TestFailedException msg), s1) ->
  clock (world s1) = (t1, w2) ->
  results (self s) = Some rs ->
  py_getitem test (JString "name") = Ok name ->
  Script.run_one test s =
  (Ok tt,
   mkMachine
     (record_failed (failed_entry name (float_sub t1 t0) msg) rs (self s))
     w2 (stdout s) (outfile s)).
Proof.
  intros Hc Hr Hc1 Hrs Hn.
  destruct (script_run_test_world_only _ _ _ _ Hr) as (E1 & E2 & E3).
  unfold Script.run_one.
  rewrite (bind_Ok _ _ _ _ _ (time_time_eq _ _ _ Hc)).
  unfold try_except at 1. rewrite (bind_Raise _ _ _ _ _ Hr).
  destruct s as [o w out f], s1 as [o1 w1 out1 f1].
  simpl in *. subst o1 out1 f1.
  unfold results_append, bind, time_time, lift,
    get_self, modify_self, ret. simpl.
  rewrite Hc1, Hn. simpl. rewrite Hrs. reflexivity.
Qed.

(** The handler reads [test["name"]] with no guard: a failed test with
    no name ends the loop with the [KeyError]. *)
Lemma script_run_one_no_name test (s s1 : machine W) t0 w0 msg t1 w2 e :
  clock (world s) = (t0, w0) ->
  Script.__run_test test (mkMachine (self s) w0 (stdout s) (outfile s))
    = (Raise (TestFailedException msg), s1) ->
  clock (world s1) = (t1, w2) ->
  py_getitem test (JString "name") = Raise e ->
  Script.run_one test s =
  (Raise e, mkMachine (self s) w2 (stdout s) (outfile s)).
Proof.
  intros Hc Hr Hc1 Hn.
  destruct (script_run_test_world_only _ _ _ _ Hr) as (E1 & E2 & E3).
  unfold Script.run_one.
  rewrite (bind_Ok _ _ _ _ _ (time_time_eq _ _ _ Hc)).
  unfold try_except at 1. rewrite (bind_Raise _ _ _ _ _ Hr).
  destruct s as [o w out f], s1 as [o1 w1 out1 f1].
  simpl in *. subst o1 out1 f1.
  unfold bind, time_time, lift. simpl.
  rewrite Hc1, Hn. reflexivity.
Qed.

Lemma script_run_one_Raise test (s s1 : machine W) t0 w0 e :
  clock (world s) = (t0, w0) ->
  Script.__run_test test (mkMachine (self s) w0 (stdout s) (outfile s))
    = (Raise e, s1) ->
  is_TestFailedException e = false ->
  Script.run_one test s = (Raise e, s1).
Proof.
  intros Hc Hr He.
  unfold Script.run_one.
  rewrite (bind_Ok _ _ _ _ _ (time_time_eq _ _ _ Hc)).
  unfold try_except. rewrite (bind_Raise _ _ _ _ _ Hr).
  destruct e; try reflexivity; discriminate.
Qed.
End ScriptTest.

Section ScriptRun.
Context `{Builtins} {W : Type} `{World W}.

Lemma script_run_one_cases test (s s' : machine W) r rs :
  results (self s) = Some rs ->
  Script.run_one test s = (r, s') ->
  stdout s' = stdout s /\ outfile s' = outfile s /\
  match r with
  | Ok _ =>
      exists elapsed,
        self s' =
          record_passed (passed_entry (name_or_sentinel test) elapsed)
                        rs (self s) \/
        exists msg,
          self s' =
            record_failed (failed_entry (name_or_sentinel test) elapsed msg)
                          rs (self s)
  | Raise e => is_TestFailedException e = false /\ self s' = self s
  end.
Proof.
  intros Hrs X.
  destruct (clock (world s)) as [t0 w0] eqn:Hc.
  destruct (Script.__run_test test
              (mkMachine (self s) w0 (stdout s) (outfile s)))
    as [[[] | e] s1] eqn:Hr.
  - destruct (clock (world s1)) as [t1 w2] eqn:Hc1.
    rewrite (script_run_one_PASSED _ _ _ _ _ _ _ _ Hc Hr Hc1 Hrs) in X.
    injection X as <- <-. simpl. repeat split. exists (float_sub t1 t0).
    now left.
  - destruct (is_TestFailedException e) eqn:He.
    + destruct e; try discriminate He.
      destruct (clock (world s1)) as [t1 w2] eqn:Hc1.
      destruct (py_getitem test (JString "name")) as [name | e] eqn:Hn.
      * rewrite (script_run_one_FAILED _ _ _ _ _ _ _ _ _ _ Hc Hr Hc1 Hrs Hn)
          in X.
        injection X as <- <-. simpl. repeat split.
        exists (float_sub t1 t0). right. exists msg.
        unfold name_or_sentinel. now rewrite Hn.
      * rewrite (script_run_one_no_name _ _ _ _ _ _ _ _ _ Hc Hr Hc1 Hn) in X.
        injection X as <- <-. simpl. repeat split.
        destruct (script_run_test_TestFailed_object _ _ _ _ Hr) as [d ->].
        simpl in Hn. destruct (lookup "name" d); [discriminate |].
        now injection Hn as <-.
    + rewrite (script_run_one_Raise _ _ _ _ _ _ Hc Hr He) in X.
      injection X as <- <-.
      destruct (script_run_test_world_only _ _ _ _ Hr) as (E1 & E2 & E3).
      simpl in *. now repeat split.
Qed.

Lemma script_loop_counts ts : forall (s s' : machine W) rs,
  results (self s) = Some rs ->
  for_each ts Script.run_one s = (Ok tt, s') ->
  exists es,
    results (self s') = Some (rs ++ es)%list /\
    Forall2 entry_of ts es /\
    passed (self s') = passed (self s) + Z.of_nat (count_status "PASSED" es) /\
    failed (self s') = failed (self s) + Z.of_nat (count_status "FAILED" es) /\
    base_url (self s') = base_url (self s) /\
    tests (self s') = tests (self s) /\
    total_elapsed_time (self s') = total_elapsed_time (self s) /\
    stdout s' = stdout s /\ outfile s' = outfile s.
Proof.
  induction ts as [| test ts IH]; intros s s' rs Hrs X; simpl in X.
  - injection X as <-. exists []. rewrite app_nil_r. simpl.
    repeat split; try lia; auto.
  - apply bind_inv in X as [([] & s1 & X1 & X2) | (e & _ & Y)];
      [| discriminate Y].
    destruct (script_run_one_cases _ _ _ _ _ Hrs X1) as (O1 & O2 & elapsed & Hs1).
    assert (Hentry : exists entry,
               entry_of test entry /\
               results (self s1) = Some (rs ++ [entry])%list /\
               passed (self s1) =
                 passed (self s) + Z.of_nat (count_status "PASSED" [entry]) /\
               failed (self s1) =
                 failed (self s) + Z.of_nat (count_status "FAILED" [entry]) /\
               base_url (self s1) = base_url (self s) /\
               tests (self s1) = tests (self s) /\
               total_elapsed_time (self s1) = total_elapsed_time (self s)).
    { destruct Hs1 as [-> | (msg & ->)]; eexists; (split; [exists elapsed |]).
      - left; reflexivity.
      - simpl. repeat split; try reflexivity; lia.
      - right; exists msg; reflexivity.
      - simpl. repeat split; try reflexivity; lia. }
    destruct Hentry as (entry & He & R1 & P1 & F1 & B1 & T1 & E1).
    destruct (IH _ _ _ R1 X2) as (es & R2 & He2 & P2 & F2 & B2 & T2 & E2 & O3 & O4).
    exists (entry :: es). rewrite <- app_assoc in R2.
    change (entry :: es) with ([entry] ++ es)%list.
    rewrite !count_status_app.
    repeat split; try congruence.
    + now constructor.
    + rewrite P2, P1. lia.
    + rewrite F2, F1. lia.
Qed.

Lemma script_loop_raises ts : forall (s s' : machine W) rs e,
  results (self s) = Some rs ->
  for_each ts Script.run_one s = (Raise e, s') ->
  is_TestFailedException e = false.
Proof.
  induction ts as [| test ts IH]; intros s s' rs e Hrs X; simpl in X.
  - discriminate X.
  - apply bind_inv in X as [([] & s1 & X1 & X2) | (e' & X1 & Y)].
    + destruct (script_run_one_cases _ _ _ _ _ Hrs X1) as (_ & _ & elapsed & Hs1).
      assert (exists rs1, results (self s1) = Some rs1) as [rs1 R1].
      { destruct Hs1 as [-> | (msg & ->)]; eexists; reflexivity. }
      eapply IH; eassumption.
    + injection Y as <-.
      now destruct (script_run_one_cases _ _ _ _ _ Hrs X1) as (_ & _ & He & _).
Qed.
End ScriptRun.

Section ScriptSuite.
Context `{Builtins} {W : Type} `{World W}.

Lemma script_run_all_tests_start (s : machine W) ts t0 w0 :
  tests (self s) = JArray ts ->
  clock (world s) = (t0, w0) ->
  Script.run_all_tests s =
  (for_each ts Script.run_one ;;;
   now <- time_time ;;
   modify_self (set_total_elapsed_time (JFloat (float_sub now t0))))
    (mkMachine
       (mkAPICheck (base_url (self s)) (tests (self s)) 0 0
                   (total_elapsed_time (self s)) (Some []))
       w0 (stdout s) (outfile s)).
Proof.
  intros Ht Hc.
  unfold Script.run_all_tests.
  unfold bind at 1, modify_self at 1.
  unfold bind at 1, time_time at 1. simpl. rewrite Hc.
  unfold bind at 1, modify_self at 1.
  unfold bind at 1, modify_self at 1.
  unfold bind at 1, get_self at 1.
  unfold bind at 1, lift at 1.
  unfold set_failed, set_passed, set_results. simpl. rewrite !Ht.
  reflexivity.
Qed.

Lemma script_run_all_tests_reset (s : machine W) p f r :
  Script.run_all_tests
    (mkMachine
       (mkAPICheck (base_url (self s)) (tests (self s)) p f
                   (total_elapsed_time (self s)) r)
       (world s) (stdout s) (outfile s)) =
  Script.run_all_tests s.
Proof.
  cbv beta iota delta
    [Script.run_all_tests bind modify_self time_time get_self lift
     self world stdout outfile set_results set_passed set_failed
     base_url tests passed failed total_elapsed_time results].
  destruct s as [[b t p0 f0 tot r0] w out fl].
  destruct (clock w) as [t0 w0]. reflexivity.
Qed.

Lemma script_run_all_tests_results (s s' : machine W) (ts : list json) :
  tests (self s) = JArray ts ->
  Script.run_all_tests s = (Ok tt, s') ->
  exists rs,
    results (self s') = Some rs /\
    Forall2 entry_of ts rs /\
    passed (self s') = Z.of_nat (count_status "PASSED" rs) /\
    failed (self s') = Z.of_nat (count_status "FAILED" rs).
Proof.
  intros Ht X.
  destruct (clock (world s)) as [t0 w0] eqn:Hc.
  rewrite (script_run_all_tests_start _ _ _ _ Ht Hc) in X.
  apply bind_inv in X as [([] & s1 & X1 & X2) | (e & _ & Y)];
    [| discriminate Y].
  apply script_loop_counts with (rs := []) in X1; [| reflexivity].
  destruct X1 as (es & R & He & P & F & _).
  simpl in R, P, F.
  unfold bind, time_time, modify_self in X2.
  destruct (clock (world s1)) as [t1 w2]. injection X2 as <-.
  exists es. simpl. now rewrite R, P, F.
Qed.

(** C3 on the script.  When [run_all_tests] completes on a list of N
    test cases, the
    results hold one entry per case in the order of the cases, [passed]
    and [failed] count the PASSED and the FAILED entries and add up to N,
    and the run gives the same whatever the counters and the results held
    before it started. *)
Lemma script_run_all_tests_counts (s s' : machine W) (ts : list json) :
  tests (self s) = JArray ts ->
  Script.run_all_tests s = (Ok tt, s') ->
  (exists rs,
     results (self s') = Some rs /\
     Forall2 entry_of ts rs /\
     List.length rs = List.length ts /\
     passed (self s') + failed (self s') = Z.of_nat (List.length ts) /\
     passed (self s') = Z.of_nat (count_status "PASSED" rs) /\
     failed (self s') = Z.of_nat (count_status "FAILED" rs)) /\
  (forall p f r,
     Script.run_all_tests
       (mkMachine
          (mkAPICheck (base_url (self s)) (tests (self s)) p f
                      (total_elapsed_time (self s)) r)
          (world s) (stdout s) (outfile s)) = (Ok tt, s')).
Proof.
  intros Ht X. split.
  - destruct (script_run_all_tests_results _ _ _ Ht X) as (rs & R & He & P & F).
    exists rs. pose proof (count_entries _ _ He) as Hn.
    repeat split; auto.
    + symmetry. eapply Forall2_length; eassumption.
    + lia.
  - intros p f r. now rewrite script_run_all_tests_reset.
Qed.

Lemma script_run_all_tests_raises (s s' : machine W) e :
  Script.run_all_tests s = (Raise e, s') ->
  is_TestFailedException e = false.
Proof.
  unfold Script.run_all_tests.
  unfold bind at 1, modify_self at 1.
  unfold bind at 1, time_time at 1. simpl.
  destruct (clock (world s)) as [t0 w0].
  unfold bind at 1, modify_self at 1.
  unfold bind at 1, modify_self at 1.
  unfold bind at 1, get_self at 1.
  unfold bind at 1, lift at 1. simpl.
  destruct (py_iter (tests (self s))) as [ts | e0] eqn:Hi.
  - intros X.
    apply bind_inv in X as [([] & s1 & X1 & X2) | (e' & X1 & Y)].
    + unfold bind, time_time, modify_self in X2.
      destruct (clock (world s1)). discriminate X2.
    + injection Y as <-.
      eapply script_loop_raises with (rs := []); [| eassumption]. reflexivity.
  - intros X. injection X as <- _.
    destruct (tests (self s)); simpl in Hi; try discriminate Hi;
      now injection Hi as <-.
Qed.
End ScriptSuite.

Section ScriptNameless.
Context `{Builtins} {W : Type} `{World W}.

Lemma for_each_app {A : Type} (xs ys : list A) (body : A -> M W unit) :
  forall s : machine W,
    for_each (xs ++ ys) body s =
    (for_each xs body ;;; for_each ys body) s.
Proof.
  induction xs as [| x xs IH]; intros s; simpl.
  - reflexivity.
  - unfold bind.
    destruct (body x s) as [[[] | e] s1]; [| reflexivity].
    rewrite IH. reflexivity.
Qed.

(** The script and a case with no name, wherever it stands among the
    tests.  The cases before it have run, from the machine the loop
    starts on, and left [s1].  The case fails as malformed, the handler
    reads [test["name"]] again, and the [KeyError] leaves
    [run_all_tests]: the object is as the cases before left it, with no
    entry for this case, the cases after it are not run and the total
    time is not set. *)
Theorem script_missing_name_escapes (s s1 : machine W)
        (pre post : list json) (d : dict) ta wa t0 w0 t1 w2 :
  tests (self s) = JArray (pre ++ JObject d :: post) ->
  lookup "name" d = None ->
  clock (world s) = (ta, wa) ->
  for_each pre Script.run_one
    (mkMachine
       (mkAPICheck (base_url (self s)) (tests (self s)) 0 0
                   (total_elapsed_time (self s)) (Some []))
       wa (stdout s) (outfile s)) = (Ok tt, s1) ->
  clock (world s1) = (t0, w0) ->
  clock w0 = (t1, w2) ->
  Script.run_all_tests s =
  (Raise (KeyError (JString "name")),
   mkMachine (self s1) w2 (stdout s1) (outfile s1)).
Proof.
  intros Ht Hn Hc Hpre Hc0 Hc1.
  rewrite (script_run_all_tests_start _ _ _ _ Ht Hc).
  apply bind_Raise. rewrite for_each_app.
  rewrite (bind_Ok _ _ _ _ _ Hpre). cbn [for_each].
  apply bind_Raise.
  assert (Hr : Script.__run_test (JObject d)
                 (mkMachine (self s1) w0 (stdout s1) (outfile s1)) =
               (Raise (TestFailedException
                  "Malformed test. Must provide 'name' in tests file."),
                mkMachine (self s1) w0 (stdout s1) (outfile s1))).
  { unfold Script.__run_test, Script.fetch_response,
      Script.send_request, bind, try_except, lift.
    now rewrite getitem_object, Hn. }
  assert (Hk : py_getitem (JObject d) (JString "name")
               = Raise (KeyError (JString "name")))
    by now rewrite getitem_object, Hn.
  exact (script_run_one_no_name _ _ _ _ _ _ _ _ _ Hc0 Hr Hc1 Hk).
Qed.
End ScriptNameless.

Section ScriptRequestReport.
Context `{Builtins} {W : Type} `{World W}.

(** C7 on the script: it has no base URL, and sends the request of the
    specification for an empty one. *)
Lemma script_send_request_dispatch (d : dict) (name : json)
      (url method : string) (s : machine W) :
  lookup "name" d = Some name ->
  lookup "url" d = Some (JString url) ->
  lookup "method" d = Some (JString method) ->
  Script.send_request (JObject d) s =
  match dispatch "" url method (lookup "payload" d) with
  | inl req => requests_json req s
  | inr msg => (Raise (TestFailedException msg), s)
  end.
Proof.
  intros Hn Hu Hm.
  unfold Script.send_request, dispatch, same_ignoring_case.
  change (upper "GET") with "GET". change (upper "POST") with "POST".
  unfold bind, lift, get_self, raise.
  rewrite !getitem_object, contains_object, Hn, Hu, Hm. simpl.
  destruct (String.eqb (upper method) "GET"); [reflexivity |].
  destruct (String.eqb (upper method) "POST"); [| reflexivity].
  destruct (lookup "payload" d); reflexivity.
Qed.

(** C8 on the script. *)
Lemma script_no_expectations_passes (test : json) (s s1 : machine W)
      t0 w0 resp t1 w2 rs :
  py_contains "expected_response_values" test = Ok false ->
  py_contains "expected_response_types" test = Ok false ->
  clock (world s) = (t0, w0) ->
  Script.send_request test (mkMachine (self s) w0 (stdout s) (outfile s))
    = (Ok resp, s1) ->
  clock (world s1) = (t1, w2) ->
  results (self s) = Some rs ->
  Script.run_one test s =
  (Ok tt,
   mkMachine
     (record_passed
        (passed_entry (name_or_sentinel test) (float_sub t1 t0)) rs (self s))
     w2 (stdout s) (outfile s)).
Proof.
  intros Hv Ht Hc Hs Hc1 Hrs.
  apply script_run_one_PASSED with (w0 := w0) (s1 := s1); auto.
  unfold Script.__run_test, Script.fetch_response, bind, try_except, lift.
  rewrite Hs.
  unfold Script.run_checks, Script.check_values, APICheck.check_values,
    Script.check_types.
  now rewrite Hv, Ht.
Qed.

(** C9 on the script: rendering changes neither the object nor the
    outside world, whether it returns or raises. *)
Lemma script_output_results_streams_only format out :
  preserves streams_only (Script.__output_results (W := W) format out).
Proof.
  unfold Script.__output_results, get_results, print.
  repeat first
    [ apply write_streams_only
    | apply write_result_streams_only
    | frame_step (@streams_only_refl W) (@streams_only_trans W) ].
Qed.

(** C10 on the script once a test was counted. *)
Lemma script_output_results_unknown_format format out (s : machine W) :
  passed (self s) + failed (self s) <> 0 ->
  same_ignoring_case format "json" = false ->
  same_ignoring_case format "text" = false ->
  Script.__output_results format out s = (Ok tt, s).
Proof.
  unfold same_ignoring_case.
  change (upper "json") with "JSON". change (upper "text") with "TEXT".
  intros Hn Hj Ht.
  unfold Script.__output_results, try_except, bind, get_self, lift.
  rewrite (script_success_percent_nonzero _ Hn).
  now rewrite Hj, Ht.
Qed.
End ScriptRequestReport.

(** ** The packaged module: the errors of a test *)

Section PackageTestErrors.
Context `{Builtins} {W : Type} `{World W}.

(** A case that lacks [name], [url] or [method] fails as malformed, with
    the first of them it lacks. *)
Lemma run_test_missing_field (d : dict) (s : machine W) :
  (lookup "name" d = None ->
   APICheck.__run_test (JObject d) s =
   (Raise (TestFailedException
             "Malformed test. Must provide 'name' in tests file."), s)) /\
  (forall name,
     lookup "name" d = Some name ->
     lookup "url" d = None ->
     APICheck.__run_test (JObject d) s =
     (Raise (TestFailedException
               "Malformed test. Must provide 'url' in tests file."), s)) /\
  (forall name url,
     lookup "name" d = Some name ->
     lookup "url" d = Some (JString url) ->
     lookup "method" d = None ->
     APICheck.__run_test (JObject d) s =
     (Raise (TestFailedException
               "Malformed test. Must provide 'method' in tests file."), s)).
Proof.
  unfold APICheck.__run_test, APICheck.fetch_response,
    APICheck.send_request, bind, try_except, lift, get_self.
  rewrite !getitem_object.
  repeat split.
  - now intros ->.
  - intros name -> ->. reflexivity.
  - intros name url -> -> ->. reflexivity.
Qed.

(** A body that does not decode fails the case. *)
Lemma run_test_undecodable (d : dict) (name : json) (url method : string)
      (s : machine W) req w :
  lookup "name" d = Some name ->
  lookup "url" d = Some (JString url) ->
  lookup "method" d = Some (JString method) ->
  dispatch (base_url (self s)) url method (lookup "payload" d) = inl req ->
  send req (world s) = (Raise ValueError, w) ->
  APICheck.__run_test (JObject d) s =
  (Raise (TestFailedException "Could not decode JSON from response."),
   mkMachine (self s) w (stdout s) (outfile s)).
Proof.
  intros Hn Hu Hm Hd Hs.
  unfold APICheck.__run_test, APICheck.fetch_response, bind, try_except.
  rewrite (send_request_dispatch _ _ _ _ _ Hn Hu Hm), Hd.
  unfold requests_json. now rewrite Hs.
Qed.
End PackageTestErrors.

(** ** Evaluations *)

Lemma output_results_frame_witness :
  exists texts,
    APICheck.__output_results "Text" Outfile
      (snd (APICheck.run_all_tests
              (boot (APICheck.init "http://host"
                       (JArray [test_item_id; test_put]))))) =
    (Ok tt,
     append_to Outfile texts
       (snd (APICheck.run_all_tests
               (boot (APICheck.init "http://host"
                        (JArray [test_item_id; test_put])))))).
Proof.
  assert (Hrun :
    APICheck.run_all_tests
      (boot (APICheck.init "http://host" (JArray [test_item_id; test_put])))
    = (Ok tt,
       snd (APICheck.run_all_tests
              (boot (APICheck.init "http://host"
                       (JArray [test_item_id; test_put]))))))
    by (vm_compute; reflexivity).
  exact (proj2 (output_results_frame "Text" Outfile)
           (boot (APICheck.init "http://host"
                    (JArray [test_item_id; test_put])))
           _ [test_item_id; test_put] eq_refl Hrun).
Defined.

Lemma success_percent_guarded_witness :
  APICheck.success_percent (APICheck.init "http://host" (JArray [])) =
  Ok (S754_zero false) /\
  APICheck.success_percent
    (mkAPICheck "http://host" JNull 1 2 (JInt 0) (Some [])) =
  Ok (S754_finite false 4691249611844266 (-47)).
Proof.
  split.
  - exact (success_percent_guarded
             (APICheck.init "http://host" (JArray []))
             (Z.le_refl 0) (Z.le_refl 0)).
  - apply (success_percent_guarded
             (mkAPICheck "http://host" JNull 1 2 (JInt 0) (Some [])));
      simpl; lia.
Defined.

Lemma output_results_unknown_format_witness :
  APICheck.__output_results "xml" Stdout
    (boot (APICheck.init "http://host" (JArray []))) =
  (Ok tt, boot (APICheck.init "http://host" (JArray []))).
Proof.
  exact (output_results_unknown_format "xml" Stdout
           (boot (APICheck.init "http://host" (JArray [])))
           eq_refl eq_refl).
Defined.

Lemma script_run_all_tests_counts_witness :
  exists rs,
    results (self (snd (Script.run_all_tests
                          (boot (Script.init (JArray [script_item_id]))))))
    = Some rs /\
    List.length rs = 1%nat.
Proof.
  assert (Hrun :
    Script.run_all_tests (boot (Script.init (JArray [script_item_id])))
    = (Ok tt,
       snd (Script.run_all_tests
              (boot (Script.init (JArray [script_item_id]))))))
    by (vm_compute; reflexivity).
  destruct (proj1 (script_run_all_tests_counts
                     (boot (Script.init (JArray [script_item_id])))
                     _ [script_item_id] eq_refl Hrun))
    as (rs & R & _ & L & _).
  exists rs. split; assumption.
Defined.

Lemma run_test_undecodable_witness :
  APICheck.__run_test
    (JObject [("name", JString "page"); ("url", JString "/page");
              ("method", JString "GET")])
    (boot (APICheck.init "http://host" JNull)) =
  (Raise (TestFailedException "Could not decode JSON from response."),
   boot (APICheck.init "http://host" JNull)).
Proof.
  exact (run_test_undecodable
           [("name", JString "page"); ("url", JString "/page");
            ("method", JString "GET")]
           (JString "page") "/page" "GET"
           (boot (APICheck.init "http://host" JNull))
           (mkRequest GET (JString "http://host/page") None) 0
           eq_refl eq_refl eq_refl eq_refl eq_refl).
Defined.

(** C6 on the script: the value checks are the same text, and a failure
    among them ends the checks of the script as well. *)
Lemma script_value_checks_first_failure `{Builtins} (d ev r : dict) :
  lookup "expected_response_values" d = Some (JObject ev) ->
  match first_failure (value_failure ev r) (keys ev) with
  | Some msg =>
      Script.run_checks (JObject d) (JObject r)
        = Raise (TestFailedException msg)
  | None => Script.check_values (JObject d) (JObject r) = Ok tt
  end.
Proof.
  intros Hev. pose proof (check_values_object d ev r Hev) as Hc.
  unfold Script.check_values.
  destruct (first_failure (value_failure ev r) (keys ev)) as [msg |];
    [| exact Hc].
  unfold Script.run_checks, Script.check_values.
  destruct Hc as [-> | (k & -> & ->)]; reflexivity.
Qed.

(** C9 on the script, spelled out. *)
Lemma script_output_results_frame `{Builtins} {W : Type} `{World W}
      format out (s s' : machine W) r :
  Script.__output_results format out s = (r, s') ->
  self s' = self s /\ world s' = world s.
Proof. apply script_output_results_streams_only. Qed.

Lemma script_output_results_frame_witness :
  self (snd (Script.__output_results "json" Outfile
               (boot (mkAPICheck "" JNull 1 0 (JInt 0) (Some [])))))
  = mkAPICheck "" JNull 1 0 (JInt 0) (Some []).
Proof.
  exact (proj1 (script_output_results_frame "json" Outfile
                  (boot (mkAPICheck "" JNull 1 0 (JInt 0) (Some [])))
                  (snd (Script.__output_results "json" Outfile
                          (boot (mkAPICheck "" JNull 1 0 (JInt 0) (Some [])))))
                  (Ok tt) eq_refl)).
Defined.

Lemma script_missing_name_escapes_witness :
  Script.run_all_tests
    (boot (Script.init
             (JArray [script_item_id; script_no_name; script_item_id]))) =
  (Raise (KeyError (JString "name")),
   mkMachine
     (mkAPICheck ""
        (JArray [script_item_id; script_no_name; script_item_id]) 1 0
        (JInt 0)
        (Some [passed_entry (JString "item")
                 (float_sub (float_of_int 2) (float_of_int 1))]))
     5 [] []).
Proof.
  assert (Hc : clock (world (boot (Script.init
                 (JArray [script_item_id; script_no_name; script_item_id]))))
               = (float_of_int 0, 1)) by reflexivity.
  assert (Hpre :
    for_each [script_item_id] Script.run_one
      (mkMachine
         (mkAPICheck ""
            (JArray [script_item_id; script_no_name; script_item_id]) 0 0
            (JInt 0) (Some []))
         1 [] []) =
    (Ok tt,
     mkMachine
       (mkAPICheck ""
          (JArray [script_item_id; script_no_name; script_item_id]) 1 0
          (JInt 0)
          (Some [passed_entry (JString "item")
                   (float_sub (float_of_int 2) (float_of_int 1))]))
       3 [] [])) by reflexivity.
  assert (Hc0 : clock 3 = (float_of_int 3, 4)) by reflexivity.
  assert (Hc1 : clock 4 = (float_of_int 4, 5)) by reflexivity.
  exact (script_missing_name_escapes
           (boot (Script.init
                    (JArray [script_item_id; script_no_name;
                             script_item_id])))
           _ [script_item_id] [script_item_id]
           [("url", JString "http://host/item"); ("method", JString "GET")]
           _ _ _ _ _ _ eq_refl eq_refl Hc Hpre Hc0 Hc1).
Defined.

(** * Further properties *)

(** ** When a case passes its checks *)

Lemma first_failure_None failure ks :
  first_failure failure ks = None <->
  Forall (fun k => failure k = None) ks.
Proof.
  induction ks as [| k ks IH]; simpl.
  - split; [constructor | reflexivity].
  - destruct (failure k) as [msg |] eqn:E.
    + split; [discriminate |]. intros X. inversion X; congruence.
    + rewrite IH. split; [now constructor | intros X; now inversion X].
Qed.

Lemma lookup_in_keys k (d : dict) v : lookup k d = Some v -> In k (keys d).
Proof.
  induction d as [| [k' w] d IH]; simpl; [discriminate |].
  destruct (String.eqb_spec k k') as [-> | _]; [now left | right; auto].
Qed.

Lemma each_Ok {A : Type} (xs : list A) (f : A -> result unit) :
  each xs f = Ok tt <-> Forall (fun x => f x = Ok tt) xs.
Proof.
  induction xs as [| x xs IH]; simpl.
  - split; [constructor | reflexivity].
  - destruct (f x) as [[] | e] eqn:E; simpl.
    + rewrite IH. split; [now constructor | intros X; now inversion X].
    + split; [discriminate |]. intros X. inversion X; congruence.
Qed.

Section PassingChecks.
Context `{Builtins}.

Lemma run_checks_Ok test resp :
  APICheck.run_checks test resp = Ok tt <->
  APICheck.check_values test resp = Ok tt /\
  APICheck.check_types test resp = Ok tt.
Proof.
  unfold APICheck.run_checks.
  destruct (APICheck.check_values test resp) as [[] | e]; simpl.
  - destruct (APICheck.check_types test resp) as [[] | e]; simpl.
    + tauto.
    + split; [| intros [_ X]; discriminate X].
      destruct e; discriminate.
  - split; [| intros [X _]; discriminate X].
    destruct e; discriminate.
Qed.

Lemma check_values_absent (d : dict) resp :
  lookup "expected_response_values" d = None ->
  APICheck.check_values (JObject d) resp = Ok tt.
Proof.
  intros E. unfold APICheck.check_values.
  now rewrite contains_object, E.
Qed.

Lemma check_types_absent (d : dict) resp :
  lookup "expected_response_types" d = None ->
  APICheck.check_types (JObject d) resp = Ok tt.
Proof.
  intros E. unfold APICheck.check_types.
  now rewrite contains_object, E.
Qed.

Lemma value_failure_None (ev r : dict) :
  Forall (fun k => value_failure ev r k = None) (keys ev) <->
  values_match ev r.
Proof.
  rewrite Forall_forall. unfold values_match, value_failure. split.
  - intros Hall k e He.
    specialize (Hall k (lookup_in_keys _ _ _ He)). rewrite He in Hall.
    destruct (lookup k r) as [a |]; [| discriminate Hall].
    exists a. split; [reflexivity |].
    rewrite py_eq_json_equal.
    now destruct (json_equal (as_python e) (as_python a)).
  - intros Hm k _. destruct (lookup k ev) as [e |] eqn:He; [| reflexivity].
    destruct (Hm k e He) as (a & -> & Heq).
    now rewrite <- py_eq_json_equal, Heq.
Qed.

Lemma type_failure_None (et r : dict) :
  Forall (fun k => type_failure et r k = None) (keys et) <->
  types_match et r.
Proof.
  rewrite Forall_forall. unfold types_match, type_failure. split.
  - intros Hall k tag Ht.
    specialize (Hall k (lookup_in_keys _ _ _ Ht)). rewrite Ht in Hall.
    destruct (lookup k r) as [v |]; [| discriminate Hall].
    destruct (tag_type tag) as [t |]; [| discriminate Hall].
    exists v, t. repeat split.
    now destruct (isinstance v t).
  - intros Hm k _. destruct (lookup k et) as [tag |] eqn:Ht; [| reflexivity].
    destruct (Hm k tag Ht) as (v & t & -> & -> & ->). reflexivity.
Qed.

Lemma check_values_Ok (d ev r : dict) :
  expects "expected_response_values" d ev ->
  APICheck.check_values (JObject d) (JObject r) = Ok tt <->
  values_match ev r.
Proof.
  intros [Hev | [Hev ->]].
  - rewrite <- value_failure_None, <- first_failure_None.
    pose proof (check_values_object d ev r Hev) as Hc.
    destruct (first_failure (value_failure ev r) (keys ev)) as [msg |].
    + split; [| discriminate].
      destruct Hc as [-> | (k & -> & _)]; discriminate.
    + tauto.
  - rewrite (check_values_absent _ _ Hev).
    split; [| reflexivity]. intros _ k e He. discriminate He.
Qed.

Lemma check_types_Ok (d et r : dict) :
  expects "expected_response_types" d et ->
  APICheck.check_types (JObject d) (JObject r) = Ok tt <->
  types_match et r.
Proof.
  intros [Het | [Het ->]].
  - rewrite <- type_failure_None, <- first_failure_None.
    pose proof (check_types_object d et r Het) as Hc.
    destruct (first_failure (type_failure et r) (keys et)) as [msg |].
    + split; [| discriminate].
      destruct Hc as [-> | (k & -> & _)]; discriminate.
    + tauto.
  - rewrite (check_types_absent _ _ Het).
    split; [| reflexivity]. intros _ k e He. discriminate He.
Qed.

(** A case passes its checks on a response that is a JSON object exactly
    when every expected value is there and equal and every expected type
    is met: the order of the keys decides the message of a failure, not
    whether there is one. *)
Theorem case_passes_iff (d ev et r : dict) :
  expects "expected_response_values" d ev ->
  expects "expected_response_types" d et ->
  APICheck.run_checks (JObject d) (JObject r) = Ok tt <->
  values_match ev r /\ types_match et r.
Proof.
  intros Hev Het.
  now rewrite run_checks_Ok, (check_values_Ok _ _ _ Hev),
    (check_types_Ok _ _ _ Het).
Qed.
End PassingChecks.

Lemma case_passes_iff_witness :
  APICheck.run_checks
    (JObject [("expected_response_values",
               JObject [("title", JString "a"); ("id", JInt 1)]);
              ("expected_response_types",
               JObject [("price", JString "float")])])
    (JObject item) = Ok tt.
Proof.
  apply (case_passes_iff
           [("expected_response_values",
             JObject [("title", JString "a"); ("id", JInt 1)]);
            ("expected_response_types",
             JObject [("price", JString "float")])]
           [("title", JString "a"); ("id", JInt 1)]
           [("price", JString "float")] item).
  - left; reflexivity.
  - left; reflexivity.
  - split.
    + intros k e. simpl.
      destruct (String.eqb_spec k "title") as [-> | _];
        [intros X; injection X as <-; eexists; split; reflexivity |].
      destruct (String.eqb_spec k "id") as [-> | _];
        [intros X; injection X as <-; eexists; split; reflexivity |].
      discriminate.
    + intros k tag. simpl.
      destruct (String.eqb_spec k "price") as [-> | _]; [| discriminate].
      intros X; injection X as <-.
      exists (JFloat float_3_14), Tfloat. repeat split.
Defined.

(** ** The two variants of the checks *)

Lemma catch_Ok (r : result unit) handler :
  (forall e h, handler e = Some h -> h <> Ok tt) ->
  catch r handler = Ok tt <-> r = Ok tt.
Proof.
  intros Hh. destruct r as [[] | e]; simpl; [tauto |].
  destruct (handler e) as [h |] eqn:E.
  - split; [intros X; now elim (Hh e h E) | discriminate].
  - tauto.
Qed.

Lemma checks_handler_not_Ok `{Builtins} e (h : result unit) :
  match e with
  | KeyError k =>
      Some (Raise (TestFailedException
                     ("Expected key '" ++ str k ++ "' not found.")))
  | _ => None
  end = Some h -> h <> Ok tt.
Proof. destruct e; intros X; inversion X; discriminate. Qed.

Lemma Forall_pointwise {A : Type} (P Q : A -> Prop) (xs : list A) :
  (forall x, P x <-> Q x) -> Forall P xs <-> Forall Q xs.
Proof.
  intros HPQ. split; apply Forall_impl; intros x; apply HPQ.
Qed.

Section Variants.
Context `{Builtins}.

Lemma script_check_instance_Ok key resp exp_type t :
  Script.check_instance key resp exp_type t = Ok tt <->
  exists val, py_getitem resp key = Ok val /\ isinstance val t = true.
Proof.
  unfold Script.check_instance, Script.get_type_error_message.
  destruct (py_getitem resp key) as [v | e]; simpl.
  - destruct (isinstance v t) eqn:E; simpl.
    + split; [intros _; exists v; now split | reflexivity].
    + split; [discriminate | intros (v' & X & Y); congruence].
  - split; [discriminate | intros (v' & X & _); discriminate].
Qed.

Lemma test_expected_type_Ok key val t :
  APICheck.__test_expected_type key val t = Ok tt <->
  isinstance val t = true.
Proof.
  unfold APICheck.__test_expected_type.
  destruct (isinstance val t); simpl; split; congruence.
Qed.

Lemma check_types_agree test resp :
  Script.check_types test resp = Ok tt <->
  APICheck.check_types test resp = Ok tt.
Proof.
  unfold Script.check_types, APICheck.check_types.
  destruct (py_contains "expected_response_types" test) as [[] | e];
    simpl; try tauto.
  destruct (py_getitem test (JString "expected_response_types"))
    as [expected | e]; simpl; try tauto.
  destruct (py_iter expected) as [ks | e]; simpl; try tauto.
  rewrite !each_Ok. apply Forall_pointwise. intros key.
  destruct (py_getitem expected key) as [tag | e]; simpl.
  2:{ split; discriminate. }
  destruct (py_eq tag (JString "string")).
  { rewrite script_check_instance_Ok.
    destruct (py_getitem resp key) as [v | e]; cbn [and_then].
    - rewrite test_expected_type_Ok. split.
      + intros (v' & X & Y). now injection X as <-.
      + intros X. now exists v.
    - split; [intros (v' & X & _) |]; discriminate. }
  destruct (py_eq tag (JString "int")).
  { rewrite script_check_instance_Ok.
    destruct (py_getitem resp key) as [v | e]; cbn [and_then].
    - rewrite test_expected_type_Ok. split.
      + intros (v' & X & Y). now injection X as <-.
      + intros X. now exists v.
    - split; [intros (v' & X & _) |]; discriminate. }
  destruct (py_eq tag (JString "float")).
  { rewrite script_check_instance_Ok.
    destruct (py_getitem resp key) as [v | e]; cbn [and_then].
    - rewrite test_expected_type_Ok. split.
      + intros (v' & X & Y). now injection X as <-.
      + intros X. now exists v.
    - split; [intros (v' & X & _) |]; discriminate. }
  destruct (py_getitem resp key); simpl; split; discriminate.
Qed.

(** The stand-alone script and the packaged module pass the same cases:
    for every case and every response, whatever their shape, the checks
    of the one return normally exactly when those of the other do.  The
    two differ only in how a failure ends. *)
Theorem checks_pass_alike (test resp : json) :
  Script.run_checks test resp = Ok tt <->
  APICheck.run_checks test resp = Ok tt.
Proof.
  unfold Script.run_checks, APICheck.run_checks, Script.check_values.
  rewrite !catch_Ok by (intros e h; apply checks_handler_not_Ok).
  destruct (APICheck.check_values test resp) as [[] | e]; simpl;
    [apply check_types_agree | tauto].
Qed.
End Variants.

(** ** The type checks of the stand-alone script *)

Section ScriptTypeChecks.
Context `{Builtins}.

Lemma script_type_body (d et r : dict) (k : string) (rest : result unit) :
  lookup "expected_response_types" d = Some (JObject et) ->
  lookup k et <> None ->
  catch
    (and_then
       (
       (fun key =>
          expected' <--
            py_getitem (JObject d) (JString "expected_response_types") ;;
          exp_type <-- py_getitem expected' key ;;
          if py_eq exp_type (JString "string") then
            Script.check_instance key (JObject r) exp_type Tstr
          else if py_eq exp_type (JString "int") then
            Script.check_instance key (JObject r) exp_type Tint
          else if py_eq exp_type (JString "float") then
            Script.check_instance key (JObject r) exp_type Tfloat
          else
            Raise (TestFailedException Script.malformed_types_msg))
          (JString k))
       (fun _ => rest))
    (fun e =>
       match e with
       | KeyError k =>
           Some (Raise (TestFailedException
                          ("Expected key '" ++ str k ++ "' not found.")))
       | _ => None
       end) =
  match script_type_error et r k with
  | Some e => Raise e
  | None =>
      catch rest
        (fun e =>
           match e with
           | KeyError k =>
               Some (Raise (TestFailedException
                              ("Expected key '" ++ str k ++ "' not found.")))
           | _ => None
           end)
  end.
Proof.
  intros Het Hk. unfold script_type_error.
  rewrite !getitem_object, Het. cbn [and_then].
  rewrite getitem_object.
  destruct (lookup k et) as [tag |]; [| now elim Hk]. cbn [and_then].
  rewrite !py_eq_string. unfold tag_type, Script.check_instance.
  rewrite !getitem_object.
  destruct tag as [| | | | t | |]; try reflexivity.
  destruct (String.eqb t "string").
  { destruct (lookup k r) as [v |]; [| reflexivity]. cbn [and_then].
    destruct (isinstance v Tstr); reflexivity. }
  destruct (String.eqb t "int").
  { destruct (lookup k r) as [v |]; [| reflexivity]. cbn [and_then].
    destruct (isinstance v Tint); reflexivity. }
  destruct (String.eqb t "float").
  { destruct (lookup k r) as [v |]; [| reflexivity]. cbn [and_then].
    destruct (isinstance v Tfloat); reflexivity. }
  reflexivity.
Qed.

Lemma script_type_loop (d et r : dict) (ks : list string) :
  lookup "expected_response_types" d = Some (JObject et) ->
  (forall k, In k ks -> lookup k et <> None) ->
  catch
    (each (map JString ks)
       (fun key =>
          expected' <--
            py_getitem (JObject d) (JString "expected_response_types") ;;
          exp_type <-- py_getitem expected' key ;;
          if py_eq exp_type (JString "string") then
            Script.check_instance key (JObject r) exp_type Tstr
          else if py_eq exp_type (JString "int") then
            Script.check_instance key (JObject r) exp_type Tint
          else if py_eq exp_type (JString "float") then
            Script.check_instance key (JObject r) exp_type Tfloat
          else
            Raise (TestFailedException Script.malformed_types_msg)))
    (fun e =>
       match e with
       | KeyError k =>
           Some (Raise (TestFailedException
                          ("Expected key '" ++ str k ++ "' not found.")))
       | _ => None
       end) =
  match first_error (script_type_error et r) ks with
  | Some e => Raise e
  | None => Ok tt
  end.
Proof.
  intros Het. induction ks as [| k ks IH]; intros Hin; [reflexivity |].
  assert (Hk : lookup k et <> None) by (apply Hin; now left).
  specialize (IH (fun k' X => Hin k' (or_intror X))).
  cbn [map each first_error].
  etransitivity; [exact (script_type_body d et r k _ Het Hk) |].
  destruct (script_type_error et r k); [reflexivity | exact IH].
Qed.

(** In the stand-alone script, for a response that is a JSON object
    that passed the value checks, the type checks end at the first key,
    in the order of the [expected_response_types] map, whose tag is none
    of string, int and float (malformed test), that the response lacks
    (key not found), or whose value is not of the tag's class; this last
    one is no failure of the case but an [AttributeError], the method
    that would build the message not being there.  With no such key the
    case passes. *)
Theorem script_type_checks_first_error (d et r : dict) :
  lookup "expected_response_types" d = Some (JObject et) ->
  Script.check_values (JObject d) (JObject r) = Ok tt ->
  Script.run_checks (JObject d) (JObject r) =
  match first_error (script_type_error et r) (keys et) with
  | Some e => Raise e
  | None => Ok tt
  end.
Proof.
  intros Het Hv. unfold Script.run_checks. rewrite Hv.
  cbn [and_then]. unfold Script.check_types.
  assert (Hc : py_contains "expected_response_types" (JObject d) = Ok true)
    by now rewrite contains_object, Het.
  assert (Hg : py_getitem (JObject d) (JString "expected_response_types")
               = Ok (JObject et))
    by now rewrite getitem_object, Het.
  rewrite (and_then_Ok _ _ _ Hc). cbv beta iota.
  rewrite (and_then_Ok _ _ _ Hg).
  change (py_iter (JObject et)) with (Ok (map JString (keys et))).
  unfold and_then at 1.
  apply script_type_loop; [exact Het |].
  intros k. apply lookup_keys.
Qed.
End ScriptTypeChecks.

Lemma script_type_checks_first_error_witness :
  Script.run_checks
    (JObject [("expected_response_types",
               JObject [("title", JString "string");
                        ("price", JString "int");
                        ("nope", JString "int")])])
    (JObject item) = Raise AttributeError.
Proof.
  apply (script_type_checks_first_error
           [("expected_response_types",
             JObject [("title", JString "string");
                      ("price", JString "int");
                      ("nope", JString "int")])]
           [("title", JString "string"); ("price", JString "int");
            ("nope", JString "int")]
           item); reflexivity.
Defined.

(** ** Errors that end the run *)

Lemma getitem_non_object resp k :
  (forall o, resp <> JObject o) ->
  py_getitem resp (JString k) = Raise TypeError.
Proof.
  intros Hr. destruct resp; try reflexivity. now elim (Hr kvs).
Qed.

Section NonObjectResponse.
Context `{Builtins} {W : Type} `{World W}.

Lemma check_values_non_object (d ev : dict) resp :
  (forall o, resp <> JObject o) ->
  lookup "expected_response_values" d = Some (JObject ev) ->
  ev <> [] ->
  APICheck.check_values (JObject d) resp = Raise TypeError.
Proof.
  intros Hr Hev Hne. unfold APICheck.check_values.
  rewrite contains_object, Hev. cbn [and_then].
  rewrite getitem_object, Hev. cbn [and_then py_iter].
  destruct ev as [| [k v] ev]; [now elim Hne |].
  cbn [keys map each fst].
  rewrite getitem_object. cbn [lookup]. rewrite String.eqb_refl.
  cbn [and_then]. now rewrite (getitem_non_object _ _ Hr).
Qed.

Lemma check_values_empty (d : dict) resp :
  expects "expected_response_values" d [] ->
  APICheck.check_values (JObject d) resp = Ok tt.
Proof.
  intros [Hev | [Hev _]]; [| now apply check_values_absent].
  unfold APICheck.check_values.
  rewrite contains_object, Hev. cbn [and_then].
  now rewrite getitem_object, Hev.
Qed.

Lemma check_types_non_object (d et : dict) resp :
  (forall o, resp <> JObject o) ->
  lookup "expected_response_types" d = Some (JObject et) ->
  et <> [] ->
  APICheck.check_types (JObject d) resp = Raise TypeError.
Proof.
  intros Hr Het Hne. unfold APICheck.check_types.
  rewrite contains_object, Het. cbn [and_then].
  rewrite getitem_object, Het. cbn [and_then py_iter].
  destruct et as [| [k v] et]; [now elim Hne |].
  cbn [keys map each fst].
  rewrite getitem_object. cbn [lookup]. rewrite String.eqb_refl.
  cbn [and_then]. now rewrite (getitem_non_object _ _ Hr).
Qed.

Lemma run_checks_non_object (d ev et : dict) resp :
  (forall o, resp <> JObject o) ->
  expects "expected_response_values" d ev ->
  expects "expected_response_types" d et ->
  ev <> [] \/ et <> [] ->
  APICheck.run_checks (JObject d) resp = Raise TypeError.
Proof.
  intros Hr Hev Het Hne. unfold APICheck.run_checks.
  destruct ev as [| kv ev].
  - rewrite (check_values_empty _ _ Hev). cbn [and_then].
    destruct Hne as [Hne | Hne]; [now elim Hne |].
    destruct Het as [Het | [_ ->]]; [| now elim Hne].
    now rewrite (check_types_non_object _ _ _ Hr Het Hne).
  - destruct Hev as [Hev | [_ Hev]]; [| discriminate Hev].
    now rewrite (check_values_non_object _ _ _ Hr Hev).
Qed.

(** A response that decodes to anything but a JSON object (an array, a
    string, a number, [null]) is no failure of a case that expects a
    value or a type: subscripting it raises [TypeError], which goes
    through [__run_test] and [run_all_tests]; the case is not recorded
    and the cases after it are not run. *)
Theorem non_object_response_aborts (d ev et : dict) (rest : list json)
        (s s1 : machine W) t0 w0 resp :
  clock (world s) = (t0, w0) ->
  APICheck.send_request (JObject d)
    (mkMachine (self s) w0 (stdout s) (outfile s)) = (Ok resp, s1) ->
  (forall o, resp <> JObject o) ->
  expects "expected_response_values" d ev ->
  expects "expected_response_types" d et ->
  ev <> [] \/ et <> [] ->
  for_each (JObject d :: rest) APICheck.run_one s = (Raise TypeError, s1) /\
  self s1 = self s.
Proof.
  intros Hc Hs Hr Hev Het Hne. split.
  - apply loop_Raise with (t0 := t0) (w0 := w0); [exact Hc | | reflexivity].
    unfold APICheck.__run_test, APICheck.fetch_response.
    unfold bind, try_except. rewrite Hs. unfold lift.
    now rewrite (run_checks_non_object d ev et resp Hr Hev Het Hne).
  - now destruct (send_request_world_only _ _ _ _ Hs) as (E & _).
Qed.

(** A case with no [name].  The packaged module records it FAILED, under
    the name ERROR: NAME NOT PROVIDED and with the message that [name]
    must be provided, sends no request and goes on with the cases that
    remain.  In the stand-alone script the handler reads [test["name"]]
    again: the [KeyError] leaves [run_all_tests] and nothing is
    recorded. *)
Theorem nameless_case (d : dict) (rest : list json) (s : machine W)
        t0 w0 t1 w2 rs :
  lookup "name" d = None ->
  clock (world s) = (t0, w0) ->
  clock w0 = (t1, w2) ->
  results (self s) = Some rs ->
  for_each (JObject d :: rest) APICheck.run_one s =
  for_each rest APICheck.run_one
    (mkMachine
       (record_failed
          (failed_entry (JString "ERROR: NAME NOT PROVIDED")
             (float_sub t1 t0)
             "Malformed test. Must provide 'name' in tests file.")
          rs (self s))
       w2 (stdout s) (outfile s)) /\
  for_each (JObject d :: rest) Script.run_one s =
  (Raise (KeyError (JString "name")),
   mkMachine (self s) w2 (stdout s) (outfile s)).
Proof.
  intros Hn Hc Hc1 Hrs. split.
  - assert (Hr : APICheck.__run_test (JObject d)
                   (mkMachine (self s) w0 (stdout s) (outfile s)) =
                 (Raise (TestFailedException
                    "Malformed test. Must provide 'name' in tests file."),
                  mkMachine (self s) w0 (stdout s) (outfile s))).
    { unfold APICheck.__run_test, APICheck.fetch_response,
        APICheck.send_request, bind, try_except, lift.
      now rewrite getitem_object, Hn. }
    rewrite (loop_FAILED _ rest _ _ _ _ _ _ _ _ Hc Hr Hc1 Hrs).
    unfold name_or_sentinel. now rewrite getitem_object, Hn.
  - assert (Hr : Script.__run_test (JObject d)
                   (mkMachine (self s) w0 (stdout s) (outfile s)) =
                 (Raise (TestFailedException
                    "Malformed test. Must provide 'name' in tests file."),
                  mkMachine (self s) w0 (stdout s) (outfile s))).
    { unfold Script.__run_test, Script.fetch_response,
        Script.send_request, bind, try_except, lift.
      now rewrite getitem_object, Hn. }
    assert (Hk : py_getitem (JObject d) (JString "name")
                 = Raise (KeyError (JString "name")))
      by now rewrite getitem_object, Hn.
    cbn [for_each].
    now rewrite (bind_Raise _ _ _ _ _
                   (script_run_one_no_name _ _ _ _ _ _ _ _ _ Hc Hr Hc1 Hk)).
Qed.

(** A case whose fields have the wrong shape is no failure of the case
    but an error of the run: an entry of the tests that is not a JSON
    object and a [url] that is not a string raise [TypeError], a [method]
    that is not a string raises [AttributeError].  No request is sent,
    nothing is recorded, and the cases after it are not run. *)
Theorem ill_shaped_case_aborts (test : json) (rest : list json)
        (s : machine W) t0 w0 :
  clock (world s) = (t0, w0) ->
  ((forall d, test <> JObject d) ->
   for_each (test :: rest) APICheck.run_one s =
   (Raise TypeError, mkMachine (self s) w0 (stdout s) (outfile s))) /\
  (forall d name url,
     test = JObject d ->
     lookup "name" d = Some name ->
     lookup "url" d = Some url ->
     (forall u, url <> JString u) ->
     for_each (test :: rest) APICheck.run_one s =
     (Raise TypeError, mkMachine (self s) w0 (stdout s) (outfile s))) /\
  (forall d name url method,
     test = JObject d ->
     lookup "name" d = Some name ->
     lookup "url" d = Some (JString url) ->
     lookup "method" d = Some method ->
     (forall m, method <> JString m) ->
     for_each (test :: rest) APICheck.run_one s =
     (Raise AttributeError, mkMachine (self s) w0 (stdout s) (outfile s))).
Proof.
  intros Hc. repeat split.
  - intros Hd.
    apply loop_Raise with (t0 := t0) (w0 := w0); [exact Hc | | reflexivity].
    now apply run_test_not_object.
  - intros d name url -> Hn Hu Hs.
    apply loop_Raise with (t0 := t0) (w0 := w0); [exact Hc | | reflexivity].
    unfold APICheck.__run_test, APICheck.fetch_response,
      APICheck.send_request, bind, try_except, lift, get_self.
    rewrite !getitem_object, Hn, Hu.
    destruct url; try reflexivity. now elim (Hs s0).
  - intros d name url method -> Hn Hu Hm Hs.
    apply loop_Raise with (t0 := t0) (w0 := w0); [exact Hc | | reflexivity].
    unfold APICheck.__run_test, APICheck.fetch_response,
      APICheck.send_request, bind, try_except, lift, get_self.
    rewrite !getitem_object, Hn, Hu, Hm. cbn [str_add].
    destruct method; try reflexivity. now elim (Hs s0).
Qed.
End NonObjectResponse.

(** ** Tests that are not a JSON array *)

Section TestsShape.
Context `{Builtins} {W : Type} `{World W}.

Lemma run_all_tests_iter (s : machine W) t0 w0 :
  clock (world s) = (t0, w0) ->
  APICheck.run_all_tests s =
  (ts <- lift (py_iter (tests (self s))) ;;
   for_each ts APICheck.run_one ;;;
   now <- time_time ;;
   modify_self (set_total_elapsed_time (JFloat (float_sub now t0))))
    (mkMachine
       (mkAPICheck (base_url (self s)) (tests (self s)) 0 0
                   (total_elapsed_time (self s)) (Some []))
       w0 (stdout s) (outfile s)).
Proof.
  intros Hc.
  unfold APICheck.run_all_tests.
  unfold bind at 1, modify_self at 1.
  unfold bind at 1, time_time at 1. simpl. rewrite Hc.
  unfold bind at 1, modify_self at 1.
  unfold bind at 1, modify_self at 1.
  unfold bind at 1, get_self at 1.
  reflexivity.
Qed.

Lemma loop_not_object test rest (s : machine W) t0 w0 :
  clock (world s) = (t0, w0) ->
  (forall d, test <> JObject d) ->
  for_each (test :: rest) APICheck.run_one s =
  (Raise TypeError, mkMachine (self s) w0 (stdout s) (outfile s)).
Proof.
  intros Hc Hd.
  apply loop_Raise with (t0 := t0) (w0 := w0); [exact Hc | | reflexivity].
  now apply run_test_not_object.
Qed.

(** The tests are whatever JSON value the file holds, and
    [run_all_tests] iterates over it.  When it is no array the run ends
    in a [TypeError] with no case recorded: at once for a number, a
    boolean and [null], and at the first key or character, taken for a
    case, for an object or a string.  An empty object and an empty
    string alone run like an empty array. *)
Theorem tests_not_an_array (s : machine W) :
  (forall ts, tests (self s) <> JArray ts) ->
  exists s',
    APICheck.run_all_tests s =
    (if py_eq (tests (self s)) (JObject []) ||
        py_eq (tests (self s)) (JString "")
     then Ok tt else Raise TypeError, s') /\
    results (self s') = Some [] /\
    passed (self s') = 0 /\ failed (self s') = 0 /\
    stdout s' = stdout s /\ outfile s' = outfile s.
Proof.
  intros Ha.
  destruct (clock (world s)) as [t0 w0] eqn:Hc.
  rewrite (run_all_tests_iter _ _ _ Hc).
  destruct (tests (self s)) as [| b | z | f | str | l | d] eqn:Ht.
  1-4: eexists; split; [reflexivity | now repeat split].
  - destruct str as [| c str].
    + unfold bind, lift, time_time, modify_self, ret. cbn.
      destruct (clock w0) as [t1 w2].
      eexists; split; [reflexivity | now repeat split].
    + unfold bind at 1, lift at 1. cbn [py_iter chars].
      unfold bind at 1.
      destruct (clock w0) as [t1 w1] eqn:Hc1.
      rewrite loop_not_object with (t0 := t1) (w0 := w1);
        [| exact Hc1 | intros; discriminate].
      eexists; split; [reflexivity | now repeat split].
  - now elim (Ha l).
  - destruct d as [| [k v] d].
    + unfold bind, lift, time_time, modify_self, ret. cbn.
      destruct (clock w0) as [t1 w2].
      eexists; split; [reflexivity | now repeat split].
    + unfold bind at 1, lift at 1. cbn [py_iter keys map fst].
      unfold bind at 1.
      destruct (clock w0) as [t1 w1] eqn:Hc1.
      rewrite loop_not_object with (t0 := t1) (w0 := w1);
        [| exact Hc1 | intros; discriminate].
      eexists; split; [reflexivity | now repeat split].
Qed.
End TestsShape.

(** ** The report: its content and its destination *)

Section ReportContent.
Context `{Builtins} {W : Type} `{World W}.

Lemma append_to_self out texts (s : machine W) :
  self (append_to out texts s) = self s.
Proof. now destruct out. Qed.

Lemma write_result_lines out entry lines (s : machine W) :
  lines_of entry lines ->
  write_result out entry s = (Ok tt, append_to out lines s).
Proof.
  intros (name & elapsed & [[-> ->] | (msg & -> & ->)]);
    unfold write_result, passed_entry, failed_entry;
    unfold bind, lift; simpl; rewrite !write_append, !append_to_app;
    reflexivity.
Qed.

Lemma write_results_lines out rs ls :
  Forall2 lines_of rs ls ->
  forall s : machine W,
    for_each rs (write_result out) s =
    (Ok tt, append_to out (List.concat ls) s).
Proof.
  induction 1 as [| entry lines rs ls He _ IH]; intros s; simpl.
  - unfold ret. now rewrite append_to_nil.
  - rewrite (bind_Ok _ _ _ _ _ (write_result_lines out entry lines s He)).
    now rewrite IH, append_to_app.
Qed.

(** What the report holds, for an object whose results are entries as
    [run_all_tests] records them and whose total time is a float.  Under
    json, whatever the case of its letters, the document with the four
    numbers of the summary and the results as they are is dumped; under
    text the eight lines of the summary are written, then for each entry
    in order its name, its status and its time, and its error message
    when it FAILED and only then. *)
Theorem report_content (format : string) (out : stream) (s : machine W)
        (rs : list json) (percent : float) :
  results (self s) = Some rs ->
  APICheck.success_percent (self s) = Ok percent ->
  (same_ignoring_case format "json" = true ->
   APICheck.__output_results format out s =
   (Ok tt,
    append_to out (json_dump (report_document (self s) percent rs)) s)) /\
  (same_ignoring_case format "text" = true ->
   forall ls t,
     Forall2 lines_of rs ls ->
     total_elapsed_time (self s) = JFloat t ->
     APICheck.__output_results format out s =
     (Ok tt,
      append_to out
        (summary_lines (passed (self s)) (failed (self s)) percent t
           ++ List.concat ls)%list s)).
Proof.
  intros Hrs Hp. unfold same_ignoring_case.
  change (upper "json") with "JSON". change (upper "text") with "TEXT".
  split.
  - intros Hj.
    unfold APICheck.__output_results, try_except.
    unfold bind at 1, get_self at 1.
    unfold bind at 1, lift at 1. rewrite ?Hp, ?Hj; cbn iota beta.
    unfold get_results, bind at 1, bind at 1, get_self.
    rewrite Hrs. unfold ret. now rewrite write_all.
  - intros Ht ls t Hls Htot.
    assert (Hj : String.eqb (upper format) "JSON" = false).
    { apply String.eqb_eq in Ht. now rewrite Ht. }
    unfold APICheck.__output_results, try_except.
    unfold bind at 1, get_self at 1.
    unfold bind at 1, lift at 1. rewrite Hp, Hj, Ht, Htot.
    unfold percent_f, as_number, get_results.
    unfold bind, lift, get_self, ret. rewrite !write_append. simpl.
    rewrite !append_to_app.
    match goal with
    | |- context [append_to out ?xs s] =>
        assert (R : results (self (append_to out xs s)) = Some rs)
          by (rewrite append_to_self; exact Hrs);
        rewrite R;
        pose proof (write_results_lines out rs ls Hls (append_to out xs s))
          as Hy
    end.
    fold (@bind W) in Hy. rewrite Hy, append_to_app. reflexivity.
Qed.
End ReportContent.

Section ReportDestination.
Context `{Builtins} {W : Type} `{World W}.

Lemma write_result_uniform (res : json) :
  exists r texts,
    forall out (s : machine W),
      write_result out res s = (r, append_to out texts s).
Proof.
  unfold write_result, bind, lift.
  destruct (py_getitem res (JString "name")) as [name | e];
    [| eexists; exists []; intros out s; now rewrite append_to_nil].
  destruct (py_getitem res (JString "status")) as [status | e];
    [| eexists; eexists; intros out s; rewrite write_append; reflexivity].
  destruct (py_getitem res (JString "elapsed_time")) as [elapsed | e];
    [| eexists; eexists; intros out s;
       rewrite write_append; cbn iota beta;
       rewrite write_append, append_to_app; reflexivity].
  destruct (percent_f 6 elapsed) as [text | e];
    [| eexists; eexists; intros out s;
       rewrite write_append; cbn iota beta;
       rewrite write_append, append_to_app; reflexivity].
  destruct (py_eq status (JString "FAILED")).
  - destruct (py_getitem res (JString "error_msg")) as [msg | e];
      eexists; eexists; intros out s;
      repeat (rewrite write_append; cbn iota beta);
      rewrite !append_to_app; reflexivity.
  - eexists; eexists; intros out s;
      repeat (rewrite write_append; cbn iota beta);
      rewrite !append_to_app; reflexivity.
Qed.

Lemma write_results_uniform (rs : list json) :
  exists r texts,
    forall out (s : machine W),
      for_each rs (write_result out) s = (r, append_to out texts s).
Proof.
  induction rs as [| res rs (r & texts & IH)].
  - exists (Ok tt), []. intros out s. simpl. unfold ret.
    now rewrite append_to_nil.
  - destruct (write_result_uniform res) as ([[] | e] & ts & Hres).
    + exists r, (ts ++ texts)%list. intros out s. simpl.
      rewrite (bind_Ok _ _ _ _ _ (Hres out s)), IH.
      now rewrite append_to_app.
    + exists (Raise e), ts. intros out s. simpl.
      now rewrite (bind_Raise _ _ _ _ _ (Hres out s)).
Qed.

(** The body of [__output_results], before its [except] clause. *)
Lemma output_body_uniform (percent : APICheck -> result float)
      (format : string) (o : APICheck) :
  exists r texts,
    forall out (s : machine W),
      self s = o ->
      (o <- get_self ;;
       success_percent <- lift (percent o) ;;
       if String.eqb (upper format) "JSON" then
         rs <- get_results ;;
         for_each
           (json_dump
              (JObject
                 [("summary",
                   JObject [("passed", JInt (passed o));
                            ("failed", JInt (failed o));
                            ("success_percentage", JFloat success_percent);
                            ("total_elapsed_time", total_elapsed_time o)]);
                  ("test_results", JArray rs)]))
           (write out)
       else if String.eqb (upper format) "TEXT" then
         write out ("***" ++ nl) ;;;
         write out ("TEST SUMMARY" ++ nl) ;;;
         write out ("------------" ++ nl) ;;;
         write out ("Tests passed: " ++ format_int (passed o) ++ nl) ;;;
         write out ("Tests failed: " ++ format_int (failed o) ++ nl) ;;;
         write out
           ("Success percentage : "
              ++ format_float 2 (round_float success_percent 2)
              ++ "%" ++ nl) ;;;
         text <- lift (percent_f 3 (total_elapsed_time o)) ;;
         write out ("Total elapsed time: " ++ text ++ " seconds" ++ nl) ;;;
         write out ("***" ++ nl) ;;;
         rs <- get_results ;;
         for_each rs (write_result out)
       else ret tt) s = (r, append_to out texts s).
Proof.
  destruct (percent o) as [p | e] eqn:Hp.
  2:{ exists (Raise e), []. intros out s Hs.
      unfold bind, get_self, lift. rewrite Hs, Hp.
      now rewrite append_to_nil. }
  destruct (String.eqb (upper format) "JSON") eqn:Hj.
  { destruct (results o) as [rs |] eqn:Hrs.
    - eexists; eexists. intros out s Hs.
      unfold bind at 1, get_self at 1. rewrite ?Hs.
      unfold bind at 1, lift at 1. rewrite ?Hp, ?Hj; cbn iota beta.
      unfold get_results, bind at 1, bind at 1, get_self.
      rewrite ?Hs, Hrs. unfold ret. rewrite write_all. reflexivity.
    - exists (Raise AttributeError), []. intros out s Hs.
      unfold bind at 1, get_self at 1. rewrite ?Hs.
      unfold bind at 1, lift at 1. rewrite ?Hp, ?Hj; cbn iota beta.
      unfold get_results, bind at 1, bind at 1, get_self.
      rewrite ?Hs, Hrs. unfold raise. now rewrite append_to_nil. }
  destruct (String.eqb (upper format) "TEXT") eqn:Ht.
  2:{ exists (Ok tt), []. intros out s Hs.
      unfold bind, get_self, lift. rewrite ?Hs, ?Hp, ?Hj, ?Ht; cbn iota beta.
      unfold ret. now rewrite append_to_nil. }
  destruct (percent_f 3 (total_elapsed_time o)) as [text | e] eqn:Htot.
  2:{ eexists; eexists. intros out s Hs.
      unfold bind at 1, get_self at 1. rewrite ?Hs.
      unfold bind at 1, lift at 1. rewrite ?Hp, ?Hj, ?Ht; cbn iota beta.
      unfold bind, lift.
      repeat (rewrite write_append; cbn iota beta).
      rewrite ?append_to_self, ?Hs, Htot, !append_to_app. reflexivity. }
  destruct (results o) as [rs |] eqn:Hrs.
  - destruct (write_results_uniform rs) as (r & texts & Hw).
    eexists; eexists. intros out s Hs.
    unfold bind at 1, get_self at 1. rewrite ?Hs.
    unfold bind at 1, lift at 1. rewrite ?Hp, ?Hj, ?Ht; cbn iota beta.
    unfold get_results.
    unfold bind, lift, get_self, ret.
    repeat (rewrite write_append; cbn iota beta).
    rewrite ?append_to_self, ?Hs, Htot.
    repeat (rewrite write_append; cbn iota beta).
    rewrite ?append_to_self, ?Hs, Hrs.
    fold (@bind W). rewrite Hw, !append_to_app. reflexivity.
  - eexists; eexists. intros out s Hs.
    unfold bind at 1, get_self at 1. rewrite ?Hs.
    unfold bind at 1, lift at 1. rewrite ?Hp, ?Hj, ?Ht; cbn iota beta.
    unfold get_results.
    unfold bind, lift, get_self, raise.
    repeat (rewrite write_append; cbn iota beta).
    rewrite ?append_to_self, ?Hs, Htot.
    repeat (rewrite write_append; cbn iota beta).
    rewrite ?append_to_self, ?Hs, Hrs, !append_to_app. reflexivity.
Qed.

Lemma output_results_destination
      (output : string -> stream -> M W unit) (format : string)
      (s : machine W) :
  (exists r texts,
     forall out (s0 : machine W),
       self s0 = self s ->
       output format out s0 =
       match r with
       | Raise (KeyError key) =>
           print (repr key) (append_to out texts s0)
       | _ => (r, append_to out texts s0)
       end) ->
  exists r texts errors,
    output format Stdout s =
    (r, mkMachine (self s) (world s)
                  (stdout s ++ texts ++ errors)%list (outfile s)) /\
    ((fun s => (Ok tt, mkMachine (self s) (world s) (stdout s) [])) ;;;
     output format Outfile) s =
    (r, mkMachine (self s) (world s) (stdout s ++ errors)%list texts).
Proof.
  intros (r & texts & Hb).
  unfold bind at 1.
  rewrite (Hb Stdout s eq_refl).
  rewrite (Hb Outfile (mkMachine (self s) (world s) (stdout s) []) eq_refl).
  destruct r as [[] | e].
  - exists (Ok tt), texts, []. unfold append_to. simpl.
    now rewrite !app_nil_r.
  - destruct e;
      try (eexists; exists texts, []; unfold append_to; simpl;
           rewrite !app_nil_r; split; reflexivity).
    exists (Ok tt), texts, [(repr key ++ nl)%string].
    unfold print. rewrite !write_append. unfold append_to. simpl.
    rewrite <- app_assoc. split; reflexivity.
Qed.

(** [write_results_to_file] and [print_results] make the same report,
    in both files: whatever the object, the format and the machine, they
    end alike, and the file holds, in place of what it held, exactly the
    text that [print_results] appends to the standard output.  Only the
    text of a [KeyError] goes to the standard output in both. *)
Theorem file_report_as_printed (format : string) (s : machine W) :
  (exists r texts errors,
     APICheck.print_results format s =
     (r, mkMachine (self s) (world s)
                   (stdout s ++ texts ++ errors)%list (outfile s)) /\
     APICheck.write_results_to_file format s =
     (r, mkMachine (self s) (world s) (stdout s ++ errors)%list texts)) /\
  (exists r texts errors,
     Script.print_results format s =
     (r, mkMachine (self s) (world s)
                   (stdout s ++ texts ++ errors)%list (outfile s)) /\
     Script.write_results_to_file format s =
     (r, mkMachine (self s) (world s) (stdout s ++ errors)%list texts)).
Proof.
  split.
  - apply (output_results_destination APICheck.__output_results).
    destruct (output_body_uniform APICheck.success_percent format (self s))
      as (r & texts & Hb).
    exists r, texts. intros out s0 Hs.
    unfold APICheck.__output_results, try_except.
    rewrite (Hb out s0 Hs). destruct r as [[] | []]; reflexivity.
  - apply (output_results_destination Script.__output_results).
    destruct (output_body_uniform Script.success_percent format (self s))
      as (r & texts & Hb).
    exists r, texts. intros out s0 Hs.
    unfold Script.__output_results, try_except.
    rewrite (Hb out s0 Hs). destruct r as [[] | []]; reflexivity.
Qed.
End ReportDestination.

Section ReportBeforeRun.
Context `{Builtins} {W : Type} `{World W}.

(** A report asked for before any run, on the object as [__init__]
    leaves it: [results] is not there yet.  In the packaged module json
    raises [AttributeError] with nothing written, text raises it after
    the eight lines of the summary, which show no test and 0 percent; in
    the stand-alone script every format ends in the division by zero,
    with nothing written. *)
Theorem report_before_run (base : string) (loaded : json) (format : string)
        (out : stream) (w : W) (printed file : list string) :
  (same_ignoring_case format "json" = true ->
   APICheck.__output_results format out
     (mkMachine (APICheck.init base loaded) w printed file) =
   (Raise AttributeError,
    mkMachine (APICheck.init base loaded) w printed file)) /\
  (same_ignoring_case format "text" = true ->
   APICheck.__output_results format out
     (mkMachine (APICheck.init base loaded) w printed file) =
   (Raise AttributeError,
    append_to out
      (summary_lines 0 0 (S754_zero false) (float_of_int 0))
      (mkMachine (APICheck.init base loaded) w printed file))) /\
  Script.__output_results format out
    (mkMachine (Script.init loaded) w printed file) =
  (Raise ZeroDivisionError, mkMachine (Script.init loaded) w printed file).
Proof.
  unfold same_ignoring_case.
  change (upper "json") with "JSON". change (upper "text") with "TEXT".
  split; [| split; [| now apply script_output_results_zero]].
  - intros Hj.
    unfold APICheck.__output_results, try_except.
    unfold bind at 1, get_self at 1.
    unfold bind at 1, lift at 1.
    change (APICheck.success_percent
              (self (mkMachine (APICheck.init base loaded) w printed file)))
      with (Ok (S754_zero false)).
    now rewrite Hj.
  - intros Ht.
    assert (Hj : String.eqb (upper format) "JSON" = false).
    { apply String.eqb_eq in Ht. now rewrite Ht. }
    unfold APICheck.__output_results, try_except.
    unfold bind at 1, get_self at 1.
    unfold bind at 1, lift at 1.
    change (APICheck.success_percent
              (self (mkMachine (APICheck.init base loaded) w printed file)))
      with (Ok (S754_zero false)).
    rewrite Hj, Ht.
    unfold get_results, bind, lift, get_self, raise.
    repeat (rewrite write_append; cbn iota beta).
    cbn [self APICheck.init total_elapsed_time percent_f as_number].
    repeat (rewrite write_append; cbn iota beta).
    rewrite !append_to_self. cbn [self APICheck.init results].
    now rewrite !append_to_app.
Qed.
End ReportBeforeRun.

(** ** What a run leaves alone *)

Section RunFrame.
Context `{Builtins} {W : Type} `{World W}.

Lemma run_frame_refl (s : machine W) : run_frame s s.
Proof. now repeat split. Qed.

Lemma run_frame_trans (s1 s2 s3 : machine W) :
  run_frame s1 s2 -> run_frame s2 s3 -> run_frame s1 s3.
Proof. unfold run_frame. intuition congruence. Qed.

Lemma world_only_run_frame {A : Type} (m : M W A) :
  preserves world_only m -> preserves run_frame m.
Proof.
  intros Hm s r s' X. destruct (Hm s r s' X) as (E1 & E2 & E3).
  unfold run_frame. now rewrite E1, E2, E3.
Qed.

Lemma modify_self_run_frame (f : APICheck -> APICheck) :
  (forall o, base_url (f o) = base_url o /\ tests (f o) = tests o) ->
  preserves run_frame (modify_self (W := W) f).
Proof.
  intros Hf s r s' X. unfold modify_self in X. injection X as <- <-.
  destruct (Hf (self s)) as [B T]. now repeat split.
Qed.

Lemma results_append_run_frame entry :
  preserves run_frame (results_append (W := W) entry).
Proof.
  intros s r s'. unfold results_append, bind, get_self.
  destruct (results (self s)); intros X; injection X as <- <-;
    now repeat split.
Qed.

Ltac run_frame_steps :=
  repeat first
    [ apply world_only_run_frame, time_time_world_only
    | apply world_only_run_frame, run_test_world_only
    | apply world_only_run_frame, script_run_test_world_only
    | apply results_append_run_frame
    | apply modify_self_run_frame; intros ?; now split
    | frame_step run_frame_refl run_frame_trans ].

Lemma run_one_run_frame test :
  preserves run_frame (APICheck.run_one (W := W) test).
Proof. unfold APICheck.run_one. run_frame_steps. Qed.

Lemma script_run_one_run_frame test :
  preserves run_frame (Script.run_one (W := W) test).
Proof. unfold Script.run_one. run_frame_steps. Qed.

Lemma run_all_tests_run_frame :
  preserves run_frame (APICheck.run_all_tests (W := W)).
Proof.
  unfold APICheck.run_all_tests. run_frame_steps.
  apply run_one_run_frame.
Qed.

Lemma script_run_all_tests_run_frame :
  preserves run_frame (Script.run_all_tests (W := W)).
Proof.
  unfold Script.run_all_tests. run_frame_steps.
  apply script_run_one_run_frame.
Qed.

(** Whether it completes or raises, and in both files, [run_all_tests]
    writes nothing to the standard output nor to the file of the report
    and leaves the base URL and the tests as they were: all it changes
    are the counters, the results, the total time and the outside
    world. *)
Theorem run_all_tests_frame (s s' : machine W) (r : result unit) :
  (APICheck.run_all_tests s = (r, s') -> run_frame s s') /\
  (Script.run_all_tests s = (r, s') -> run_frame s s').
Proof.
  split; intros X.
  - exact (run_all_tests_run_frame _ _ _ X).
  - exact (script_run_all_tests_run_frame _ _ _ X).
Qed.
End RunFrame.

(** ** The command line *)

Section CommandLineEndings.
Context `{Builtins} {W : Type} `{World W} `{Files W}.

Lemma report_after_run format (s0 s : machine W) ts :
  tests (self s0) = JArray ts ->
  APICheck.run_all_tests s0 = (Ok tt, s) ->
  exists texts,
    APICheck.print_results format s = (Ok tt, append_to Stdout texts s).
Proof.
  intros Ht X.
  destruct (run_all_tests_results _ _ _ Ht X) as (rs & R & E & _).
  destruct (run_all_tests_total _ _ X) as [t T].
  apply output_results_after_run with (rs := rs) (t := t); auto.
  clear - E. induction E; constructor; eauto using entry_of_shape.
Qed.

(** How [main] ends.  A tests file that is not there, or that is not
    JSON, is reported on the standard output and the command exits with
    status 1 before the clock is read or any request sent.  When the
    file holds an array and the run completes, the report is printed and
    [main] returns: the status of the command says nothing of the cases
    that failed. *)
Theorem main_endings (api_base_url test_file_name format : string)
        (w : W) (out : list string) :
  (forall w1,
     json_load test_file_name w = (Raise FileNotFoundError, w1) ->
     CommandLine.main api_base_url test_file_name format w out =
     (Exited 1,
      (w1, (out ++ [("Cannot open file '" ++ test_file_name
                       ++ "'. File not found." ++ nl)%string])%list))) /\
  (forall w1,
     json_load test_file_name w = (Raise ValueError, w1) ->
     CommandLine.main api_base_url test_file_name format w out =
     (Exited 1,
      (w1, (out ++ [("Cannot decode JSON from file '" ++ test_file_name
                       ++ "'." ++ nl)%string])%list))) /\
  (forall ts w1 s,
     json_load test_file_name w = (Ok (JArray ts), w1) ->
     APICheck.run_all_tests
       (mkMachine (APICheck.init api_base_url (JArray ts)) w1 out []) =
     (Ok tt, s) ->
     exists texts,
       APICheck.print_results format s =
         (Ok tt, append_to Stdout texts s) /\
       CommandLine.main api_base_url test_file_name format w out =
       (Returned, (world s, (out ++ texts)%list))).
Proof.
  repeat split.
  - intros w1 Hl. unfold CommandLine.main. now rewrite Hl.
  - intros w1 Hl. unfold CommandLine.main. now rewrite Hl.
  - intros ts w1 s Hl Hrun.
    assert (Hp : exists texts,
               APICheck.print_results format s =
               (Ok tt, append_to Stdout texts s))
      by (apply (report_after_run format _ s ts) with (2 := Hrun);
          reflexivity).
    destruct Hp as [texts Hp].
    exists texts. split; [exact Hp |].
    unfold CommandLine.main. rewrite Hl.
    cbv zeta. rewrite (bind_Ok _ _ _ _ _ Hrun), Hp.
    destruct (run_all_tests_run_frame _ _ _ Hrun) as (O & _).
    simpl in *. now rewrite O.
Qed.

(** The command of the stand-alone script on a tests file that holds the
    empty array: nothing is printed and the [ZeroDivisionError] of the
    report goes up, after the two readings of the clock. *)
Theorem script_main_empty_tests (test_file_name format : string)
        (w w1 w2 w3 : W) (out : list string) t0 t1 :
  json_load test_file_name w = (Ok (JArray []), w1) ->
  clock w1 = (t0, w2) ->
  clock w2 = (t1, w3) ->
  CommandLine.script_main test_file_name format w out =
  (Uncaught ZeroDivisionError, (w3, out)).
Proof.
  intros Hl Hc Hc1. unfold CommandLine.script_main. rewrite Hl.
  cbv zeta.
  assert (Hrun :
    Script.run_all_tests (mkMachine (Script.init (JArray [])) w1 out []) =
    (Ok tt,
     mkMachine (mkAPICheck "" (JArray []) 0 0
                           (JFloat (float_sub t1 t0)) (Some []))
               w3 out [])).
  { rewrite (script_run_all_tests_start _ [] t0 w2); [| reflexivity | exact Hc].
    unfold bind, time_time, modify_self. simpl. now rewrite Hc1. }
  rewrite (bind_Ok _ _ _ _ _ Hrun).
  unfold Script.print_results.
  rewrite script_output_results_zero by reflexivity.
  reflexivity.
Qed.
End CommandLineEndings.

(** ** The requests of a run *)

Section RequestLog.
Context `{Builtins} {W : Type} {HW : World W}.
#[local] Existing Instance logged.

Lemma clock_log (wl : W * list request) t wl' :
  clock wl = (t, wl') -> snd wl' = snd wl.
Proof.
  unfold clock, logged. destruct (clock (fst wl)).
  intros X. now injection X as _ <-.
Qed.

Lemma requests_json_log req (s s1 : machine (W * list request)) r :
  requests_json req s = (r, s1) ->
  snd (world s1) = (snd (world s) ++ [req])%list.
Proof.
  unfold requests_json, send, logged.
  destruct (send req (fst (world s))).
  intros X. now injection X as _ <-.
Qed.

Lemma send_request_log test (s s1 : machine (W * list request)) r :
  APICheck.send_request test s = (r, s1) ->
  snd (world s1) =
  (snd (world s) ++ sent (request_of (base_url (self s)) test))%list.
Proof.
  assert (Hstop : forall e : exn,
            (Raise e : result json, s) = (r, s1) ->
            snd (world s1) = (snd (world s) ++ [])%list).
  { intros e X. injection X as _ <-. now rewrite app_nil_r. }
  destruct test as [| b | z | f | str | l | d];
    try (unfold APICheck.send_request, bind, lift; apply Hstop).
  unfold request_of.
  destruct (lookup "name" d) as [name |] eqn:Hn.
  2:{ unfold APICheck.send_request, bind, lift.
      rewrite getitem_object, Hn. apply Hstop. }
  destruct (lookup "url" d) as [url |] eqn:Hu.
  2:{ unfold APICheck.send_request, bind, lift, get_self.
      rewrite !getitem_object, Hn, Hu. apply Hstop. }
  destruct url as [| b | z | f | url | l | o];
    try (unfold APICheck.send_request, bind, lift, get_self;
         rewrite !getitem_object, Hn, Hu; apply Hstop).
  destruct (lookup "method" d) as [method |] eqn:Hm.
  2:{ unfold APICheck.send_request, bind, lift, get_self.
      rewrite !getitem_object, Hn, Hu, Hm. apply Hstop. }
  destruct method as [| b | z | f | method | l | o];
    try (unfold APICheck.send_request, bind, lift, get_self;
         rewrite !getitem_object, Hn, Hu, Hm; apply Hstop).
  rewrite (send_request_dispatch _ _ _ _ _ Hn Hu Hm).
  destruct (dispatch (base_url (self s)) url method (lookup "payload" d))
    as [req | msg].
  - apply requests_json_log.
  - apply Hstop.
Qed.

Lemma run_test_log test (s s1 : machine (W * list request)) r :
  APICheck.__run_test test s = (r, s1) ->
  snd (world s1) =
  (snd (world s) ++ sent (request_of (base_url (self s)) test))%list.
Proof.
  unfold APICheck.__run_test, APICheck.fetch_response.
  unfold bind, try_except.
  destruct (APICheck.send_request test s) as [[resp | e] s2] eqn:E;
    apply send_request_log in E.
  - unfold lift. intros X. now injection X as _ <-.
  - destruct e; unfold raise; intros X; now injection X as _ <-.
Qed.

Lemma run_one_log test (s s' : machine (W * list request)) r rs :
  results (self s) = Some rs ->
  APICheck.run_one test s = (r, s') ->
  snd (world s') =
  (snd (world s) ++ sent (request_of (base_url (self s)) test))%list.
Proof.
  intros Hrs X.
  destruct (clock (world s)) as [t0 w0] eqn:Hc.
  pose proof (clock_log _ _ _ Hc) as L0.
  destruct (APICheck.__run_test test
              (mkMachine (self s) w0 (stdout s) (outfile s)))
    as [[[] | e] s1] eqn:Hr;
    pose proof (run_test_log _ _ _ _ Hr) as L1; simpl in L1;
    rewrite L0 in L1.
  - destruct (clock (world s1)) as [t1 w2] eqn:Hc1.
    rewrite (run_one_PASSED _ _ _ _ _ _ _ _ Hc Hr Hc1 Hrs) in X.
    injection X as _ <-. simpl.
    now rewrite (clock_log _ _ _ Hc1).
  - destruct (is_TestFailedException e) eqn:He.
    + destruct e; try discriminate He.
      destruct (clock (world s1)) as [t1 w2] eqn:Hc1.
      rewrite (run_one_FAILED _ _ _ _ _ _ _ _ _ Hc Hr Hc1 Hrs) in X.
      injection X as _ <-. simpl.
      now rewrite (clock_log _ _ _ Hc1).
    + rewrite (run_one_Raise _ _ _ _ _ _ Hc Hr He) in X.
      now injection X as _ <-.
Qed.

Lemma requests_of_cons base test ts :
  requests_of base (test :: ts) =
  (sent (request_of base test) ++ requests_of base ts)%list.
Proof. reflexivity. Qed.

Lemma loop_log ts : forall (s s' : machine (W * list request)) r rs,
  results (self s) = Some rs ->
  for_each ts APICheck.run_one s = (r, s') ->
  (exists n,
     snd (world s') =
     (snd (world s) ++ requests_of (base_url (self s)) (firstn n ts))%list) /\
  (r = Ok tt ->
   snd (world s') = (snd (world s) ++ requests_of (base_url (self s)) ts)%list).
Proof.
  induction ts as [| test ts IH]; intros s s' r rs Hrs X; simpl in X.
  - injection X as _ <-. rewrite app_nil_r.
    split; [exists 0%nat; simpl; now rewrite app_nil_r | reflexivity].
  - apply bind_inv in X as [([] & s1 & X1 & X2) | (e & X1 & ->)].
    + pose proof (run_one_log _ _ _ _ _ Hrs X1) as L1.
      destruct (run_one_run_frame _ _ _ _ X1) as (_ & _ & B & _).
      destruct (run_one_cases _ _ _ _ _ Hrs X1) as (_ & _ & elapsed & Hs1).
      assert (exists rs1, results (self s1) = Some rs1) as [rs1 R1].
      { destruct Hs1 as [-> | (msg & ->)]; eexists; reflexivity. }
      destruct (IH _ _ _ _ R1 X2) as [(n & Ln) Lok].
      rewrite B in Ln, Lok. rewrite L1 in Ln, Lok.
      rewrite requests_of_cons. split.
      * exists (S n). simpl firstn. rewrite requests_of_cons.
        now rewrite Ln, <- app_assoc.
      * intros E. now rewrite (Lok E), <- app_assoc.
    + pose proof (run_one_log _ _ _ _ _ Hrs X1) as L1.
      split; [| discriminate].
      exists 1%nat. simpl firstn. rewrite requests_of_cons.
      simpl. now rewrite app_nil_r.
Qed.

(** The requests a run sends, read on a world that keeps them.  When
    [run_all_tests] completes, the requests sent are those of the cases,
    one for each case that has one and in the order of the cases: a case
    whose checks fail sends its request once, and a malformed case sends
    none.  When the run is ended by an error, they are the requests of
    the first cases, up to the one that raised. *)
Theorem requests_of_a_run (s s' : machine (W * list request))
        (ts : list json) (r : result unit) :
  tests (self s) = JArray ts ->
  APICheck.run_all_tests s = (r, s') ->
  (exists n,
     log s' =
     (log s ++ requests_of (base_url (self s)) (firstn n ts))%list) /\
  (r = Ok tt ->
   log s' = (log s ++ requests_of (base_url (self s)) ts)%list).
Proof.
  unfold log. intros Ht X.
  destruct (clock (world s)) as [t0 w0] eqn:Hc.
  pose proof (clock_log _ _ _ Hc) as L0.
  rewrite (run_all_tests_start _ _ _ _ Ht Hc) in X.
  apply bind_inv in X as [([] & s1 & X1 & X2) | (e & X1 & ->)].
  - apply loop_log with (rs := []) in X1; [| reflexivity].
    simpl in X1. rewrite L0 in X1.
    unfold bind, time_time, modify_self in X2.
    destruct (clock (world s1)) as [t1 w2] eqn:Hc1.
    injection X2 as <- <-. simpl.
    now rewrite (clock_log _ _ _ Hc1).
  - apply loop_log with (rs := []) in X1; [| reflexivity].
    simpl in X1. now rewrite L0 in X1.
Qed.
End RequestLog.

(** ** The percentage at its two ends *)

Lemma float_of_ratio_same (p : Z) :
  0 < p -> float_of_ratio p p = float_of_int 1.
Proof.
  intros Hp. destruct p as [| p | p]; try lia.
  unfold float_of_ratio, SFdiv, SFdiv_core_binary.
  rewrite !Z.add_0_r, !Z.sub_diag.
  change (fexp b64_prec b64_emax 0) with (-53).
  change (Z.min (-53) 0) with (-53).
  change (0 - -53) with 53.
  cbv iota beta.
  change IntDef.Z.div_eucl with Z.div_eucl.
  change IntDef.Z.shiftl with Z.shiftl.
  destruct (Z.div_eucl (Z.shiftl (Z.pos p) 53) (Z.pos p)) as [q r] eqn:E.
  assert (Hq : q = 2 ^ 53).
  { change q with (fst (q, r)). rewrite <- E.
    change (fst (Z.div_eucl (Z.shiftl (Z.pos p) 53) (Z.pos p)))
      with (Z.shiftl (Z.pos p) 53 / Z.pos p).
    rewrite Z.shiftl_mul_pow2 by lia.
    rewrite Z.mul_comm. apply Z.div_mul. lia. }
  assert (Hr : r = 0).
  { change r with (snd (q, r)). rewrite <- E.
    change (snd (Z.div_eucl (Z.shiftl (Z.pos p) 53) (Z.pos p)))
      with (Z.shiftl (Z.pos p) 53 mod Z.pos p).
    rewrite Z.shiftl_mul_pow2 by lia.
    rewrite Z.mul_comm. apply Z.mod_mul. lia. }
  subst q r. unfold new_location, new_location_even, new_location_odd.
  destruct (Z.even (Z.pos p)); vm_compute; reflexivity.
Qed.

Lemma float_of_ratio_zero (n : Z) :
  0 < n -> float_of_ratio 0 n = S754_zero false.
Proof. intros Hn. destruct n; try lia. reflexivity. Qed.

Section Percentage.
Context `{Builtins}.

(** The percentage of the report at its two ends, in both files: a run
    in which every case passed shows exactly 100.0, without rounding
    error however many the cases, and a run in which every case failed
    shows 0.0. *)
Theorem percent_extremes (o : APICheck) :
  (0 < passed o -> failed o = 0 ->
   APICheck.success_percent o = Ok (float_of_int 100) /\
   Script.success_percent o = Ok (float_of_int 100)) /\
  (passed o = 0 -> 0 < failed o ->
   APICheck.success_percent o = Ok (S754_zero false) /\
   Script.success_percent o = Ok (S754_zero false)).
Proof.
  unfold APICheck.success_percent, Script.success_percent, int_truediv.
  split.
  - intros Hp ->. rewrite Z.add_0_r.
    destruct (Z.gtb_spec (passed o) 0) as [_ | G]; [| lia].
    destruct (Z.eqb_spec (passed o) 0) as [E | _]; [lia |].
    cbn [and_then]. rewrite (float_of_ratio_same _ Hp).
    split; vm_compute; reflexivity.
  - intros -> Hf. rewrite Z.add_0_l.
    destruct (Z.gtb_spec (failed o) 0) as [_ | G]; [| lia].
    destruct (Z.eqb_spec (failed o) 0) as [E | _]; [lia |].
    cbn [and_then]. rewrite (float_of_ratio_zero _ Hf).
    split; reflexivity.
Qed.
End Percentage.

Lemma percent_extremes_witness :
  APICheck.success_percent (mkAPICheck "http://host" JNull 7 0 (JInt 0) None)
  = Ok (float_of_int 100).
Proof.
  apply (proj1 (percent_extremes
                  (mkAPICheck "http://host" JNull 7 0 (JInt 0) None)));
    [reflexivity | reflexivity].
Defined.

(** ** The exceptions that leave a run *)

(** What the subscription, the iteration and the membership test
    raise. *)
Lemma getitem_raises c k e :
  py_getitem c k = Raise e ->
  e = KeyError k \/ e = TypeError \/ e = IndexError.
Proof.
  unfold py_getitem, seq_index.
  destruct c as [| b | z | f | s | l | d]; try (intros X; injection X as <-; tauto).
  - destruct (as_index k) as [i |]; [| intros X; injection X as <-; tauto].
    destruct ((0 <=? (if i <? 0 then i + Z.of_nat (String.length s) else i)) &&
              ((if i <? 0 then i + Z.of_nat (String.length s) else i)
               <? Z.of_nat (String.length s)))%bool;
      [| intros X; injection X as <-; tauto].
    destruct (option_map _ _); intros X; [discriminate |].
    injection X as <-; tauto.
  - destruct (as_index k) as [i |]; [| intros X; injection X as <-; tauto].
    destruct ((0 <=? (if i <? 0 then i + Z.of_nat (List.length l) else i)) &&
              ((if i <? 0 then i + Z.of_nat (List.length l) else i)
               <? Z.of_nat (List.length l)))%bool;
      [| intros X; injection X as <-; tauto].
    destruct (nth_error _ _); intros X; [discriminate |].
    injection X as <-; tauto.
  - destruct (hashable k); [| intros X; injection X as <-; tauto].
    destruct k; try (intros X; injection X as <-; tauto).
    destruct (lookup s d); intros X; [discriminate |].
    injection X as <-; tauto.
Qed.

Lemma iter_raises c e : py_iter c = Raise e -> e = TypeError.
Proof. destruct c; intros X; try discriminate X; now injection X as <-. Qed.

Lemma contains_raises k c e : py_contains k c = Raise e -> e = TypeError.
Proof. destruct c; intros X; try discriminate X; now injection X as <-. Qed.

Lemma and_then_raises {A B : Type} (r : result A) (k : A -> result B) e :
  and_then r k = Raise e ->
  r = Raise e \/ exists a, r = Ok a /\ k a = Raise e.
Proof.
  destruct r as [a | e']; simpl; intros X.
  - right. now exists a.
  - left. now injection X as ->.
Qed.

Lemma each_raises {A : Type} (xs : list A) (f : A -> result unit) e :
  each xs f = Raise e -> exists x, f x = Raise e.
Proof.
  induction xs as [| x xs IH]; simpl; [discriminate |].
  intros X. apply and_then_raises in X as [X | (a & _ & X)]; eauto.
Qed.

Ltac raised :=
  repeat
    match goal with
    | Y : and_then _ _ = Raise _ |- _ =>
        apply and_then_raises in Y as [Y | (? & _ & Y)]
    | Y : each _ _ = Raise _ |- _ => apply each_raises in Y as [? Y]
    | Y : py_getitem _ _ = Raise _ |- _ =>
        apply getitem_raises in Y as [-> | [-> | ->]]
    | Y : py_iter _ = Raise _ |- _ => apply iter_raises in Y as ->
    | Y : py_contains _ _ = Raise _ |- _ => apply contains_raises in Y as ->
    | Y : (if ?b then _ else _) = Raise _ |- _ => destruct b
    | Y : Ok _ = Raise _ |- _ => discriminate Y
    | Y : Raise _ = Raise _ |- _ => injection Y as <-
    end.

Section Escapes.
Context `{Builtins} {W : Type} `{World W}.

Lemma check_values_raises test resp e :
  APICheck.check_values test resp = Raise e -> e <> ValueError.
Proof.
  unfold APICheck.check_values. intros X. raised; discriminate.
Qed.

Lemma check_types_raises test resp e :
  APICheck.check_types test resp = Raise e -> e <> ValueError.
Proof.
  unfold APICheck.check_types, APICheck.__test_expected_type.
  intros X. raised; discriminate.
Qed.

Lemma run_checks_raises test resp e :
  APICheck.run_checks test resp = Raise e ->
  reported_by_request e = true -> is_TestFailedException e = true.
Proof.
  unfold APICheck.run_checks, catch.
  destruct (_ <-- APICheck.check_values test resp ;;
            APICheck.check_types test resp) as [[] | e'] eqn:E;
    [discriminate |].
  assert (He : e' <> ValueError).
  { apply and_then_raises in E as [E | (a & _ & E)];
      [eapply check_values_raises | eapply check_types_raises]; eassumption. }
  destruct e'; intros X; injection X as <-; try reflexivity;
    try discriminate. now elim He.
Qed.

Lemma run_test_raises test (s s1 : machine W) e :
  APICheck.__run_test test s = (Raise e, s1) ->
  reported_by_request e = true -> is_TestFailedException e = true.
Proof.
  unfold APICheck.__run_test, APICheck.fetch_response.
  unfold bind, try_except.
  destruct (APICheck.send_request test s) as [[resp | e'] s2].
  - unfold lift. intros X. injection X as X _.
    exact (run_checks_raises _ _ _ X).
  - destruct e'; unfold raise; intros X; injection X as <- _;
      try reflexivity; discriminate.
Qed.

Lemma run_one_escapes test (s s' : machine W) e rs :
  results (self s) = Some rs ->
  APICheck.run_one test s = (Raise e, s') ->
  reported_by_request e = false.
Proof.
  intros Hrs X.
  destruct (clock (world s)) as [t0 w0] eqn:Hc.
  destruct (APICheck.__run_test test
              (mkMachine (self s) w0 (stdout s) (outfile s)))
    as [[[] | e'] s1] eqn:Hr.
  - destruct (clock (world s1)) as [t1 w2] eqn:Hc1.
    rewrite (run_one_PASSED _ _ _ _ _ _ _ _ Hc Hr Hc1 Hrs) in X.
    discriminate X.
  - destruct (is_TestFailedException e') eqn:He.
    + destruct e'; try discriminate He.
      destruct (clock (world s1)) as [t1 w2] eqn:Hc1.
      rewrite (run_one_FAILED _ _ _ _ _ _ _ _ _ Hc Hr Hc1 Hrs) in X.
      discriminate X.
    + rewrite (run_one_Raise _ _ _ _ _ _ Hc Hr He) in X.
      injection X as <- _.
      pose proof (run_test_raises _ _ _ _ Hr) as Hk.
      destruct (reported_by_request e'); [| reflexivity].
      rewrite Hk in He by reflexivity. discriminate He.
Qed.

Lemma loop_escapes ts : forall (s s' : machine W) rs e,
  results (self s) = Some rs ->
  for_each ts APICheck.run_one s = (Raise e, s') ->
  reported_by_request e = false.
Proof.
  induction ts as [| test ts IH]; intros s s' rs e Hrs X; simpl in X.
  - discriminate X.
  - apply bind_inv in X as [([] & s1 & X1 & X2) | (e' & X1 & Y)].
    + destruct (run_one_cases _ _ _ _ _ Hrs X1) as (_ & _ & elapsed & Hs1).
      assert (exists rs1, results (self s1) = Some rs1) as [rs1 R1].
      { destruct Hs1 as [-> | (msg & ->)]; eexists; reflexivity. }
      eapply IH; eassumption.
    + injection Y as <-. eapply run_one_escapes; eassumption.
Qed.

(** In the packaged module no [KeyError] and no [ValueError] leaves
    [run_all_tests], any more than a [TestFailedException]: whatever
    raised it while a case ran, the case's fields, the HTTP library, the
    decoding of the body or the checks, it became the failure of that
    case.  What ends a run is an exception of another class. *)
Theorem run_all_tests_escapes (s s' : machine W) (e : exn) :
  APICheck.run_all_tests s = (Raise e, s') ->
  reported_by_request e = false.
Proof.
  intros X.
  destruct (clock (world s)) as [t0 w0] eqn:Hc.
  rewrite (run_all_tests_iter _ _ _ Hc) in X.
  apply bind_inv in X as [(ts & s1 & X1 & X2) | (e' & X1 & Y)].
  - unfold lift in X1. injection X1 as X1 <-.
    apply bind_inv in X2 as [([] & s2 & X2 & X3) | (e' & X2 & Y)].
    + unfold bind, time_time, modify_self in X3.
      destruct (clock (world s2)). discriminate X3.
    + injection Y as <-.
      eapply loop_escapes with (rs := []); [| eassumption]. reflexivity.
  - injection Y as <-. unfold lift in X1. injection X1 as X1 _.
    now apply iter_raises in X1 as ->.
Qed.
End Escapes.

(** ** The further properties on the stand-in world *)

Lemma non_object_response_aborts_witness :
  for_each [test_on_list; test_item_id] APICheck.run_one
    (boot (mkAPICheck "http://host" JNull 0 0 (JInt 0) (Some []))) =
  (Raise TypeError,
   mkMachine (mkAPICheck "http://host" JNull 0 0 (JInt 0) (Some []))
             1 [] []).
Proof.
  apply (non_object_response_aborts
           [("name", JString "count"); ("url", JString "/items");
            ("method", JString "GET");
            ("expected_response_values", JObject [("id", JInt 1)])]
           [("id", JInt 1)] [] [test_item_id]
           (boot (mkAPICheck "http://host" JNull 0 0 (JInt 0) (Some [])))
           (mkMachine (mkAPICheck "http://host" JNull 0 0 (JInt 0) (Some []))
                      1 [] [])
           (float_of_int 0) 1 (JArray [])).
  - reflexivity.
  - reflexivity.
  - intros o; discriminate.
  - left; reflexivity.
  - right; split; reflexivity.
  - left; discriminate.
Defined.

Lemma nameless_case_witness :
  for_each [script_no_name; test_item_id] APICheck.run_one
    (boot (mkAPICheck "http://host" JNull 0 0 (JInt 0) (Some []))) =
  for_each [test_item_id] APICheck.run_one
    (mkMachine
       (record_failed
          (failed_entry (JString "ERROR: NAME NOT PROVIDED")
             (float_sub (float_of_int 1) (float_of_int 0))
             "Malformed test. Must provide 'name' in tests file.")
          [] (mkAPICheck "http://host" JNull 0 0 (JInt 0) (Some [])))
       2 [] []).
Proof.
  assert (Hc : clock (world (boot (mkAPICheck "http://host" JNull 0 0
                                              (JInt 0) (Some []))))
               = (float_of_int 0, 1)) by reflexivity.
  assert (Hc1 : clock 1 = (float_of_int 1, 2)) by reflexivity.
  exact (proj1 (nameless_case
                  [("url", JString "http://host/item");
                   ("method", JString "GET")]
                  [test_item_id]
                  (boot (mkAPICheck "http://host" JNull 0 0 (JInt 0)
                                    (Some [])))
                  (float_of_int 0) 1 (float_of_int 1) 2 []
                  eq_refl Hc Hc1 eq_refl)).
Defined.

Lemma ill_shaped_case_aborts_witness :
  for_each [JObject [("name", JString "n"); ("url", JString "/item");
                     ("method", JInt 1)];
            test_item_id] APICheck.run_one
    (boot (mkAPICheck "http://host" JNull 0 0 (JInt 0) (Some []))) =
  (Raise AttributeError,
   mkMachine (mkAPICheck "http://host" JNull 0 0 (JInt 0) (Some []))
             1 [] []).
Proof.
  assert (Hc : clock (world (boot (mkAPICheck "http://host" JNull 0 0
                                              (JInt 0) (Some []))))
               = (float_of_int 0, 1)) by reflexivity.
  apply (proj2 (proj2
    (ill_shaped_case_aborts
       (JObject [("name", JString "n"); ("url", JString "/item");
                 ("method", JInt 1)])
       [test_item_id]
       (boot (mkAPICheck "http://host" JNull 0 0 (JInt 0) (Some [])))
       (float_of_int 0) 1 Hc))
    [("name", JString "n"); ("url", JString "/item"); ("method", JInt 1)]
    (JString "n") "/item" (JInt 1)); try reflexivity.
  intros m; discriminate.
Defined.

Lemma tests_not_an_array_witness :
  exists s',
    APICheck.run_all_tests
      (boot (APICheck.init "http://host"
                           (JObject [("name", JString "n")]))) =
    (Raise TypeError, s') /\
    results (self s') = Some [].
Proof.
  destruct (tests_not_an_array
              (boot (APICheck.init "http://host"
                                   (JObject [("name", JString "n")]))))
    as (s' & X & R & _).
  - intros ts; discriminate.
  - exists s'. split; [exact X | exact R].
Defined.

Lemma report_content_witness :
  APICheck.__output_results "Text" Stdout (boot after_two_cases) =
  (Ok tt,
   append_to Stdout
     (List.app
        (summary_lines 1 1 (percentage 1 1) (float_of_int 2))
        ["item" ++ nl;
         tab ++ "Status:PASSED" ++ nl;
         tab ++ "Elapsed time: <float>" ++ nl;
         "put" ++ nl;
         tab ++ "Status:FAILED" ++ nl;
         tab ++ "Elapsed time: <float>" ++ nl;
         tab ++ "Error message: "
           ++ "Malformed test. Allowed methods are GET and POST" ++ nl])
     (boot after_two_cases)).
Proof.
  apply (proj2 (report_content "Text" Stdout (boot after_two_cases)
                  [passed_entry (JString "item") (float_of_int 1);
                   failed_entry (JString "put") (float_of_int 1)
                     "Malformed test. Allowed methods are GET and POST"]
                  (percentage 1 1) eq_refl eq_refl)
               eq_refl
               [["item" ++ nl;
                 tab ++ "Status:PASSED" ++ nl;
                 tab ++ "Elapsed time: <float>" ++ nl];
                ["put" ++ nl;
                 tab ++ "Status:FAILED" ++ nl;
                 tab ++ "Elapsed time: <float>" ++ nl;
                 tab ++ "Error message: "
                   ++ "Malformed test. Allowed methods are GET and POST"
                   ++ nl]]
               (float_of_int 2)).
  - constructor; [| constructor; [| constructor]].
    + exists (JString "item"), (float_of_int 1). left. split; reflexivity.
    + exists (JString "put"), (float_of_int 1). right.
      exists "Malformed test. Allowed methods are GET and POST".
      split; reflexivity.
  - reflexivity.
Defined.

Lemma report_before_run_witness :
  APICheck.__output_results "TEXT" Stdout
    (boot (APICheck.init "http://host" (JArray [test_item_id]))) =
  (Raise AttributeError,
   append_to Stdout
     (summary_lines 0 0 (S754_zero false) (float_of_int 0))
     (boot (APICheck.init "http://host" (JArray [test_item_id])))).
Proof.
  exact (proj1 (proj2 (report_before_run "http://host"
                         (JArray [test_item_id]) "TEXT" Stdout 0 [] []))
               eq_refl).
Defined.

Lemma run_all_tests_frame_witness :
  run_frame
    (boot (APICheck.init "http://host" (JArray [test_item_id; test_put])))
    (snd (APICheck.run_all_tests
            (boot (APICheck.init "http://host"
                     (JArray [test_item_id; test_put]))))).
Proof.
  apply (proj1 (run_all_tests_frame
                  (boot (APICheck.init "http://host"
                           (JArray [test_item_id; test_put])))
                  (snd (APICheck.run_all_tests
                          (boot (APICheck.init "http://host"
                                   (JArray [test_item_id; test_put])))))
                  (fst (APICheck.run_all_tests
                          (boot (APICheck.init "http://host"
                                   (JArray [test_item_id; test_put]))))))).
  apply surjective_pairing.
Defined.

Lemma main_endings_witness :
  CommandLine.main "http://host" "nowhere.json" "json" 0 [] =
  (Exited 1, (0, ["Cannot open file 'nowhere.json'. File not found." ++ nl]))
  /\
  exists texts,
    CommandLine.main "http://host" "tests.json" "text" 0 [] =
    (Returned, (6, texts)).
Proof.
  split.
  - apply (proj1 (main_endings "http://host" "nowhere.json" "json" 0 []) 0).
    reflexivity.
  - assert (Hrun :
      APICheck.run_all_tests
        (mkMachine (APICheck.init "http://host"
                      (JArray [test_item_id; test_put])) 0 [] []) =
      (Ok tt,
       snd (APICheck.run_all_tests
              (mkMachine (APICheck.init "http://host"
                            (JArray [test_item_id; test_put])) 0 [] []))))
      by (vm_compute; reflexivity).
    assert (Hl : json_load "tests.json" 0 =
                 (Ok (JArray [test_item_id; test_put]), 0)) by reflexivity.
    destruct (proj2 (proj2 (main_endings "http://host" "tests.json" "text"
                              0 []))
                [test_item_id; test_put] 0 _ Hl Hrun)
      as (texts & _ & Hm).
    exists texts. exact Hm.
Defined.

Lemma script_main_empty_tests_witness :
  CommandLine.script_main "empty.json" "json" 0 [] =
  (Uncaught ZeroDivisionError, (2, [])).
Proof.
  apply (script_main_empty_tests "empty.json" "json" 0 0 1 2 []
           (float_of_int 0) (float_of_int 1)); reflexivity.
Defined.

Lemma requests_of_a_run_witness :
  log (snd (@APICheck.run_all_tests _ _ (@logged Z stub_world)
              (mkMachine
                 (APICheck.init "http://host"
                    (JArray [test_item_id; test_put; test_post]))
                 (0, []) [] []))) =
  [mkRequest GET (JString "http://host/item") None;
   mkRequest POST (JString "http://host/item")
             (Some (JObject [("title", JString "a")]))].
Proof.
  assert (Hrun :
    @APICheck.run_all_tests _ _ (@logged Z stub_world)
      (mkMachine
         (APICheck.init "http://host"
            (JArray [test_item_id; test_put; test_post]))
         (0, []) [] []) =
    (Ok tt,
     snd (@APICheck.run_all_tests _ _ (@logged Z stub_world)
            (mkMachine
               (APICheck.init "http://host"
                  (JArray [test_item_id; test_put; test_post]))
               (0, []) [] []))))
    by (vm_compute; reflexivity).
  exact (proj2 (requests_of_a_run
                  (mkMachine
                     (APICheck.init "http://host"
                        (JArray [test_item_id; test_put; test_post]))
                     (0, []) [] [])
                  _ [test_item_id; test_put; test_post]
                  (Ok tt) eq_refl Hrun) eq_refl).
Defined.

Lemma run_all_tests_escapes_witness :
  fst (APICheck.run_all_tests
         (boot (APICheck.init "http://host"
                  (JArray [test_on_list; test_item_id])))) =
  Raise TypeError /\
  reported_by_request TypeError = false.
Proof.
  assert (Hrun :
    APICheck.run_all_tests
      (boot (APICheck.init "http://host"
               (JArray [test_on_list; test_item_id]))) =
    (Raise TypeError,
     snd (APICheck.run_all_tests
            (boot (APICheck.init "http://host"
                     (JArray [test_on_list; test_item_id]))))))
    by (vm_compute; reflexivity).
  split.
  - now rewrite Hrun.
  - exact (run_all_tests_escapes _ _ TypeError Hrun).
Defined.
